(** * XBridge session: the trader-side and Hub-side packet handlers

    A shallow embedding of [src/xbridge/xbridgesession.cpp] (class
    [Session::Impl]).  A handler of the C++ code is a [bool]-returning
    method that reads a packet and mutates the process-wide singletons
    ([xbridge::App], [xbridge::Exchange]) and the order objects they own;
    here it is a function from the state of these singletons (a [World]) and
    a packet to the returned [bool] and the new [World].

    The collaborators the file only calls (the wallet connectors, the
    packet signature check, the Hub's [Exchange], the service-node list and
    the [double] arithmetic of the amounts) are parameters of the
    development; every call to the network, to the user interface and to a
    wallet that has an effect is recorded in the [trace] of the [World]. *)

From Stdlib Require Import ZArith List String Ascii Bool Lia.
From Stdlib Require QArith.
From Stdlib.Strings Require Import Byte.
From stdpp Require Import gmap strings list fin_maps.
Import ListNotations.
Open Scope Z_scope.

(** ** Bytes, and the reads and writes of a packet body *)

(** [std::vector<unsigned char>] *)
Abbreviation bytes := (list byte).

#[global] Instance byte_eq_dec : EqDecision byte.
Proof.
  intros a b. destruct (N.eq_dec (Byte.to_N a) (Byte.to_N b)) as [E|E].
  - left. apply (f_equal Byte.of_N) in E.
    rewrite !Byte.of_to_N in E. congruence.
  - right. intros ->. apply E. reflexivity.
Defined.

#[global] Instance byte_countable : Countable byte :=
  inj_countable Byte.to_N Byte.of_N Byte.of_to_N.

(** [std::vector<unsigned char>(p + off, p + off + len)] *)
Definition bytes_at (off len : nat) (d : bytes) : bytes :=
  firstn len (skipn off d).

(** Little-endian value of a run of bytes: what
    [*reinterpret_cast<uintN_t *>(p)] reads on the supported targets. *)
Fixpoint le_to_Z (bs : bytes) : Z :=
  match bs with
  | [] => 0
  | b :: r => Z.of_N (Byte.to_N b) + 256 * le_to_Z r
  end.

Definition byte_of_Z (z : Z) : byte :=
  match Byte.of_N (Z.to_N (z mod 256)) with
  | Some b => b
  | None => x00
  end.

(** The [n] low bytes of [z], least significant first. *)
Fixpoint Z_to_le (n : nat) (z : Z) : bytes :=
  match n with
  | O => []
  | S k => byte_of_Z z :: Z_to_le k (z / 256)
  end.

Definition uint32_at (off : nat) (d : bytes) : Z := le_to_Z (bytes_at off 4 d).
Definition uint64_at (off : nat) (d : bytes) : Z := le_to_Z (bytes_at off 8 d).

(** The bytes before the first NUL: a [std::string] built from a
    [const char] pointer into the body. *)
Fixpoint cstr (d : bytes) : bytes :=
  match d with
  | [] => []
  | b :: r => if decide (b = x00) then [] else b :: cstr r
  end.

Definition string_at (off : nat) (d : bytes) : string :=
  string_of_list_byte (cstr (skipn off d)).

(** [uint256::IsNull] *)
Definition IsNull (h : bytes) : bool := forallb (fun b => bool_decide (b = x00)) h.

(** ** Constants of [XBridgePacket] *)

(** Modelled from the spec: [xbridgepacket.h] is not among the sources; the
    sizes are those of section 6 ("hash=32, addr=20, pub=33, sig=65"). *)
Module XBridgePacket.
Definition hashSize : nat := 32.
Definition addressSize : nat := 20.
Definition pubkeySize : nat := 33.
Definition signatureSize : nat := 65.
End XBridgePacket.

(** Modelled from the spec: the command set of section 6, in its order. *)
Inductive XBridgeCommand :=
| xbcInvalid | xbcAnnounce | xbcXChatMessage | xbcServicesPing
| xbcTransaction | xbcPendingTransaction | xbcTransactionAccepting
| xbcTransactionHoldApply | xbcTransactionHold
| xbcTransactionInit | xbcTransactionInitialized
| xbcTransactionCreateA | xbcTransactionCreateB
| xbcTransactionCreatedA | xbcTransactionCreatedB
| xbcTransactionConfirmA | xbcTransactionConfirmB
| xbcTransactionConfirmedA | xbcTransactionConfirmedB
| xbcTransactionCancel | xbcTransactionFinished.

(** A packet: the command, the body ([data()], of [size()] bytes), and the
    sender's key and signature of the header. *)
Record Packet := mkPacket {
  command : XBridgeCommand;
  data : bytes;
  pubkey : bytes;
  packet_signature : bytes
}.

Definition size (p : Packet) : Z := Z.of_nat (length (data p)).

(** [XBridgePacket::append], in its overloads. *)
Definition append (v : bytes) (p : Packet) : Packet :=
  mkPacket (command p) (data p ++ v) (pubkey p) (packet_signature p).
Definition append_hash (h : bytes) (p : Packet) : Packet :=
  append (firstn XBridgePacket.hashSize h) p.
Definition append_uint32 (z : Z) (p : Packet) : Packet := append (Z_to_le 4 z) p.
Definition append_uint64 (z : Z) (p : Packet) : Packet := append (Z_to_le 8 z) p.
Definition append_string (s : string) (p : Packet) : Packet :=
  append (list_byte_of_string s ++ [x00]) p.

Definition newPacket (c : XBridgeCommand) : Packet := mkPacket c [] [] [].

(** The signature scheme of the packets.  [xbridgepacket.h] is not among
    the sources: the check of a signature and the signature a private key
    makes of a command and a body are parameters. *)
Class PacketOps := {
  (** [packet->verify(pubkey)] *)
  verify : Packet -> bytes -> bool;
  signature_of : bytes -> XBridgeCommand -> bytes -> bytes
}.

(** Modelled from the spec: [packet->sign(pubkey, privkey)] (section 4.1:
    a packet carries the key of its sender and a signature over the
    version, the command and the payload). *)
Definition sign `{PacketOps} (pubkey' privkey : bytes) (p : Packet) : Packet :=
  mkPacket (command p) (data p) pubkey' (signature_of privkey (command p) (data p)).

(** ** Amounts in coins: the [double] of the C++ code *)

(** The arithmetic and the comparisons of [double], kept abstract: the
    handlers only combine amounts, no property below needs more of the
    arithmetic than is assumed where it is used. *)
Class DoubleOps := {
  double : Type;
  d_zero : double;
  (** [static_cast<double>(uint64_t)] *)
  d_of_uint64 : Z -> double;
  d_add : double -> double -> double;
  d_sub : double -> double -> double;
  d_mul : double -> double -> double;
  d_div : double -> double -> double;
  (** [a < b] and [a <= b]; [a > b] is [d_lt b a], [a >= b] is [d_le b a] *)
  d_lt : double -> double -> bool;
  d_le : double -> double -> bool
}.

Declare Scope double_scope.
Delimit Scope double_scope with D.
Infix "+" := d_add : double_scope.
Infix "-" := d_sub : double_scope.
Infix "*" := d_mul : double_scope.
Infix "/" := d_div : double_scope.
Infix "<?" := d_lt : double_scope.
Notation "a >? b" := (d_lt b a) : double_scope.
Notation "a >=? b" := (d_le b a) : double_scope.

(** ** Enumerations *)

(** Modelled from the spec: [TransactionDescr::State] is declared in
    [xbridgetransactiondescr.h], which is not among the sources.  The states
    are those of section 4.3; the integer each one stands for is the
    parameter [state_code] below, and a property that needs to know how two
    states compare says so in a hypothesis. *)
Inductive State :=
| trNew | trPending | trAccepting | trHold | trInitialized | trCreated
| trCommited | trFinished
| trCancelled | trRollback | trRollbackFailed | trDropped | trExpired.

#[global] Instance State_eq_dec : EqDecision State.
Proof. solve_decision. Defined.

(** Modelled from the spec: the state of an order in the Hub's view
    ([xbridge::Transaction::State], in [xbridgetransaction.h], not among the
    sources); the handlers only test it for equality. *)
Module Transaction.
Inductive State :=
| trNew | trJoined | trHold | trInitialized | trCreated | trFinished
| trCancelled | trDropped | trInvalid.
#[global] Instance State_eq_dec : EqDecision State.
Proof. solve_decision. Defined.
End Transaction.

(** Modelled from the spec: the cancel reasons of section 6. *)
Inductive TxCancelReason :=
| crBadAddress | crBadUtxo | crBadADepositTx | crBadBDepositTx
| crBlocknetError | crRpcError | crNoMoney | crInvalidAddress
| crTimeout | crRollback | crUserRequest.

(** The numeric constants the handlers use and whose declarations are not
    among the sources. *)
Class Constants := {
  (** the integer value of a [TransactionDescr::State] *)
  state_code : State -> Z;
  (** [static_cast<uint32_t>(reason)] *)
  reason_code : TxCancelReason -> Z;
  (** [RPCErrorCode], of [rpc/protocol.h] *)
  RPC_VERIFY_ERROR : Z;
  RPC_VERIFY_ALREADY_IN_CHAIN : Z;
  (** [TransactionDescr::COIN], as a [double] is made of it *)
  COIN : Z;
  (** [xtx->maxOtherPayTxTries()] *)
  maxOtherPayTxTries : Z
}.

Section Model.
Context `{DoubleOps} `{PacketOps} `{Constants}.

(** The comparisons of two states are comparisons of their integers. *)
Definition state_lt (a b : State) : bool := state_code a <? state_code b.
Definition state_gt (a b : State) : bool := state_code b <? state_code a.
Definition state_ge (a b : State) : bool := state_code b <=? state_code a.

(** [static_cast<double>(amount) / TransactionDescr::COIN] *)
Definition coins (amount : Z) : double := (d_of_uint64 amount / d_of_uint64 COIN)%D.

(** ** Wallet types *)

(** Modelled from the spec: [wallet::UtxoEntry] ([xbridgewalletconnector.h]
    is not among the sources), with the members the handlers read and
    write. *)
Record UtxoEntry := mkUtxo {
  txId : string;
  vout : Z;
  amount : double;
  address : string;
  rawAddress : bytes;
  signature : bytes
}.

(** A default-constructed entry. *)
Definition UtxoEntry_default : UtxoEntry :=
  mkUtxo EmptyString 0 d_zero EmptyString [] [].

(** [xbridge::XTxIn(txid, n, amount)] *)
Record XTxIn := mkXTxIn { txin_txid : string; txin_n : Z; txin_amount : double }.

(** [rpc::WalletInfo]: the handlers read the block count. *)
Record WalletInfo := mkInfo { blocks : Z }.

(** The interface of a wallet connector (section 4.4 and 6 of the spec; the
    connectors themselves are out of scope).  A method that answers through
    reference parameters is a function that returns what it stored in them
    next to its [bool].  The answers are those that the wallet gives while
    one packet is handled; what it answers to a later packet is another
    connector, of another [Env]. *)
Record WalletConnector := mkConn {
  currency : string;
  fromXAddr : bytes -> string;
  (** fills the amount of the entry *)
  getTxOut : UtxoEntry -> bool * UtxoEntry;
  (** [verifyMessage(entry.address, entry.toString(), EncodeBase64(entry.signature))] *)
  verifyMessage : UtxoEntry -> bool;
  isDustAmount : double -> bool;
  minTxFee1 : Z -> Z -> double;
  minTxFee2 : Z -> Z -> double;
  conn_lockTime : ascii -> Z;
  acceptableLockTimeDrift : ascii -> Z -> bool;
  getKeyId : bytes -> bytes;
  createDepositUnlockScript : bytes -> bytes -> bytes -> Z -> bytes;
  getScriptId : bytes -> bytes;
  scriptIdToString : bytes -> string;
  (** answers (txid, vout, raw transaction) *)
  createDepositTransaction :
    list XTxIn -> list (string * double) -> bool * (string * Z * string);
  (** answers (txid, raw transaction) *)
  createRefundTransaction :
    list XTxIn -> list (string * double) -> bytes -> bytes -> bytes -> Z ->
    bool * (string * string);
  createPaymentTransaction :
    list XTxIn -> list (string * double) -> bytes -> bytes -> bytes -> bytes ->
    bool * (string * string);
  getNewAddress : bool * string;
  getInfo : bool * WalletInfo;
  (** answers (sent id, error code) *)
  sendRawTransaction : string -> bool * (string * Z);
  (** [checkDepositTransaction(txid, std::string(), amount, voutN, p2sh, overpayment, isGood)]
      is given [voutN] and [overpayment] as they are and answers
      (voutN, overpayment, isGood) *)
  checkDepositTransaction :
    string -> double -> Z -> string -> double -> bool * (Z * double * bool);
  (** answers (secret, isGood) *)
  getSecretFromPaymentTransaction :
    string -> string -> Z -> bytes -> bool * (bytes * bool)
}.

(** What a handler asks of the rest of the process while it runs. *)
Record Env := mkEnv {
  (** [xapp.connectorByCurrency(currency)], [None] for a null pointer *)
  connectorByCurrency : string -> option WalletConnector;
  (** [CPubKey::IsFullyValid] of the key made of the packet's key *)
  IsFullyValid : bytes -> bool;
  (** [CPubKey::Decompress], [None] when it fails *)
  Decompress : bytes -> option bytes;
  (** whether [ServiceNodeMgr::getSn(key)] is a service node (not null) *)
  getSn : bytes -> bool;
  (** [rpc::storeDataIntoBlockchain(rawFeeTx, txid)] *)
  storeDataIntoBlockchain : string -> bool * string;
  (** [uint256S] and [uint256::ToString] *)
  uint256S : string -> bytes;
  ToString : bytes -> string;
  (** the address of the session: 20 random bytes drawn by [init] *)
  m_myid : bytes;
  (** the clock read by [updateTimestamp] *)
  currentTime : Z;
  (** the double SHA-256 of [CHashWriter], over the serialized fields of an
      order *)
  orderHash : string -> string -> Z -> string -> string -> Z -> Z -> bytes -> bytes -> bytes
}.

(** ** The order, as a trader sees it *)

(** Modelled from the spec: [TransactionDescr] ([xbridgetransactiondescr.h]
    is not among the sources), with the members of section 3 that the
    handlers read and write.  A member function of the class that only
    reads or sets a private flag is the flag itself here. *)
Record TransactionDescr := mkDescr {
  id : bytes;  (* order id (uint256) *)
  role : ascii;  (* 'A' (Maker) or 'B' (Taker) *)
  state : State;
  reason : Z;  (* TxCancelReason, as the uint32 of the wire *)
  local : bool;  (* what isLocal() answers *)
  hubAddress : bytes;
  created : Z;
  txtime : Z;  (* set by updateTimestamp() *)
  blockHash : bytes;
  from : bytes;
  fromCurrency : string;
  fromAmount : Z;
  to : bytes;
  toCurrency : string;
  toAmount : Z;
  sPubKey : bytes;  (* the Hub's key, fixed at first contact *)
  mPubKey : bytes;
  mPrivKey : bytes;
  oPubKey : bytes;  (* counterparty's key *)
  xPubKey : bytes;  (* Maker only: the key whose id is the hashed secret *)
  xSecret : option bytes;  (* hasSecret() / secret() / setSecret() *)
  oHashedSecret : bytes;
  lockTime : Z;
  opponentLockTime : Z;
  lockScript : bytes;
  lockP2SHAddress : string;
  binTxId : string;
  binTxVout : Z;
  binTx : string;
  refTxId : string;
  refTx : string;
  refundAddress : string;  (* what refundAddress() answers *)
  oBinTxId : string;
  oBinTxVout : Z;
  unlockScript : bytes;
  unlockP2SHAddress : string;
  oOverpayment : double;
  payTxId : string;
  payTx : string;
  usedCoins : list UtxoEntry;
  feeUtxos : list (string * Z);
  rawFeeTx : string;
  otherPayTxId : string;
  otherPayTxTries : Z;
  doneWatchingFlag : bool;  (* doneWatching() / isDoneWatching() *)
  watchBlock : Z;
  depositSent : bool;  (* sentDeposit() / failDeposit() / didSendDeposit() *)
  counterpartyRedeemed : bool  (* counterpartyDepositRedeemed() / hasRedeemedCounterpartyDeposit() *)
}.

(** Assignment to one member of the order: [xtx->f = v]. *)
Definition set_id (v : bytes) (x : TransactionDescr) : TransactionDescr :=
  mkDescr v (role x) (state x) (reason x) (local x) (hubAddress x) (created x)
    (txtime x) (blockHash x) (from x) (fromCurrency x) (fromAmount x) (to x)
    (toCurrency x) (toAmount x) (sPubKey x) (mPubKey x) (mPrivKey x) (oPubKey x)
    (xPubKey x) (xSecret x) (oHashedSecret x) (lockTime x) (opponentLockTime x)
    (lockScript x) (lockP2SHAddress x) (binTxId x) (binTxVout x) (binTx x)
    (refTxId x) (refTx x) (refundAddress x) (oBinTxId x) (oBinTxVout x)
    (unlockScript x) (unlockP2SHAddress x) (oOverpayment x) (payTxId x) (payTx
    x) (usedCoins x) (feeUtxos x) (rawFeeTx x) (otherPayTxId x) (otherPayTxTries
    x) (doneWatchingFlag x) (watchBlock x) (depositSent x) (counterpartyRedeemed
    x).
Definition set_hubAddress (v : bytes) (x : TransactionDescr) : TransactionDescr :=
  mkDescr (id x) (role x) (state x) (reason x) (local x) v (created x) (txtime
    x) (blockHash x) (from x) (fromCurrency x) (fromAmount x) (to x) (toCurrency
    x) (toAmount x) (sPubKey x) (mPubKey x) (mPrivKey x) (oPubKey x) (xPubKey x)
    (xSecret x) (oHashedSecret x) (lockTime x) (opponentLockTime x) (lockScript
    x) (lockP2SHAddress x) (binTxId x) (binTxVout x) (binTx x) (refTxId x)
    (refTx x) (refundAddress x) (oBinTxId x) (oBinTxVout x) (unlockScript x)
    (unlockP2SHAddress x) (oOverpayment x) (payTxId x) (payTx x) (usedCoins x)
    (feeUtxos x) (rawFeeTx x) (otherPayTxId x) (otherPayTxTries x)
    (doneWatchingFlag x) (watchBlock x) (depositSent x) (counterpartyRedeemed x).
Definition set_created (v : Z) (x : TransactionDescr) : TransactionDescr :=
  mkDescr (id x) (role x) (state x) (reason x) (local x) (hubAddress x) v
    (txtime x) (blockHash x) (from x) (fromCurrency x) (fromAmount x) (to x)
    (toCurrency x) (toAmount x) (sPubKey x) (mPubKey x) (mPrivKey x) (oPubKey x)
    (xPubKey x) (xSecret x) (oHashedSecret x) (lockTime x) (opponentLockTime x)
    (lockScript x) (lockP2SHAddress x) (binTxId x) (binTxVout x) (binTx x)
    (refTxId x) (refTx x) (refundAddress x) (oBinTxId x) (oBinTxVout x)
    (unlockScript x) (unlockP2SHAddress x) (oOverpayment x) (payTxId x) (payTx
    x) (usedCoins x) (feeUtxos x) (rawFeeTx x) (otherPayTxId x) (otherPayTxTries
    x) (doneWatchingFlag x) (watchBlock x) (depositSent x) (counterpartyRedeemed
    x).
Definition set_blockHash (v : bytes) (x : TransactionDescr) : TransactionDescr :=
  mkDescr (id x) (role x) (state x) (reason x) (local x) (hubAddress x)
    (created x) (txtime x) v (from x) (fromCurrency x) (fromAmount x) (to x)
    (toCurrency x) (toAmount x) (sPubKey x) (mPubKey x) (mPrivKey x) (oPubKey x)
    (xPubKey x) (xSecret x) (oHashedSecret x) (lockTime x) (opponentLockTime x)
    (lockScript x) (lockP2SHAddress x) (binTxId x) (binTxVout x) (binTx x)
    (refTxId x) (refTx x) (refundAddress x) (oBinTxId x) (oBinTxVout x)
    (unlockScript x) (unlockP2SHAddress x) (oOverpayment x) (payTxId x) (payTx
    x) (usedCoins x) (feeUtxos x) (rawFeeTx x) (otherPayTxId x) (otherPayTxTries
    x) (doneWatchingFlag x) (watchBlock x) (depositSent x) (counterpartyRedeemed
    x).
Definition set_fromCurrency (v : string) (x : TransactionDescr) : TransactionDescr :=
  mkDescr (id x) (role x) (state x) (reason x) (local x) (hubAddress x)
    (created x) (txtime x) (blockHash x) (from x) v (fromAmount x) (to x)
    (toCurrency x) (toAmount x) (sPubKey x) (mPubKey x) (mPrivKey x) (oPubKey x)
    (xPubKey x) (xSecret x) (oHashedSecret x) (lockTime x) (opponentLockTime x)
    (lockScript x) (lockP2SHAddress x) (binTxId x) (binTxVout x) (binTx x)
    (refTxId x) (refTx x) (refundAddress x) (oBinTxId x) (oBinTxVout x)
    (unlockScript x) (unlockP2SHAddress x) (oOverpayment x) (payTxId x) (payTx
    x) (usedCoins x) (feeUtxos x) (rawFeeTx x) (otherPayTxId x) (otherPayTxTries
    x) (doneWatchingFlag x) (watchBlock x) (depositSent x) (counterpartyRedeemed
    x).
Definition set_fromAmount (v : Z) (x : TransactionDescr) : TransactionDescr :=
  mkDescr (id x) (role x) (state x) (reason x) (local x) (hubAddress x)
    (created x) (txtime x) (blockHash x) (from x) (fromCurrency x) v (to x)
    (toCurrency x) (toAmount x) (sPubKey x) (mPubKey x) (mPrivKey x) (oPubKey x)
    (xPubKey x) (xSecret x) (oHashedSecret x) (lockTime x) (opponentLockTime x)
    (lockScript x) (lockP2SHAddress x) (binTxId x) (binTxVout x) (binTx x)
    (refTxId x) (refTx x) (refundAddress x) (oBinTxId x) (oBinTxVout x)
    (unlockScript x) (unlockP2SHAddress x) (oOverpayment x) (payTxId x) (payTx
    x) (usedCoins x) (feeUtxos x) (rawFeeTx x) (otherPayTxId x) (otherPayTxTries
    x) (doneWatchingFlag x) (watchBlock x) (depositSent x) (counterpartyRedeemed
    x).
Definition set_toCurrency (v : string) (x : TransactionDescr) : TransactionDescr :=
  mkDescr (id x) (role x) (state x) (reason x) (local x) (hubAddress x)
    (created x) (txtime x) (blockHash x) (from x) (fromCurrency x) (fromAmount
    x) (to x) v (toAmount x) (sPubKey x) (mPubKey x) (mPrivKey x) (oPubKey x)
    (xPubKey x) (xSecret x) (oHashedSecret x) (lockTime x) (opponentLockTime x)
    (lockScript x) (lockP2SHAddress x) (binTxId x) (binTxVout x) (binTx x)
    (refTxId x) (refTx x) (refundAddress x) (oBinTxId x) (oBinTxVout x)
    (unlockScript x) (unlockP2SHAddress x) (oOverpayment x) (payTxId x) (payTx
    x) (usedCoins x) (feeUtxos x) (rawFeeTx x) (otherPayTxId x) (otherPayTxTries
    x) (doneWatchingFlag x) (watchBlock x) (depositSent x) (counterpartyRedeemed
    x).
Definition set_toAmount (v : Z) (x : TransactionDescr) : TransactionDescr :=
  mkDescr (id x) (role x) (state x) (reason x) (local x) (hubAddress x)
    (created x) (txtime x) (blockHash x) (from x) (fromCurrency x) (fromAmount
    x) (to x) (toCurrency x) v (sPubKey x) (mPubKey x) (mPrivKey x) (oPubKey x)
    (xPubKey x) (xSecret x) (oHashedSecret x) (lockTime x) (opponentLockTime x)
    (lockScript x) (lockP2SHAddress x) (binTxId x) (binTxVout x) (binTx x)
    (refTxId x) (refTx x) (refundAddress x) (oBinTxId x) (oBinTxVout x)
    (unlockScript x) (unlockP2SHAddress x) (oOverpayment x) (payTxId x) (payTx
    x) (usedCoins x) (feeUtxos x) (rawFeeTx x) (otherPayTxId x) (otherPayTxTries
    x) (doneWatchingFlag x) (watchBlock x) (depositSent x) (counterpartyRedeemed
    x).
Definition set_sPubKey (v : bytes) (x : TransactionDescr) : TransactionDescr :=
  mkDescr (id x) (role x) (state x) (reason x) (local x) (hubAddress x)
    (created x) (txtime x) (blockHash x) (from x) (fromCurrency x) (fromAmount
    x) (to x) (toCurrency x) (toAmount x) v (mPubKey x) (mPrivKey x) (oPubKey x)
    (xPubKey x) (xSecret x) (oHashedSecret x) (lockTime x) (opponentLockTime x)
    (lockScript x) (lockP2SHAddress x) (binTxId x) (binTxVout x) (binTx x)
    (refTxId x) (refTx x) (refundAddress x) (oBinTxId x) (oBinTxVout x)
    (unlockScript x) (unlockP2SHAddress x) (oOverpayment x) (payTxId x) (payTx
    x) (usedCoins x) (feeUtxos x) (rawFeeTx x) (otherPayTxId x) (otherPayTxTries
    x) (doneWatchingFlag x) (watchBlock x) (depositSent x) (counterpartyRedeemed
    x).
Definition set_state (v : State) (x : TransactionDescr) : TransactionDescr :=
  mkDescr (id x) (role x) v (reason x) (local x) (hubAddress x) (created x)
    (txtime x) (blockHash x) (from x) (fromCurrency x) (fromAmount x) (to x)
    (toCurrency x) (toAmount x) (sPubKey x) (mPubKey x) (mPrivKey x) (oPubKey x)
    (xPubKey x) (xSecret x) (oHashedSecret x) (lockTime x) (opponentLockTime x)
    (lockScript x) (lockP2SHAddress x) (binTxId x) (binTxVout x) (binTx x)
    (refTxId x) (refTx x) (refundAddress x) (oBinTxId x) (oBinTxVout x)
    (unlockScript x) (unlockP2SHAddress x) (oOverpayment x) (payTxId x) (payTx
    x) (usedCoins x) (feeUtxos x) (rawFeeTx x) (otherPayTxId x) (otherPayTxTries
    x) (doneWatchingFlag x) (watchBlock x) (depositSent x) (counterpartyRedeemed
    x).
Definition set_reason (v : Z) (x : TransactionDescr) : TransactionDescr :=
  mkDescr (id x) (role x) (state x) v (local x) (hubAddress x) (created x)
    (txtime x) (blockHash x) (from x) (fromCurrency x) (fromAmount x) (to x)
    (toCurrency x) (toAmount x) (sPubKey x) (mPubKey x) (mPrivKey x) (oPubKey x)
    (xPubKey x) (xSecret x) (oHashedSecret x) (lockTime x) (opponentLockTime x)
    (lockScript x) (lockP2SHAddress x) (binTxId x) (binTxVout x) (binTx x)
    (refTxId x) (refTx x) (refundAddress x) (oBinTxId x) (oBinTxVout x)
    (unlockScript x) (unlockP2SHAddress x) (oOverpayment x) (payTxId x) (payTx
    x) (usedCoins x) (feeUtxos x) (rawFeeTx x) (otherPayTxId x) (otherPayTxTries
    x) (doneWatchingFlag x) (watchBlock x) (depositSent x) (counterpartyRedeemed
    x).
Definition set_txtime (v : Z) (x : TransactionDescr) : TransactionDescr :=
  mkDescr (id x) (role x) (state x) (reason x) (local x) (hubAddress x)
    (created x) v (blockHash x) (from x) (fromCurrency x) (fromAmount x) (to x)
    (toCurrency x) (toAmount x) (sPubKey x) (mPubKey x) (mPrivKey x) (oPubKey x)
    (xPubKey x) (xSecret x) (oHashedSecret x) (lockTime x) (opponentLockTime x)
    (lockScript x) (lockP2SHAddress x) (binTxId x) (binTxVout x) (binTx x)
    (refTxId x) (refTx x) (refundAddress x) (oBinTxId x) (oBinTxVout x)
    (unlockScript x) (unlockP2SHAddress x) (oOverpayment x) (payTxId x) (payTx
    x) (usedCoins x) (feeUtxos x) (rawFeeTx x) (otherPayTxId x) (otherPayTxTries
    x) (doneWatchingFlag x) (watchBlock x) (depositSent x) (counterpartyRedeemed
    x).
Definition set_oPubKey (v : bytes) (x : TransactionDescr) : TransactionDescr :=
  mkDescr (id x) (role x) (state x) (reason x) (local x) (hubAddress x)
    (created x) (txtime x) (blockHash x) (from x) (fromCurrency x) (fromAmount
    x) (to x) (toCurrency x) (toAmount x) (sPubKey x) (mPubKey x) (mPrivKey x) v
    (xPubKey x) (xSecret x) (oHashedSecret x) (lockTime x) (opponentLockTime x)
    (lockScript x) (lockP2SHAddress x) (binTxId x) (binTxVout x) (binTx x)
    (refTxId x) (refTx x) (refundAddress x) (oBinTxId x) (oBinTxVout x)
    (unlockScript x) (unlockP2SHAddress x) (oOverpayment x) (payTxId x) (payTx
    x) (usedCoins x) (feeUtxos x) (rawFeeTx x) (otherPayTxId x) (otherPayTxTries
    x) (doneWatchingFlag x) (watchBlock x) (depositSent x) (counterpartyRedeemed
    x).
Definition set_xSecret (v : option bytes) (x : TransactionDescr) : TransactionDescr :=
  mkDescr (id x) (role x) (state x) (reason x) (local x) (hubAddress x)
    (created x) (txtime x) (blockHash x) (from x) (fromCurrency x) (fromAmount
    x) (to x) (toCurrency x) (toAmount x) (sPubKey x) (mPubKey x) (mPrivKey x)
    (oPubKey x) (xPubKey x) v (oHashedSecret x) (lockTime x) (opponentLockTime
    x) (lockScript x) (lockP2SHAddress x) (binTxId x) (binTxVout x) (binTx x)
    (refTxId x) (refTx x) (refundAddress x) (oBinTxId x) (oBinTxVout x)
    (unlockScript x) (unlockP2SHAddress x) (oOverpayment x) (payTxId x) (payTx
    x) (usedCoins x) (feeUtxos x) (rawFeeTx x) (otherPayTxId x) (otherPayTxTries
    x) (doneWatchingFlag x) (watchBlock x) (depositSent x) (counterpartyRedeemed
    x).
Definition set_oHashedSecret (v : bytes) (x : TransactionDescr) : TransactionDescr :=
  mkDescr (id x) (role x) (state x) (reason x) (local x) (hubAddress x)
    (created x) (txtime x) (blockHash x) (from x) (fromCurrency x) (fromAmount
    x) (to x) (toCurrency x) (toAmount x) (sPubKey x) (mPubKey x) (mPrivKey x)
    (oPubKey x) (xPubKey x) (xSecret x) v (lockTime x) (opponentLockTime x)
    (lockScript x) (lockP2SHAddress x) (binTxId x) (binTxVout x) (binTx x)
    (refTxId x) (refTx x) (refundAddress x) (oBinTxId x) (oBinTxVout x)
    (unlockScript x) (unlockP2SHAddress x) (oOverpayment x) (payTxId x) (payTx
    x) (usedCoins x) (feeUtxos x) (rawFeeTx x) (otherPayTxId x) (otherPayTxTries
    x) (doneWatchingFlag x) (watchBlock x) (depositSent x) (counterpartyRedeemed
    x).
Definition set_lockTime (v : Z) (x : TransactionDescr) : TransactionDescr :=
  mkDescr (id x) (role x) (state x) (reason x) (local x) (hubAddress x)
    (created x) (txtime x) (blockHash x) (from x) (fromCurrency x) (fromAmount
    x) (to x) (toCurrency x) (toAmount x) (sPubKey x) (mPubKey x) (mPrivKey x)
    (oPubKey x) (xPubKey x) (xSecret x) (oHashedSecret x) v (opponentLockTime x)
    (lockScript x) (lockP2SHAddress x) (binTxId x) (binTxVout x) (binTx x)
    (refTxId x) (refTx x) (refundAddress x) (oBinTxId x) (oBinTxVout x)
    (unlockScript x) (unlockP2SHAddress x) (oOverpayment x) (payTxId x) (payTx
    x) (usedCoins x) (feeUtxos x) (rawFeeTx x) (otherPayTxId x) (otherPayTxTries
    x) (doneWatchingFlag x) (watchBlock x) (depositSent x) (counterpartyRedeemed
    x).
Definition set_opponentLockTime (v : Z) (x : TransactionDescr) : TransactionDescr :=
  mkDescr (id x) (role x) (state x) (reason x) (local x) (hubAddress x)
    (created x) (txtime x) (blockHash x) (from x) (fromCurrency x) (fromAmount
    x) (to x) (toCurrency x) (toAmount x) (sPubKey x) (mPubKey x) (mPrivKey x)
    (oPubKey x) (xPubKey x) (xSecret x) (oHashedSecret x) (lockTime x) v
    (lockScript x) (lockP2SHAddress x) (binTxId x) (binTxVout x) (binTx x)
    (refTxId x) (refTx x) (refundAddress x) (oBinTxId x) (oBinTxVout x)
    (unlockScript x) (unlockP2SHAddress x) (oOverpayment x) (payTxId x) (payTx
    x) (usedCoins x) (feeUtxos x) (rawFeeTx x) (otherPayTxId x) (otherPayTxTries
    x) (doneWatchingFlag x) (watchBlock x) (depositSent x) (counterpartyRedeemed
    x).
Definition set_lockScript (v : bytes) (x : TransactionDescr) : TransactionDescr :=
  mkDescr (id x) (role x) (state x) (reason x) (local x) (hubAddress x)
    (created x) (txtime x) (blockHash x) (from x) (fromCurrency x) (fromAmount
    x) (to x) (toCurrency x) (toAmount x) (sPubKey x) (mPubKey x) (mPrivKey x)
    (oPubKey x) (xPubKey x) (xSecret x) (oHashedSecret x) (lockTime x)
    (opponentLockTime x) v (lockP2SHAddress x) (binTxId x) (binTxVout x) (binTx
    x) (refTxId x) (refTx x) (refundAddress x) (oBinTxId x) (oBinTxVout x)
    (unlockScript x) (unlockP2SHAddress x) (oOverpayment x) (payTxId x) (payTx
    x) (usedCoins x) (feeUtxos x) (rawFeeTx x) (otherPayTxId x) (otherPayTxTries
    x) (doneWatchingFlag x) (watchBlock x) (depositSent x) (counterpartyRedeemed
    x).
Definition set_lockP2SHAddress (v : string) (x : TransactionDescr) : TransactionDescr :=
  mkDescr (id x) (role x) (state x) (reason x) (local x) (hubAddress x)
    (created x) (txtime x) (blockHash x) (from x) (fromCurrency x) (fromAmount
    x) (to x) (toCurrency x) (toAmount x) (sPubKey x) (mPubKey x) (mPrivKey x)
    (oPubKey x) (xPubKey x) (xSecret x) (oHashedSecret x) (lockTime x)
    (opponentLockTime x) (lockScript x) v (binTxId x) (binTxVout x) (binTx x)
    (refTxId x) (refTx x) (refundAddress x) (oBinTxId x) (oBinTxVout x)
    (unlockScript x) (unlockP2SHAddress x) (oOverpayment x) (payTxId x) (payTx
    x) (usedCoins x) (feeUtxos x) (rawFeeTx x) (otherPayTxId x) (otherPayTxTries
    x) (doneWatchingFlag x) (watchBlock x) (depositSent x) (counterpartyRedeemed
    x).
Definition set_binTxId (v : string) (x : TransactionDescr) : TransactionDescr :=
  mkDescr (id x) (role x) (state x) (reason x) (local x) (hubAddress x)
    (created x) (txtime x) (blockHash x) (from x) (fromCurrency x) (fromAmount
    x) (to x) (toCurrency x) (toAmount x) (sPubKey x) (mPubKey x) (mPrivKey x)
    (oPubKey x) (xPubKey x) (xSecret x) (oHashedSecret x) (lockTime x)
    (opponentLockTime x) (lockScript x) (lockP2SHAddress x) v (binTxVout x)
    (binTx x) (refTxId x) (refTx x) (refundAddress x) (oBinTxId x) (oBinTxVout
    x) (unlockScript x) (unlockP2SHAddress x) (oOverpayment x) (payTxId x)
    (payTx x) (usedCoins x) (feeUtxos x) (rawFeeTx x) (otherPayTxId x)
    (otherPayTxTries x) (doneWatchingFlag x) (watchBlock x) (depositSent x)
    (counterpartyRedeemed x).
Definition set_binTxVout (v : Z) (x : TransactionDescr) : TransactionDescr :=
  mkDescr (id x) (role x) (state x) (reason x) (local x) (hubAddress x)
    (created x) (txtime x) (blockHash x) (from x) (fromCurrency x) (fromAmount
    x) (to x) (toCurrency x) (toAmount x) (sPubKey x) (mPubKey x) (mPrivKey x)
    (oPubKey x) (xPubKey x) (xSecret x) (oHashedSecret x) (lockTime x)
    (opponentLockTime x) (lockScript x) (lockP2SHAddress x) (binTxId x) v (binTx
    x) (refTxId x) (refTx x) (refundAddress x) (oBinTxId x) (oBinTxVout x)
    (unlockScript x) (unlockP2SHAddress x) (oOverpayment x) (payTxId x) (payTx
    x) (usedCoins x) (feeUtxos x) (rawFeeTx x) (otherPayTxId x) (otherPayTxTries
    x) (doneWatchingFlag x) (watchBlock x) (depositSent x) (counterpartyRedeemed
    x).
Definition set_binTx (v : string) (x : TransactionDescr) : TransactionDescr :=
  mkDescr (id x) (role x) (state x) (reason x) (local x) (hubAddress x)
    (created x) (txtime x) (blockHash x) (from x) (fromCurrency x) (fromAmount
    x) (to x) (toCurrency x) (toAmount x) (sPubKey x) (mPubKey x) (mPrivKey x)
    (oPubKey x) (xPubKey x) (xSecret x) (oHashedSecret x) (lockTime x)
    (opponentLockTime x) (lockScript x) (lockP2SHAddress x) (binTxId x)
    (binTxVout x) v (refTxId x) (refTx x) (refundAddress x) (oBinTxId x)
    (oBinTxVout x) (unlockScript x) (unlockP2SHAddress x) (oOverpayment x)
    (payTxId x) (payTx x) (usedCoins x) (feeUtxos x) (rawFeeTx x) (otherPayTxId
    x) (otherPayTxTries x) (doneWatchingFlag x) (watchBlock x) (depositSent x)
    (counterpartyRedeemed x).
Definition set_refTxId (v : string) (x : TransactionDescr) : TransactionDescr :=
  mkDescr (id x) (role x) (state x) (reason x) (local x) (hubAddress x)
    (created x) (txtime x) (blockHash x) (from x) (fromCurrency x) (fromAmount
    x) (to x) (toCurrency x) (toAmount x) (sPubKey x) (mPubKey x) (mPrivKey x)
    (oPubKey x) (xPubKey x) (xSecret x) (oHashedSecret x) (lockTime x)
    (opponentLockTime x) (lockScript x) (lockP2SHAddress x) (binTxId x)
    (binTxVout x) (binTx x) v (refTx x) (refundAddress x) (oBinTxId x)
    (oBinTxVout x) (unlockScript x) (unlockP2SHAddress x) (oOverpayment x)
    (payTxId x) (payTx x) (usedCoins x) (feeUtxos x) (rawFeeTx x) (otherPayTxId
    x) (otherPayTxTries x) (doneWatchingFlag x) (watchBlock x) (depositSent x)
    (counterpartyRedeemed x).
Definition set_refTx (v : string) (x : TransactionDescr) : TransactionDescr :=
  mkDescr (id x) (role x) (state x) (reason x) (local x) (hubAddress x)
    (created x) (txtime x) (blockHash x) (from x) (fromCurrency x) (fromAmount
    x) (to x) (toCurrency x) (toAmount x) (sPubKey x) (mPubKey x) (mPrivKey x)
    (oPubKey x) (xPubKey x) (xSecret x) (oHashedSecret x) (lockTime x)
    (opponentLockTime x) (lockScript x) (lockP2SHAddress x) (binTxId x)
    (binTxVout x) (binTx x) (refTxId x) v (refundAddress x) (oBinTxId x)
    (oBinTxVout x) (unlockScript x) (unlockP2SHAddress x) (oOverpayment x)
    (payTxId x) (payTx x) (usedCoins x) (feeUtxos x) (rawFeeTx x) (otherPayTxId
    x) (otherPayTxTries x) (doneWatchingFlag x) (watchBlock x) (depositSent x)
    (counterpartyRedeemed x).
Definition set_oBinTxId (v : string) (x : TransactionDescr) : TransactionDescr :=
  mkDescr (id x) (role x) (state x) (reason x) (local x) (hubAddress x)
    (created x) (txtime x) (blockHash x) (from x) (fromCurrency x) (fromAmount
    x) (to x) (toCurrency x) (toAmount x) (sPubKey x) (mPubKey x) (mPrivKey x)
    (oPubKey x) (xPubKey x) (xSecret x) (oHashedSecret x) (lockTime x)
    (opponentLockTime x) (lockScript x) (lockP2SHAddress x) (binTxId x)
    (binTxVout x) (binTx x) (refTxId x) (refTx x) (refundAddress x) v
    (oBinTxVout x) (unlockScript x) (unlockP2SHAddress x) (oOverpayment x)
    (payTxId x) (payTx x) (usedCoins x) (feeUtxos x) (rawFeeTx x) (otherPayTxId
    x) (otherPayTxTries x) (doneWatchingFlag x) (watchBlock x) (depositSent x)
    (counterpartyRedeemed x).
Definition set_oBinTxVout (v : Z) (x : TransactionDescr) : TransactionDescr :=
  mkDescr (id x) (role x) (state x) (reason x) (local x) (hubAddress x)
    (created x) (txtime x) (blockHash x) (from x) (fromCurrency x) (fromAmount
    x) (to x) (toCurrency x) (toAmount x) (sPubKey x) (mPubKey x) (mPrivKey x)
    (oPubKey x) (xPubKey x) (xSecret x) (oHashedSecret x) (lockTime x)
    (opponentLockTime x) (lockScript x) (lockP2SHAddress x) (binTxId x)
    (binTxVout x) (binTx x) (refTxId x) (refTx x) (refundAddress x) (oBinTxId x)
    v (unlockScript x) (unlockP2SHAddress x) (oOverpayment x) (payTxId x) (payTx
    x) (usedCoins x) (feeUtxos x) (rawFeeTx x) (otherPayTxId x) (otherPayTxTries
    x) (doneWatchingFlag x) (watchBlock x) (depositSent x) (counterpartyRedeemed
    x).
Definition set_unlockScript (v : bytes) (x : TransactionDescr) : TransactionDescr :=
  mkDescr (id x) (role x) (state x) (reason x) (local x) (hubAddress x)
    (created x) (txtime x) (blockHash x) (from x) (fromCurrency x) (fromAmount
    x) (to x) (toCurrency x) (toAmount x) (sPubKey x) (mPubKey x) (mPrivKey x)
    (oPubKey x) (xPubKey x) (xSecret x) (oHashedSecret x) (lockTime x)
    (opponentLockTime x) (lockScript x) (lockP2SHAddress x) (binTxId x)
    (binTxVout x) (binTx x) (refTxId x) (refTx x) (refundAddress x) (oBinTxId x)
    (oBinTxVout x) v (unlockP2SHAddress x) (oOverpayment x) (payTxId x) (payTx
    x) (usedCoins x) (feeUtxos x) (rawFeeTx x) (otherPayTxId x) (otherPayTxTries
    x) (doneWatchingFlag x) (watchBlock x) (depositSent x) (counterpartyRedeemed
    x).
Definition set_unlockP2SHAddress (v : string) (x : TransactionDescr) : TransactionDescr :=
  mkDescr (id x) (role x) (state x) (reason x) (local x) (hubAddress x)
    (created x) (txtime x) (blockHash x) (from x) (fromCurrency x) (fromAmount
    x) (to x) (toCurrency x) (toAmount x) (sPubKey x) (mPubKey x) (mPrivKey x)
    (oPubKey x) (xPubKey x) (xSecret x) (oHashedSecret x) (lockTime x)
    (opponentLockTime x) (lockScript x) (lockP2SHAddress x) (binTxId x)
    (binTxVout x) (binTx x) (refTxId x) (refTx x) (refundAddress x) (oBinTxId x)
    (oBinTxVout x) (unlockScript x) v (oOverpayment x) (payTxId x) (payTx x)
    (usedCoins x) (feeUtxos x) (rawFeeTx x) (otherPayTxId x) (otherPayTxTries x)
    (doneWatchingFlag x) (watchBlock x) (depositSent x) (counterpartyRedeemed x).
Definition set_oOverpayment (v : double) (x : TransactionDescr) : TransactionDescr :=
  mkDescr (id x) (role x) (state x) (reason x) (local x) (hubAddress x)
    (created x) (txtime x) (blockHash x) (from x) (fromCurrency x) (fromAmount
    x) (to x) (toCurrency x) (toAmount x) (sPubKey x) (mPubKey x) (mPrivKey x)
    (oPubKey x) (xPubKey x) (xSecret x) (oHashedSecret x) (lockTime x)
    (opponentLockTime x) (lockScript x) (lockP2SHAddress x) (binTxId x)
    (binTxVout x) (binTx x) (refTxId x) (refTx x) (refundAddress x) (oBinTxId x)
    (oBinTxVout x) (unlockScript x) (unlockP2SHAddress x) v (payTxId x) (payTx
    x) (usedCoins x) (feeUtxos x) (rawFeeTx x) (otherPayTxId x) (otherPayTxTries
    x) (doneWatchingFlag x) (watchBlock x) (depositSent x) (counterpartyRedeemed
    x).
Definition set_payTxId (v : string) (x : TransactionDescr) : TransactionDescr :=
  mkDescr (id x) (role x) (state x) (reason x) (local x) (hubAddress x)
    (created x) (txtime x) (blockHash x) (from x) (fromCurrency x) (fromAmount
    x) (to x) (toCurrency x) (toAmount x) (sPubKey x) (mPubKey x) (mPrivKey x)
    (oPubKey x) (xPubKey x) (xSecret x) (oHashedSecret x) (lockTime x)
    (opponentLockTime x) (lockScript x) (lockP2SHAddress x) (binTxId x)
    (binTxVout x) (binTx x) (refTxId x) (refTx x) (refundAddress x) (oBinTxId x)
    (oBinTxVout x) (unlockScript x) (unlockP2SHAddress x) (oOverpayment x) v
    (payTx x) (usedCoins x) (feeUtxos x) (rawFeeTx x) (otherPayTxId x)
    (otherPayTxTries x) (doneWatchingFlag x) (watchBlock x) (depositSent x)
    (counterpartyRedeemed x).
Definition set_payTx (v : string) (x : TransactionDescr) : TransactionDescr :=
  mkDescr (id x) (role x) (state x) (reason x) (local x) (hubAddress x)
    (created x) (txtime x) (blockHash x) (from x) (fromCurrency x) (fromAmount
    x) (to x) (toCurrency x) (toAmount x) (sPubKey x) (mPubKey x) (mPrivKey x)
    (oPubKey x) (xPubKey x) (xSecret x) (oHashedSecret x) (lockTime x)
    (opponentLockTime x) (lockScript x) (lockP2SHAddress x) (binTxId x)
    (binTxVout x) (binTx x) (refTxId x) (refTx x) (refundAddress x) (oBinTxId x)
    (oBinTxVout x) (unlockScript x) (unlockP2SHAddress x) (oOverpayment x)
    (payTxId x) v (usedCoins x) (feeUtxos x) (rawFeeTx x) (otherPayTxId x)
    (otherPayTxTries x) (doneWatchingFlag x) (watchBlock x) (depositSent x)
    (counterpartyRedeemed x).
Definition set_otherPayTxId (v : string) (x : TransactionDescr) : TransactionDescr :=
  mkDescr (id x) (role x) (state x) (reason x) (local x) (hubAddress x)
    (created x) (txtime x) (blockHash x) (from x) (fromCurrency x) (fromAmount
    x) (to x) (toCurrency x) (toAmount x) (sPubKey x) (mPubKey x) (mPrivKey x)
    (oPubKey x) (xPubKey x) (xSecret x) (oHashedSecret x) (lockTime x)
    (opponentLockTime x) (lockScript x) (lockP2SHAddress x) (binTxId x)
    (binTxVout x) (binTx x) (refTxId x) (refTx x) (refundAddress x) (oBinTxId x)
    (oBinTxVout x) (unlockScript x) (unlockP2SHAddress x) (oOverpayment x)
    (payTxId x) (payTx x) (usedCoins x) (feeUtxos x) (rawFeeTx x) v
    (otherPayTxTries x) (doneWatchingFlag x) (watchBlock x) (depositSent x)
    (counterpartyRedeemed x).
Definition set_otherPayTxTries (v : Z) (x : TransactionDescr) : TransactionDescr :=
  mkDescr (id x) (role x) (state x) (reason x) (local x) (hubAddress x)
    (created x) (txtime x) (blockHash x) (from x) (fromCurrency x) (fromAmount
    x) (to x) (toCurrency x) (toAmount x) (sPubKey x) (mPubKey x) (mPrivKey x)
    (oPubKey x) (xPubKey x) (xSecret x) (oHashedSecret x) (lockTime x)
    (opponentLockTime x) (lockScript x) (lockP2SHAddress x) (binTxId x)
    (binTxVout x) (binTx x) (refTxId x) (refTx x) (refundAddress x) (oBinTxId x)
    (oBinTxVout x) (unlockScript x) (unlockP2SHAddress x) (oOverpayment x)
    (payTxId x) (payTx x) (usedCoins x) (feeUtxos x) (rawFeeTx x) (otherPayTxId
    x) v (doneWatchingFlag x) (watchBlock x) (depositSent x)
    (counterpartyRedeemed x).
Definition set_doneWatchingFlag (v : bool) (x : TransactionDescr) : TransactionDescr :=
  mkDescr (id x) (role x) (state x) (reason x) (local x) (hubAddress x)
    (created x) (txtime x) (blockHash x) (from x) (fromCurrency x) (fromAmount
    x) (to x) (toCurrency x) (toAmount x) (sPubKey x) (mPubKey x) (mPrivKey x)
    (oPubKey x) (xPubKey x) (xSecret x) (oHashedSecret x) (lockTime x)
    (opponentLockTime x) (lockScript x) (lockP2SHAddress x) (binTxId x)
    (binTxVout x) (binTx x) (refTxId x) (refTx x) (refundAddress x) (oBinTxId x)
    (oBinTxVout x) (unlockScript x) (unlockP2SHAddress x) (oOverpayment x)
    (payTxId x) (payTx x) (usedCoins x) (feeUtxos x) (rawFeeTx x) (otherPayTxId
    x) (otherPayTxTries x) v (watchBlock x) (depositSent x)
    (counterpartyRedeemed x).
Definition set_watchBlock (v : Z) (x : TransactionDescr) : TransactionDescr :=
  mkDescr (id x) (role x) (state x) (reason x) (local x) (hubAddress x)
    (created x) (txtime x) (blockHash x) (from x) (fromCurrency x) (fromAmount
    x) (to x) (toCurrency x) (toAmount x) (sPubKey x) (mPubKey x) (mPrivKey x)
    (oPubKey x) (xPubKey x) (xSecret x) (oHashedSecret x) (lockTime x)
    (opponentLockTime x) (lockScript x) (lockP2SHAddress x) (binTxId x)
    (binTxVout x) (binTx x) (refTxId x) (refTx x) (refundAddress x) (oBinTxId x)
    (oBinTxVout x) (unlockScript x) (unlockP2SHAddress x) (oOverpayment x)
    (payTxId x) (payTx x) (usedCoins x) (feeUtxos x) (rawFeeTx x) (otherPayTxId
    x) (otherPayTxTries x) (doneWatchingFlag x) v (depositSent x)
    (counterpartyRedeemed x).
Definition set_depositSent (v : bool) (x : TransactionDescr) : TransactionDescr :=
  mkDescr (id x) (role x) (state x) (reason x) (local x) (hubAddress x)
    (created x) (txtime x) (blockHash x) (from x) (fromCurrency x) (fromAmount
    x) (to x) (toCurrency x) (toAmount x) (sPubKey x) (mPubKey x) (mPrivKey x)
    (oPubKey x) (xPubKey x) (xSecret x) (oHashedSecret x) (lockTime x)
    (opponentLockTime x) (lockScript x) (lockP2SHAddress x) (binTxId x)
    (binTxVout x) (binTx x) (refTxId x) (refTx x) (refundAddress x) (oBinTxId x)
    (oBinTxVout x) (unlockScript x) (unlockP2SHAddress x) (oOverpayment x)
    (payTxId x) (payTx x) (usedCoins x) (feeUtxos x) (rawFeeTx x) (otherPayTxId
    x) (otherPayTxTries x) (doneWatchingFlag x) (watchBlock x) v
    (counterpartyRedeemed x).
Definition set_counterpartyRedeemed (v : bool) (x : TransactionDescr) : TransactionDescr :=
  mkDescr (id x) (role x) (state x) (reason x) (local x) (hubAddress x)
    (created x) (txtime x) (blockHash x) (from x) (fromCurrency x) (fromAmount
    x) (to x) (toCurrency x) (toAmount x) (sPubKey x) (mPubKey x) (mPrivKey x)
    (oPubKey x) (xPubKey x) (xSecret x) (oHashedSecret x) (lockTime x)
    (opponentLockTime x) (lockScript x) (lockP2SHAddress x) (binTxId x)
    (binTxVout x) (binTx x) (refTxId x) (refTx x) (refundAddress x) (oBinTxId x)
    (oBinTxVout x) (unlockScript x) (unlockP2SHAddress x) (oOverpayment x)
    (payTxId x) (payTx x) (usedCoins x) (feeUtxos x) (rawFeeTx x) (otherPayTxId
    x) (otherPayTxTries x) (doneWatchingFlag x) (watchBlock x) (depositSent x) v.

Definition isLocal (x : TransactionDescr) : bool := local x.
Definition didSendDeposit (x : TransactionDescr) : bool := depositSent x.
Definition sentDeposit (x : TransactionDescr) : TransactionDescr := set_depositSent true x.
Definition failDeposit (x : TransactionDescr) : TransactionDescr := set_depositSent false x.
Definition hasRedeemedCounterpartyDeposit (x : TransactionDescr) : bool :=
  counterpartyRedeemed x.
Definition counterpartyDepositRedeemed (x : TransactionDescr) : TransactionDescr :=
  set_counterpartyRedeemed true x.
Definition hasSecret (x : TransactionDescr) : bool :=
  match xSecret x with Some _ => true | None => false end.
Definition secret (x : TransactionDescr) : bytes :=
  match xSecret x with Some s => s | None => [] end.
Definition setSecret (s : bytes) (x : TransactionDescr) : TransactionDescr :=
  set_xSecret (Some s) x.
Definition isDoneWatching (x : TransactionDescr) : bool := doneWatchingFlag x.
Definition doneWatching (x : TransactionDescr) : TransactionDescr :=
  set_doneWatchingFlag true x.
Definition setOtherPayTxId (s : string) (x : TransactionDescr) : TransactionDescr :=
  set_otherPayTxId s x.
Definition tryOtherPayTx (x : TransactionDescr) : TransactionDescr :=
  set_otherPayTxTries (otherPayTxTries x + 1) x.
Definition setWatchBlock (b : Z) (x : TransactionDescr) : TransactionDescr :=
  set_watchBlock b x.

(** [std::string::empty] *)
Definition empty (s : string) : bool :=
  match s with EmptyString => true | String _ _ => false end.

(** ** What a handler does to the outside *)

Inductive Event :=
| SendPacket (dest : bytes) (p : Packet)
| SendPacketBroadcast (p : Packet)
| NotifyXBridgeTransactionReceived (txid : bytes)
| NotifyXBridgeTransactionChanged (txid : bytes)
| SendRawTransaction (cur : string) (rawtx : string)
| CreateDepositTransaction (cur : string) (inputs : list XTxIn)
    (outputs : list (string * double))
| StoreDataIntoBlockchain (rawtx : string).

(** ** The Hub's order book *)

(** [xbridge::Exchange] and [xbridge::Transaction] ([xbridgeexchange.h],
    [xbridgetransaction.h]) are not among the sources: the state of the
    exchange, the orders it hands out and the methods the session calls are
    parameters.  A method that changes the exchange, or an order the
    exchange owns through the pointer it handed out, answers the new state
    of the exchange. *)
Class ExchangeOps := {
  Exchange : Type;
  (** what a [TransactionPtr] points to *)
  HubOrder : Type;
  isStarted : Exchange -> bool;
  isEnabled : Exchange -> bool;
  pubKey : Exchange -> bytes;
  privKey : Exchange -> bytes;
  pendingTransaction : Exchange -> bytes -> HubOrder;
  transaction : Exchange -> bytes -> HubOrder;
  matches : HubOrder -> bytes -> bool;
  isValid : HubOrder -> bool;
  tr_id : HubOrder -> bytes;
  tr_state : HubOrder -> Transaction.State;
  a_pk1 : HubOrder -> bytes;
  b_pk1 : HubOrder -> bytes;
  a_currency : HubOrder -> string;
  b_currency : HubOrder -> string;
  a_amount : HubOrder -> Z;
  b_amount : HubOrder -> Z;
  a_utxos : HubOrder -> list UtxoEntry;
  (** [xbridge::timeToInt(tr->createdTime())] *)
  createdTime : HubOrder -> Z;
  tr_blockHash : HubOrder -> bytes;
  updateTimestampOrRemoveExpired : HubOrder -> Exchange -> bool * Exchange;
  makerUtxosAreStillValid : HubOrder -> Exchange -> bool;
  checkUtxoItems : bytes -> list UtxoEntry -> Exchange -> bool * Exchange;
  (** answers (created or found, isCreated) *)
  createTransaction :
    bytes -> bytes -> string -> Z -> bytes -> string -> Z -> Z -> bytes ->
    list UtxoEntry -> bytes -> Exchange -> (bool * bool) * Exchange;
  acceptTransaction :
    bytes -> bytes -> string -> Z -> bytes -> string -> Z -> bytes ->
    list UtxoEntry -> Exchange -> bool * Exchange;
  deletePendingTransaction : bytes -> Exchange -> Exchange;
  (** [tr->cancel()], [tr->a_setUtxos(items)], [tr->b_setUtxos(items)] *)
  tr_cancel : HubOrder -> Exchange -> Exchange;
  a_setUtxos : HubOrder -> list UtxoEntry -> Exchange -> Exchange;
  b_setUtxos : HubOrder -> list UtxoEntry -> Exchange -> Exchange
}.

Context `{ExchangeOps}.

(** ** The state of the process *)

(** Modelled from the spec: [xbridge::App] ([xbridgeapp.h] is not among the
    sources).  Section 2 and 5 of the spec: the registry maps an order id to
    the order, active or in the history; parked packets wait in a queue,
    retries at its tail; the locked UTXOs are a process-wide set of
    (currency, txid, vout); the fee UTXOs are a pool of their own. *)
Record World := mkWorld {
  m_transactions : gmap bytes TransactionDescr;
  m_history : list bytes;
  m_pendingPackets : list (bytes * Packet);
  m_lockedCoins : list (string * string * Z);
  m_lockedFeeUtxos : list (string * Z);
  m_watching : list bytes;
  exchange : Exchange;
  trace : list Event
}.

Definition set_transactions (v : gmap bytes TransactionDescr) (w : World) : World :=
  mkWorld v (m_history w) (m_pendingPackets w) (m_lockedCoins w)
    (m_lockedFeeUtxos w) (m_watching w) (exchange w) (trace w).
Definition set_history (v : list bytes) (w : World) : World :=
  mkWorld (m_transactions w) v (m_pendingPackets w) (m_lockedCoins w)
    (m_lockedFeeUtxos w) (m_watching w) (exchange w) (trace w).
Definition set_pendingPackets (v : list (bytes * Packet)) (w : World) : World :=
  mkWorld (m_transactions w) (m_history w) v (m_lockedCoins w)
    (m_lockedFeeUtxos w) (m_watching w) (exchange w) (trace w).
Definition set_lockedCoins (v : list (string * string * Z)) (w : World) : World :=
  mkWorld (m_transactions w) (m_history w) (m_pendingPackets w) v
    (m_lockedFeeUtxos w) (m_watching w) (exchange w) (trace w).
Definition set_lockedFeeUtxos (v : list (string * Z)) (w : World) : World :=
  mkWorld (m_transactions w) (m_history w) (m_pendingPackets w) (m_lockedCoins w)
    v (m_watching w) (exchange w) (trace w).
Definition set_watching (v : list bytes) (w : World) : World :=
  mkWorld (m_transactions w) (m_history w) (m_pendingPackets w) (m_lockedCoins w)
    (m_lockedFeeUtxos w) v (exchange w) (trace w).
Definition set_exchange (v : Exchange) (w : World) : World :=
  mkWorld (m_transactions w) (m_history w) (m_pendingPackets w) (m_lockedCoins w)
    (m_lockedFeeUtxos w) (m_watching w) v (trace w).
Definition emit (e : Event) (w : World) : World :=
  mkWorld (m_transactions w) (m_history w) (m_pendingPackets w) (m_lockedCoins w)
    (m_lockedFeeUtxos w) (m_watching w) (exchange w) (trace w ++ [e]).

(** [xapp.transaction(id)]: the order of that id, [None] for a null pointer. *)
Definition xapp_transaction (w : World) (txid : bytes) : option TransactionDescr :=
  m_transactions w !! txid.

(** The writes a handler made through the pointer [xapp.transaction(txid)]
    gave it reach the order the registry holds under [txid]. *)
Definition store (txid : bytes) (xtx : TransactionDescr) (w : World) : World :=
  set_transactions (<[txid := xtx]> (m_transactions w)) w.

Definition appendTransaction (xtx : TransactionDescr) (w : World) : World :=
  store (id xtx) xtx w.

Definition moveTransactionToHistory (txid : bytes) (w : World) : World :=
  match m_transactions w !! txid with
  | Some _ => set_history (txid :: m_history w) w
  | None => w
  end.

Definition processLater (txid : bytes) (p : Packet) (w : World) : World :=
  set_pendingPackets (m_pendingPackets w ++ [(txid, p)]) w.

Definition removePackets (txid : bytes) (w : World) : World :=
  set_pendingPackets
    (List.filter (fun e => negb (bool_decide (fst e = txid))) (m_pendingPackets w)) w.

Definition unlockCoins (cur : string) (coins : list UtxoEntry) (w : World) : World :=
  set_lockedCoins
    (List.filter
       (fun l => negb (existsb (fun c => bool_decide (l = (cur, txId c, vout c))) coins))
       (m_lockedCoins w)) w.

Definition unlockFeeUtxos (fee : list (string * Z)) (w : World) : World :=
  set_lockedFeeUtxos
    (List.filter (fun l => negb (existsb (fun c => bool_decide (l = c)) fee))
       (m_lockedFeeUtxos w)) w.

Definition watchForSpentDeposit (txid : bytes) (w : World) : World :=
  set_watching (txid :: m_watching w) w.
Definition unwatchSpentDeposit (txid : bytes) (w : World) : World :=
  set_watching (List.filter (fun i => negb (bool_decide (i = txid))) (m_watching w)) w.

Definition sendPacket (dest : bytes) (p : Packet) (w : World) : World :=
  emit (SendPacket dest p) w.
Definition sendPacketBroadcast (p : Packet) (w : World) : World :=
  emit (SendPacketBroadcast p) w.

(** ** The handlers *)

Variable env : Env.

Import XBridgePacket.

(** The key of the sender, as the handlers copy it from the header. *)
Definition packet_pubkey (p : Packet) : bytes := firstn pubkeySize (pubkey p).

(** [Session::Impl::checkPacketAddress] *)
Definition checkPacketAddress (packet : Packet) : bool :=
  if size packet <? 20 then false
  else bool_decide (bytes_at 0 20 (data packet) = firstn 20 (m_myid env)).

(** *** Refund and redeem *)

(** [Session::Impl::redeemOrderDeposit].  The error code of the broadcast
    is stored in a variable of the inner block that has the name of the
    reference parameter: the caller's [errCode] is answered as it came. *)
Definition redeemOrderDeposit (xtx : TransactionDescr) (errCode : Z) (w : World)
  : bool * Z * TransactionDescr * World :=
  match connectorByCurrency env (fromCurrency xtx) with
  | None => (false, errCode, xtx, w)
  | Some connFrom =>
    if state_lt (state xtx) trCreated then (true, errCode, xtx, w)
    else if empty (refTx xtx) then (true, errCode, xtx, w)
    else
      let '(infoReceived, info) := getInfo connFrom in
      if infoReceived && (blocks info <? lockTime xtx)
      then (false, errCode, xtx, w)
      else
        let w := emit (SendRawTransaction (currency connFrom) (refTx xtx)) w in
        let '(sent, _) := sendRawTransaction connFrom (refTx xtx) in
        if negb sent
        then (false, errCode, set_state trRollbackFailed xtx, w)
        else
          let xtx := set_state trRollback xtx in
          let w := emit (NotifyXBridgeTransactionChanged (id xtx)) w in
          (true, errCode, xtx, w)
  end.

(** The search of the secret at the head of
    [redeemOrderCounterpartyDeposit]: [None] when the function returns
    [false] from it. *)
Definition findSecret (connFrom : WalletConnector) (xtx : TransactionDescr) (w : World)
  : option (TransactionDescr * World) :=
  if negb (hasSecret xtx) then
    let '(found, (x, isGood)) :=
      getSecretFromPaymentTransaction connFrom (otherPayTxId xtx) (binTxId xtx)
        (binTxVout xtx) (oHashedSecret xtx) in
    if negb found then None
    else if negb isGood then None
    else Some (doneWatching (setSecret x xtx), unwatchSpentDeposit (id xtx) w)
  else Some (xtx, w).

(** [Session::Impl::redeemOrderCounterpartyDeposit] *)
Definition redeemOrderCounterpartyDeposit (xtx : TransactionDescr) (errCode : Z)
  (w : World) : bool * Z * TransactionDescr * World :=
  match connectorByCurrency env (fromCurrency xtx),
        connectorByCurrency env (toCurrency xtx) with
  | Some connFrom, Some connTo =>
    match findSecret connFrom xtx w with
    | None => (false, errCode, xtx, w)
    | Some (xtx, w) =>
      let toAddr := fromXAddr connTo (to xtx) in
      let outAmount := coins (toAmount xtx) in
      let checkAmount := outAmount in
      let inputs := [mkXTxIn (oBinTxId xtx) (oBinTxVout xtx) checkAmount] in
      let outputs := [(toAddr, (outAmount + oOverpayment xtx)%D)] in
      let '(created, (payTxId', payTx')) :=
        createPaymentTransaction connTo inputs outputs (mPubKey xtx) (mPrivKey xtx)
          (secret xtx) (unlockScript xtx) in
      let xtx := set_payTx payTx' (set_payTxId payTxId' xtx) in
      if negb created then (false, errCode, xtx, w)
      else
        let w := emit (SendRawTransaction (currency connTo) (payTx xtx)) w in
        let '(sent, (_, errCode)) := sendRawTransaction connTo (payTx xtx) in
        if sent then (true, errCode, counterpartyDepositRedeemed xtx, w)
        else if errCode =? RPC_VERIFY_ALREADY_IN_CHAIN
        then (true, errCode, counterpartyDepositRedeemed xtx, w)
        else (false, errCode, xtx, w)
    end
  | _, _ => (false, errCode, xtx, w)
  end.

(** *** Cancel *)

(** [Session::Impl::sendCancelTransaction(const TransactionPtr &, ...)]:
    the Hub cancels an order of its book. *)
Definition sendCancelTransaction_hub (tx : HubOrder) (reason : Z) (w : World)
  : bool * World :=
  let e := exchange w in
  if negb (isStarted e) then (false, w)
  else
    let e := tr_cancel tx e in
    let e := deletePendingTransaction (tr_id tx) e in
    let reply := newPacket xbcTransactionCancel in
    let reply := append_hash (tr_id tx) reply in
    let reply := append_uint32 reason reply in
    let reply := sign (pubKey e) (privKey e) reply in
    (true, sendPacketBroadcast reply (set_exchange e w)).

(** The lambda [cancel] of [processTransactionCancel]. *)
Definition cancel (conn : WalletConnector) (txid : bytes) (reason : Z)
  (xtx : TransactionDescr) (w : World) : World :=
  let w := removePackets txid w in
  let w := unlockCoins (currency conn) (usedCoins xtx) w in
  let w := if state_lt (state xtx) trInitialized
           then unlockFeeUtxos (feeUtxos xtx) w else w in
  let xtx := set_state trCancelled xtx in
  let xtx := set_reason reason xtx in
  store txid xtx w.

(** [Session::Impl::processTransactionCancel] *)
Definition processTransactionCancel (w : World) (packet : Packet) : bool * World :=
  if negb (size packet =? 36) then (false, w)
  else
    let txid := bytes_at 0 hashSize (data packet) in
    let reason := uint32_at 32 (data packet) in
    let e := exchange w in
    if isStarted e then
      let tr := pendingTransaction e txid in
      let tr := if negb (isValid tr) then transaction e txid else tr in
      if negb (isValid tr) then (true, w)
      else if negb (verify packet (a_pk1 tr)) && negb (verify packet (b_pk1 tr))
      then (true, w)
      else let '(_, w) := sendCancelTransaction_hub tr reason w in (true, w)
    else
      match xapp_transaction w txid with
      | None => (true, w)
      | Some xtx =>
        if negb (verify packet (sPubKey xtx)) && negb (verify packet (oPubKey xtx))
           && negb (verify packet (mPubKey xtx))
        then (true, w)
        else
          match connectorByCurrency env (fromCurrency xtx) with
          | None => (false, w)
          | Some conn =>
            if state_lt (state xtx) trCreated then
              let w := moveTransactionToHistory txid w in
              let w := cancel conn txid reason xtx w in
              (true, emit (NotifyXBridgeTransactionChanged txid) w)
            else if bool_decide (state xtx = trCancelled) then (true, w)
            else if negb (didSendDeposit xtx) then (true, cancel conn txid reason xtx w)
            else if hasRedeemedCounterpartyDeposit xtx then (true, w)
            else if empty (refTx xtx) then (true, cancel conn txid reason xtx w)
            else
              let w := removePackets txid w in
              let xtx := set_state trRollback xtx in
              let xtx := set_reason reason xtx in
              let errCode := 0 in
              let '(done, _, xtx, w) := redeemOrderDeposit xtx errCode w in
              let w := store txid xtx w in
              let w := if negb done then processLater txid packet w
                       else unlockCoins (currency conn) (usedCoins xtx) w in
              (true, emit (NotifyXBridgeTransactionChanged txid) w)
          end
      end.

(** [Session::Impl::sendCancelTransaction(const TransactionDescrPtr &, ...)]:
    a trader cancels its own order, locally first. *)
Definition sendCancelTransaction (tx : TransactionDescr) (reason : Z) (w : World)
  : bool * World :=
  let reply := newPacket xbcTransactionCancel in
  let reply := append_hash (id tx) reply in
  let reply := append_uint32 reason reply in
  let reply := sign (mPubKey tx) (mPrivKey tx) reply in
  let '(_, w) := processTransactionCancel w reply in
  let w := sendPacketBroadcast reply w in
  (true, emit (NotifyXBridgeTransactionChanged (id tx)) w).

(** A handler that cancels the order it works on: what it wrote through
    its pointer is in the registry when the cancel looks the order up. *)
Definition cancelOrder (txid : bytes) (xtx : TransactionDescr) (reason : TxCancelReason)
  (w : World) : bool * World :=
  let '(_, w) := sendCancelTransaction xtx (reason_code reason) (store txid xtx w) in
  (true, w).

(** *** The trader's handlers *)

(** Modelled from the spec: the order a trader makes of a
    [PendingTransaction] starts from a default-constructed
    [TransactionDescr] (its constructor is not among the sources). *)
Definition TransactionDescr_default : TransactionDescr := {|
  id := []; role := "000"%char; state := trNew; reason := 0; local := false;
  hubAddress := []; created := 0; txtime := 0; blockHash := [];
  from := []; fromCurrency := EmptyString; fromAmount := 0;
  to := []; toCurrency := EmptyString; toAmount := 0;
  sPubKey := []; mPubKey := []; mPrivKey := []; oPubKey := []; xPubKey := [];
  xSecret := None; oHashedSecret := []; lockTime := 0; opponentLockTime := 0;
  lockScript := []; lockP2SHAddress := EmptyString;
  binTxId := EmptyString; binTxVout := 0; binTx := EmptyString;
  refTxId := EmptyString; refTx := EmptyString; refundAddress := EmptyString;
  oBinTxId := EmptyString; oBinTxVout := 0;
  unlockScript := []; unlockP2SHAddress := EmptyString; oOverpayment := d_zero;
  payTxId := EmptyString; payTx := EmptyString;
  usedCoins := []; feeUtxos := []; rawFeeTx := EmptyString;
  otherPayTxId := EmptyString; otherPayTxTries := 0;
  doneWatchingFlag := false; watchBlock := 0;
  depositSent := false; counterpartyRedeemed := false
|}.

Definition updateTimestamp (x : TransactionDescr) : TransactionDescr :=
  set_txtime (currentTime env) x.

(** [Session::Impl::processPendingTransaction] *)
Definition processPendingTransaction (w : World) (packet : Packet) : bool * World :=
  if isEnabled (exchange w) then (true, w)
  else if negb (size packet =? 124) then (false, w)
  else
    let d := data packet in
    let txid := bytes_at 0 hashSize d in
    let scurrency := string_at 32 d in
    let samount := uint64_at 40 d in
    let dcurrency := string_at 48 d in
    let damount := uint64_at 56 d in
    let hubAddress := bytes_at 64 addressSize d in
    let ptr := xapp_transaction w txid in
    let spubkey := packet_pubkey packet in
    if match ptr with
       | Some xtx => negb (verify packet (sPubKey xtx))
       | None => false
       end
    then (true, w)
    else if negb (verify packet spubkey) then (true, w)
    else
      match connectorByCurrency env scurrency, connectorByCurrency env dcurrency with
      | Some sconn, Some dconn =>
        match ptr with
        | Some xtx =>
          if state_gt (state xtx) trPending then (true, w)
          else
            let xtx := if bool_decide (state xtx = trNew)
                       then set_state trPending xtx else xtx in
            if bool_decide (state xtx = trCancelled) then (true, store txid xtx w)
            else
              let xtx := updateTimestamp xtx in
              (true, emit (NotifyXBridgeTransactionChanged (id xtx)) (store txid xtx w))
        | None =>
          let ptr := TransactionDescr_default in
          let ptr := set_id txid ptr in
          let ptr := set_fromCurrency scurrency ptr in
          let ptr := set_fromAmount samount ptr in
          let ptr := set_toCurrency dcurrency ptr in
          let ptr := set_toAmount damount ptr in
          let ptr := set_hubAddress hubAddress ptr in
          let ptr := set_created (uint64_at 84 d) ptr in
          let ptr := set_state trPending ptr in
          let ptr := set_sPubKey spubkey ptr in
          let ptr := set_blockHash (bytes_at 92 hashSize d) ptr in
          let w := appendTransaction ptr w in
          (true, emit (NotifyXBridgeTransactionReceived (id ptr)) w)
        end
      | _, _ => (true, w)
      end.

(** The check of the service node in [processTransactionHold]: the key of
    the packet, or the key decompressed, is in the list of service nodes. *)
Definition knownServiceNode (pksnode : bytes) : bool :=
  if getSn env pksnode then true
  else match Decompress env pksnode with
       | Some pk => getSn env pk
       | None => false
       end.

(** [Session::Impl::processTransactionHold] *)
Definition processTransactionHold (w : World) (packet : Packet) : bool * World :=
  if negb (size packet =? 52) then (false, w)
  else
    let d := data packet in
    let hubAddress := bytes_at 0 addressSize d in
    let txid := bytes_at 20 hashSize d in
    match xapp_transaction w txid with
    | None => (true, w)
    | Some xtx =>
      if negb (verify packet (sPubKey xtx)) then (true, w)
      else
        let pksnode := packet_pubkey packet in
        if negb (IsFullyValid env pksnode) then (false, w)
        else if negb (knownServiceNode pksnode) then (true, w)
        else
          let e := exchange w in
          if isStarted e then
            let tr := transaction e txid in
            if negb (matches tr txid) then (true, w)
            else if negb (bool_decide (tr_state tr = Transaction.trJoined))
            then (true, set_exchange (deletePendingTransaction txid e) w)
            else (true, w)
          else if state_ge (state xtx) trHold then (true, w)
          else if negb (isLocal xtx) then
            let xtx := set_state trFinished xtx in
            let w := store txid xtx w in
            let w := moveTransactionToHistory txid w in
            (true, emit (NotifyXBridgeTransactionChanged (id xtx)) w)
          else
            match connectorByCurrency env (toCurrency xtx) with
            | None => (true, w)
            | Some conn =>
              let xtx := set_state trHold xtx in
              let w := store txid xtx w in
              let w := emit (NotifyXBridgeTransactionChanged txid) w in
              let reply := newPacket xbcTransactionHoldApply in
              let reply := append hubAddress reply in
              let reply := append (from xtx) reply in
              let reply := append_hash txid reply in
              let reply := sign (mPubKey xtx) (mPrivKey xtx) reply in
              (true, sendPacket hubAddress reply w)
            end
    end.

(** The test of [processTransactionInit] that compares the order of the
    packet with the local one. *)
Definition orderDoesNotMatch (xtx : TransactionDescr) (txid from' : bytes)
  (fromCurrency' : string) (fromAmount' : Z) (to' : bytes) (toCurrency' : string)
  (toAmount' : Z) : bool :=
  negb (bool_decide (id xtx = txid)) &&
  negb (bool_decide (from xtx = from')) &&
  negb (bool_decide (fromCurrency xtx = fromCurrency')) &&
  negb (fromAmount xtx =? fromAmount') &&
  negb (bool_decide (to xtx = to')) &&
  negb (bool_decide (toCurrency xtx = toCurrency')) &&
  negb (toAmount xtx =? toAmount').

(** The block "acceptor fee" of [processTransactionInit]: the taker
    stores its fee transaction in the chain.  [inl] when the handler
    returns from the block, else the id of the fee transaction (null for
    the maker). *)
Definition acceptorFee (txid : bytes) (xtx : TransactionDescr) (packet : Packet)
  (w : World) : (bool * World) + (bytes * World) :=
  if Ascii.eqb (role xtx) "B" then
    match connectorByCurrency env (toCurrency xtx) with
    | None => inl (true, w)
    | Some conn =>
      let w := emit (StoreDataIntoBlockchain (rawFeeTx xtx)) w in
      let '(stored, strtxid) := storeDataIntoBlockchain env (rawFeeTx xtx) in
      if negb stored then inl (cancelOrder txid xtx crBlocknetError w)
      else
        let feetxtd := uint256S env strtxid in
        if IsNull feetxtd then inl (true, processLater txid packet w)
        else inr (feetxtd, unlockFeeUtxos (feeUtxos xtx) w)
    end
  else inr (repeat x00 32, w).

(** [Session::Impl::processTransactionInit] *)
Definition processTransactionInit (w : World) (packet : Packet) : bool * World :=
  if negb (size packet =? 144) then (false, w)
  else
    let d := data packet in
    let thisAddress := bytes_at 0 addressSize d in
    let hubAddress := bytes_at 20 addressSize d in
    let txid := bytes_at 40 hashSize d in
    match xapp_transaction w txid with
    | None => (true, w)
    | Some xtx =>
      if negb (isLocal xtx) then (true, w)
      else if negb (verify packet (sPubKey xtx)) then (true, w)
      else if state_ge (state xtx) trInitialized then (true, w)
      else
        let from' := bytes_at 72 addressSize d in
        let fromCurrency' := string_at 92 d in
        let fromAmount' := uint64_at 100 d in
        let to' := bytes_at 108 addressSize d in
        let toCurrency' := string_at 128 d in
        let toAmount' := uint64_at 136 d in
        if orderDoesNotMatch xtx txid from' fromCurrency' fromAmount' to' toCurrency'
             toAmount'
        then (true, w)
        else
          match acceptorFee txid xtx packet w with
          | inl r => r
          | inr (feetxtd, w) =>
            let xtx := set_state trInitialized xtx in
            let w := store txid xtx w in
            let w := emit (NotifyXBridgeTransactionChanged (id xtx)) w in
            let reply := newPacket xbcTransactionInitialized in
            let reply := append hubAddress reply in
            let reply := append thisAddress reply in
            let reply := append_hash txid reply in
            let reply := append_hash feetxtd reply in
            let reply := sign (mPubKey xtx) (mPrivKey xtx) reply in
            (true, sendPacket hubAddress reply w)
          end
    end.

(** The loop of [processTransactionCreateA] and [processTransactionCreateB]
    that takes the coins of the order, in their order, until they cover the
    amount and the fees: (usedInTx, inAmount, fee1). *)
Fixpoint selectCoins (connFrom : WalletConnector) (outAmount fee2 : double)
  (coins : list UtxoEntry) (usedInTx : list UtxoEntry) (inAmount fee1 : double)
  : list UtxoEntry * double * double :=
  match coins with
  | [] => (usedInTx, inAmount, fee1)
  | entry :: rest =>
    let usedInTx := usedInTx ++ [entry] in
    let inAmount := (inAmount + amount entry)%D in
    let fee1 := minTxFee1 connFrom (Z.of_nat (length usedInTx)) 3 in
    if (inAmount >=? outAmount + fee1 + fee2)%D then (usedInTx, inAmount, fee1)
    else selectCoins connFrom outAmount fee2 rest usedInTx inAmount fee1
  end.

(** The block [depositTx] of both handlers: the inputs and the outputs
    handed to [createDepositTransaction]. *)
Definition largestUtxo (usedInTx : list UtxoEntry) : UtxoEntry :=
  fold_left (fun largest entry =>
               if (amount entry >? amount largest)%D then entry else largest)
    usedInTx UtxoEntry_default.

Definition depositInputs (usedInTx : list UtxoEntry) : list XTxIn :=
  map (fun entry => mkXTxIn (txId entry) (vout entry) (amount entry)) usedInTx.

Definition depositOutputs (lockP2SH : string) (usedInTx : list UtxoEntry)
  (inAmount outAmount fee1 fee2 : double) : list (string * double) :=
  let outputs := [(lockP2SH, (outAmount + fee2)%D)] in
  if (inAmount >? outAmount + fee1 + fee2)%D then
    let rest := (inAmount - outAmount - fee1 - fee2)%D in
    outputs ++ [(address (largestUtxo usedInTx), rest)]
  else outputs.

(** The block [refundTx] of both handlers: [inl] when the handler returns
    from it (the order is cancelled), else the order with its refund. *)
Definition refundTx (connFrom : WalletConnector) (txid : bytes) (xtx : TransactionDescr)
  (outAmount fee2 : double) (w : World) : (bool * World) + TransactionDescr :=
  let inputs := [mkXTxIn (binTxId xtx) (binTxVout xtx) (outAmount + fee2)%D] in
  let addr := refundAddress xtx in
  let '(haveAddr, addr) := if empty addr then getNewAddress connFrom else (true, addr) in
  if negb haveAddr then inl (cancelOrder txid xtx crRpcError w)
  else
    let outputs := [(addr, outAmount)] in
    let '(created, (refTxId', refTx')) :=
      createRefundTransaction connFrom inputs outputs (mPubKey xtx) (mPrivKey xtx)
        (lockScript xtx) (lockTime xtx) in
    let xtx := set_refTx refTx' (set_refTxId refTxId' xtx) in
    if negb created then inl (cancelOrder txid xtx crRpcError w)
    else inr xtx.

(** [Session::Impl::processTransactionCreateA] *)
Definition processTransactionCreateA (w : World) (packet : Packet) : bool * World :=
  if negb (size packet =? 85) then (false, w)
  else
    let d := data packet in
    let hubAddress := bytes_at 0 addressSize d in
    let txid := bytes_at 20 hashSize d in
    let mPubKey' := bytes_at 52 pubkeySize d in
    match xapp_transaction w txid with
    | None => (true, w)
    | Some xtx =>
      if negb (isLocal xtx) then (true, w)
      else if negb (verify packet (sPubKey xtx)) then (true, w)
      else if negb (Ascii.eqb (role xtx) "A") then (true, w)
      else if state_ge (state xtx) trCreated then (true, w)
      else
        match connectorByCurrency env (fromCurrency xtx),
              connectorByCurrency env (toCurrency xtx) with
        | Some connFrom, Some connTo =>
          let outAmount := coins (fromAmount xtx) in
          let fee2 := minTxFee2 connFrom 1 1 in
          let '(usedInTx, inAmount, fee1) :=
            selectCoins connFrom outAmount fee2 (usedCoins xtx) [] d_zero d_zero in
          if (inAmount <? outAmount + fee1 + fee2)%D
          then cancelOrder txid xtx crNoMoney w
          else
            let xtx := set_lockTime (conn_lockTime connFrom (role xtx)) xtx in
            let xtx := set_opponentLockTime (conn_lockTime connTo "B") xtx in
            if (lockTime xtx =? 0) || (opponentLockTime xtx =? 0)
            then cancelOrder txid xtx crRpcError w
            else
              let xtx := set_oPubKey mPubKey' xtx in
              let hx := getKeyId connTo (xPubKey xtx) in
              let xtx := set_lockScript
                           (createDepositUnlockScript connFrom (mPubKey xtx) (oPubKey xtx)
                              hx (lockTime xtx)) xtx in
              let xtx := set_lockP2SHAddress
                           (scriptIdToString connFrom (getScriptId connFrom (lockScript xtx)))
                           xtx in
              (* depositTx *)
              let inputs := depositInputs usedInTx in
              let outputs := depositOutputs (lockP2SHAddress xtx) usedInTx inAmount
                               outAmount fee1 fee2 in
              let w := emit (CreateDepositTransaction (currency connFrom) inputs outputs) w in
              let '(created, (binTxId', binTxVout', binTx')) :=
                createDepositTransaction connFrom inputs outputs in
              let xtx := set_binTx binTx' (set_binTxVout binTxVout' (set_binTxId binTxId' xtx)) in
              if negb created then cancelOrder txid xtx crRpcError w
              else
                match refundTx connFrom txid xtx outAmount fee2 w with
                | inl r => r
                | inr xtx =>
                  let xtx := set_state trCreated xtx in
                  let w := emit (NotifyXBridgeTransactionChanged txid) w in
                  let xtx := sentDeposit xtx in
                  (* send transactions *)
                  let w := emit (SendRawTransaction (currency connFrom) (binTx xtx)) w in
                  let '(sent, _) := sendRawTransaction connFrom (binTx xtx) in
                  if negb sent then
                    let xtx := failDeposit xtx in
                    cancelOrder txid xtx crRpcError w
                  else
                    let reply := newPacket xbcTransactionCreatedA in
                    let reply := append hubAddress reply in
                    let reply := append_hash txid reply in
                    let reply := append_string (binTxId xtx) reply in
                    let reply := append hx reply in
                    let reply := append_uint32 (lockTime xtx) reply in
                    let reply := append_string (refTxId xtx) reply in
                    let reply := append_string (refTx xtx) reply in
                    let reply := sign (mPubKey xtx) (mPrivKey xtx) reply in
                    (true, sendPacket hubAddress reply (store txid xtx w))
                end
        | _, _ => cancelOrder txid xtx crRpcError w
        end
    end.

(** [Session::Impl::processTransactionCreateB] *)
Definition processTransactionCreateB (w : World) (packet : Packet) : bool * World :=
  if size packet <=? 109 then (false, w)
  else
    let d := data packet in
    let hubAddress := bytes_at 0 addressSize d in
    let txid := bytes_at 20 hashSize d in
    let mPubKey' := bytes_at 52 pubkeySize d in
    let binATxId := string_at 85 d in
    let offset := (85 + (String.length binATxId + 1))%nat in
    let hx := bytes_at offset addressSize d in
    let lockTimeA := uint32_at (offset + addressSize) d in
    match xapp_transaction w txid with
    | None => (true, w)
    | Some xtx =>
      if negb (isLocal xtx) then (true, w)
      else if negb (verify packet (sPubKey xtx)) then (true, w)
      else if state_ge (state xtx) trCreated then (true, w)
      else if (String.length binATxId =? 0)%nat then cancelOrder txid xtx crBadADepositTx w
      else if negb (Ascii.eqb (role xtx) "B") then (true, w)
      else if negb (length (xPubKey xtx) =? 0)%nat then (true, w)
      else
        match connectorByCurrency env (fromCurrency xtx),
              connectorByCurrency env (toCurrency xtx) with
        | Some connFrom, Some connTo =>
          let outAmount := coins (fromAmount xtx) in
          let checkAmount := coins (toAmount xtx) in
          if (lockTimeA =? 0) || negb (acceptableLockTimeDrift connTo "A" lockTimeA)
          then cancelOrder txid xtx crBadADepositTx w
          else
            let xtx := set_oHashedSecret hx xtx in
            let xtx := set_lockTime (conn_lockTime connFrom "B") xtx in
            let xtx := set_opponentLockTime lockTimeA xtx in
            let counterPartyScript :=
              createDepositUnlockScript connTo mPubKey' (mPubKey xtx) (oHashedSecret xtx)
                (opponentLockTime xtx) in
            let counterPartyP2SH :=
              scriptIdToString connTo (getScriptId connTo counterPartyScript) in
            let '(checked, (counterPartyVoutN, overpayment, isGood)) :=
              checkDepositTransaction connTo binATxId checkAmount 0 counterPartyP2SH
                (oOverpayment xtx) in
            let xtx := set_oOverpayment overpayment xtx in
            if negb checked then (true, processLater txid packet (store txid xtx w))
            else if negb isGood then cancelOrder txid xtx crBadADepositTx w
            else
              let fee2 := minTxFee2 connFrom 1 1 in
              let '(usedInTx, inAmount, fee1) :=
                selectCoins connFrom outAmount fee2 (usedCoins xtx) [] d_zero d_zero in
              if (inAmount <? outAmount + fee1 + fee2)%D
              then cancelOrder txid xtx crNoMoney w
              else
                let xtx := set_oPubKey mPubKey' xtx in
                let xtx := set_oBinTxId binATxId xtx in
                let xtx := set_oBinTxVout counterPartyVoutN xtx in
                let xtx := set_unlockScript counterPartyScript xtx in
                let xtx := set_unlockP2SHAddress counterPartyP2SH xtx in
                let xtx := set_lockScript
                             (createDepositUnlockScript connFrom (mPubKey xtx) (oPubKey xtx)
                                (oHashedSecret xtx) (lockTime xtx)) xtx in
                let xtx := set_lockP2SHAddress
                             (scriptIdToString connFrom (getScriptId connFrom (lockScript xtx)))
                             xtx in
                (* depositTx *)
                let inputs := depositInputs usedInTx in
                let outputs := depositOutputs (lockP2SHAddress xtx) usedInTx inAmount
                                 outAmount fee1 fee2 in
                let w := emit (CreateDepositTransaction (currency connFrom) inputs outputs) w in
                let '(created, (binTxId', binTxVout', binTx')) :=
                  createDepositTransaction connFrom inputs outputs in
                let xtx := set_binTx binTx'
                             (set_binTxVout binTxVout' (set_binTxId binTxId' xtx)) in
                if negb created then cancelOrder txid xtx crRpcError w
                else
                  match refundTx connFrom txid xtx outAmount fee2 w with
                  | inl r => r
                  | inr xtx =>
                    (* send transactions *)
                    let '(gotInfo, info) := getInfo connFrom in
                    if negb gotInfo then cancelOrder txid xtx crRpcError w
                    else
                      let xtx := set_state trCreated xtx in
                      let w := emit (NotifyXBridgeTransactionChanged txid) w in
                      let xtx := sentDeposit xtx in
                      let w := emit (SendRawTransaction (currency connFrom) (binTx xtx)) w in
                      let '(sent, _) := sendRawTransaction connFrom (binTx xtx) in
                      if negb sent then
                        let xtx := failDeposit xtx in
                        cancelOrder txid xtx crRpcError w
                      else
                        let xtx := setWatchBlock (blocks info) xtx in
                        let w := watchForSpentDeposit (id xtx) w in
                        let reply := newPacket xbcTransactionCreatedB in
                        let reply := append hubAddress reply in
                        let reply := append_hash txid reply in
                        let reply := append_string (binTxId xtx) reply in
                        let reply := append_uint32 (lockTime xtx) reply in
                        let reply := append_string (refTxId xtx) reply in
                        let reply := append_string (refTx xtx) reply in
                        let reply := sign (mPubKey xtx) (mPrivKey xtx) reply in
                        (true, sendPacket hubAddress reply (store txid xtx w))
                  end
        | _, _ => cancelOrder txid xtx crRpcError w
        end
    end.

(** [Session::Impl::processTransactionConfirmA] *)
Definition processTransactionConfirmA (w : World) (packet : Packet) : bool * World :=
  if size packet <=? 56 then (false, w)
  else
    let d := data packet in
    let hubAddress := bytes_at 0 addressSize d in
    let txid := bytes_at 20 hashSize d in
    let binTxId' := string_at 52 d in
    let offset := (52 + (String.length binTxId' + 1))%nat in
    let lockTimeB := uint32_at offset d in
    match xapp_transaction w txid with
    | None => (true, w)
    | Some xtx =>
      if negb (isLocal xtx) then (true, w)
      else if negb (verify packet (sPubKey xtx)) then (true, w)
      else if state_ge (state xtx) trCommited then (true, w)
      else if negb (Ascii.eqb (role xtx) "A") then (true, w)
      else
        match connectorByCurrency env (fromCurrency xtx),
              connectorByCurrency env (toCurrency xtx) with
        | Some connFrom, Some connTo =>
          let outAmount := coins (toAmount xtx) in
          let checkAmount := outAmount in
          if (lockTimeB =? 0) || negb (acceptableLockTimeDrift connTo "B" lockTimeB)
          then cancelOrder txid xtx crBadBDepositTx w
          else
            let xtx := set_opponentLockTime lockTimeB xtx in
            let hx := getKeyId connTo (xPubKey xtx) in
            let counterPartyScript :=
              createDepositUnlockScript connTo (oPubKey xtx) (mPubKey xtx) hx
                (opponentLockTime xtx) in
            let counterPartyP2SH :=
              scriptIdToString connTo (getScriptId connTo counterPartyScript) in
            let '(checked, (counterPartyVoutN, overpayment, isGood)) :=
              checkDepositTransaction connTo binTxId' checkAmount 0 counterPartyP2SH
                (oOverpayment xtx) in
            let xtx := set_oOverpayment overpayment xtx in
            if negb checked then (true, processLater txid packet (store txid xtx w))
            else if negb isGood then cancelOrder txid xtx crBadBDepositTx w
            else
              let xtx := set_oBinTxId binTxId' xtx in
              let xtx := set_oBinTxVout counterPartyVoutN xtx in
              let xtx := set_unlockScript counterPartyScript xtx in
              let xtx := set_unlockP2SHAddress counterPartyP2SH xtx in
              (* payTx *)
              let '(redeemed, errCode, xtx, w) := redeemOrderCounterpartyDeposit xtx 0 w in
              if negb redeemed then
                if errCode =? RPC_VERIFY_ERROR
                then (true, processLater txid packet (store txid xtx w))
                else cancelOrder txid xtx crRpcError w
              else
                let xtx := set_state trCommited xtx in
                let w := store txid xtx w in
                let w := emit (NotifyXBridgeTransactionChanged txid) w in
                let reply := newPacket xbcTransactionConfirmedA in
                let reply := append hubAddress reply in
                let reply := append_hash txid reply in
                let reply := append_string (payTxId xtx) reply in
                let reply := sign (mPubKey xtx) (mPrivKey xtx) reply in
                (true, sendPacket hubAddress reply w)
        | _, _ => cancelOrder txid xtx crRpcError w
        end
    end.

(** [Session::Impl::processTransactionConfirmB] *)
Definition processTransactionConfirmB (w : World) (packet : Packet) : bool * World :=
  if (size packet <=? 52) || (1000 <? size packet) then (false, w)
  else
    let d := data packet in
    let hubAddress := bytes_at 0 addressSize d in
    let txid := bytes_at 20 hashSize d in
    let payTxId' := string_at 52 d in
    match xapp_transaction w txid with
    | None => (true, w)
    | Some xtx =>
      if negb (isLocal xtx) then (true, w)
      else if negb (verify packet (sPubKey xtx)) then (true, w)
      else if state_ge (state xtx) trCommited then (true, w)
      else
        let xtx := if (otherPayTxTries xtx <? maxOtherPayTxTries)
                      && negb (isDoneWatching xtx)
                   then tryOtherPayTx (setOtherPayTxId payTxId' xtx) else xtx in
        match connectorByCurrency env (fromCurrency xtx),
              connectorByCurrency env (toCurrency xtx) with
        | Some connFrom, Some connTo =>
          (* payTx *)
          let '(redeemed, _, xtx, w) := redeemOrderCounterpartyDeposit xtx 0 w in
          if negb redeemed then (true, processLater txid packet (store txid xtx w))
          else
            let xtx := set_state trCommited xtx in
            let w := store txid xtx w in
            let w := emit (NotifyXBridgeTransactionChanged txid) w in
            let reply := newPacket xbcTransactionConfirmedB in
            let reply := append hubAddress reply in
            let reply := append_hash txid reply in
            let reply := append_string (payTxId xtx) reply in
            let reply := sign (mPubKey xtx) (mPrivKey xtx) reply in
            (true, sendPacket hubAddress reply w)
        | _, _ => (true, processLater txid packet (store txid xtx w))
        end
    end.

(** [Session::Impl::processTransactionFinished] *)
Definition processTransactionFinished (w : World) (packet : Packet) : bool * World :=
  if negb (size packet =? 32) then (false, w)
  else
    let txid := bytes_at 0 hashSize (data packet) in
    match xapp_transaction w txid with
    | None => (true, w)
    | Some xtx =>
      if negb (verify packet (sPubKey xtx)) then (true, w)
      else
        let xtx := set_state trFinished xtx in
        let w := store txid xtx w in
        let w := moveTransactionToHistory txid w in
        (true, emit (NotifyXBridgeTransactionChanged txid) w)
    end.

(** *** The Hub's handlers *)

(** A currency in its field of 8 bytes, filled with zeros. *)
Definition currencyField (c : string) : bytes :=
  firstn 8 (list_byte_of_string c ++ repeat x00 8).

(** [Session::Impl::sendTransaction]: the Hub announces a pending order. *)
Definition sendTransaction (txid : bytes) (w : World) : World :=
  let e := exchange w in
  if negb (isStarted e) then w
  else
    let tr := pendingTransaction e txid in
    if negb (matches tr txid) then w
    else
      let fc := currencyField (a_currency tr) in
      let tc := currencyField (b_currency tr) in
      let packet := newPacket xbcPendingTransaction in
      let packet := append_hash (tr_id tr) packet in
      let packet := append fc packet in
      let packet := append_uint64 (a_amount tr) packet in
      let packet := append tc packet in
      let packet := append_uint64 (b_amount tr) packet in
      let packet := append (m_myid env) packet in
      let packet := append_uint64 (createdTime tr) packet in
      let packet := append_hash (tr_blockHash tr) packet in
      let packet := sign (pubKey e) (privKey e) packet in
      sendPacketBroadcast packet w.

Definition utxoItemSize : nat := (hashSize + 4 + addressSize + signatureSize)%nat.

(** The loop of [processTransaction] and [processTransactionAccepting] that
    reads the announced UTXOs, [n] of them from [offset] on: [None] when the
    body is too short for one of them (the packet is dropped), else the sum
    of the amounts and the entries that the wallet knows and whose
    signature is good. *)
Fixpoint readUtxoItems (conn : WalletConnector) (packet : Packet) (n : nat) (offset : nat)
  (commonAmount : double) (utxoItems : list UtxoEntry)
  : option (double * list UtxoEntry) :=
  match n with
  | O => Some (commonAmount, utxoItems)
  | S n' =>
    if size packet <? Z.of_nat (offset + utxoItemSize) then None
    else
      let d := data packet in
      let txid := bytes_at offset hashSize d in
      let offset := (offset + hashSize)%nat in
      let vout' := uint32_at offset d in
      let offset := (offset + 4)%nat in
      let rawAddress' := bytes_at offset addressSize d in
      let offset := (offset + addressSize)%nat in
      let address' := fromXAddr conn rawAddress' in
      let signature' := bytes_at offset signatureSize d in
      let offset := (offset + signatureSize)%nat in
      let entry := mkUtxo (ToString env txid) vout' d_zero address' rawAddress' signature' in
      let '(found, entry) := getTxOut conn entry in
      if negb found then readUtxoItems conn packet n' offset commonAmount utxoItems
      else if negb (verifyMessage conn entry)
      then readUtxoItems conn packet n' offset commonAmount utxoItems
      else readUtxoItems conn packet n' offset (commonAmount + amount entry)%D
             (utxoItems ++ [entry])
  end.

(** The order id of [processTransaction]: the hash of the fields of the
    order and of the signature of the first entry of [utxoItems]. *)
Definition checkId (sconn dconn : WalletConnector) (saddr : bytes) (scurrency : string)
  (samount : Z) (daddr : bytes) (dcurrency : string) (damount timestamp : Z)
  (blockHash' firstUtxoSig : bytes) : bytes :=
  orderHash env (fromXAddr sconn saddr) scurrency samount (fromXAddr dconn daddr)
    dcurrency damount timestamp blockHash' firstUtxoSig.

(** [Session::Impl::processTransaction] *)
Definition processTransaction (w : World) (packet : Packet) : bool * World :=
  let e := exchange w in
  if negb (isStarted e) then (true, w)
  else if size packet <? 152 then (false, w)
  else
    let d := data packet in
    let txid := bytes_at 0 hashSize d in
    let t := pendingTransaction e txid in
    if matches t txid then
      let '(updated, e) := updateTimestampOrRemoveExpired t e in
      let w := set_exchange e w in
      if updated then
        if negb (makerUtxosAreStillValid t e) then
          let '(_, w) := sendCancelTransaction_hub t (reason_code crBadUtxo) w in
          (false, w)
        else (true, sendTransaction txid w)
      else (true, w)
    else
      let saddr := bytes_at 32 addressSize d in
      let scurrency := string_at 52 d in
      let samount := uint64_at 60 d in
      let daddr := bytes_at 68 addressSize d in
      let dcurrency := string_at 88 d in
      let damount := uint64_at 96 d in
      let timestamp := uint64_at 104 d in
      let blockHash' := bytes_at 112 hashSize d in
      let mpubkey := packet_pubkey packet in
      if negb (verify packet mpubkey) then (true, w)
      else
        match connectorByCurrency env scurrency, connectorByCurrency env dcurrency with
        | Some sconn, Some dconn =>
          let utxoItemsCount := uint32_at 144 d in
          match readUtxoItems sconn packet (Z.to_nat utxoItemsCount) 148 d_zero [] with
          | None => (true, w)
          | Some (commonAmount, []) => (true, w)
          | Some (commonAmount, (first :: _) as utxoItems) =>
            if (commonAmount * d_of_uint64 COIN <? d_of_uint64 samount)%D then (true, w)
            else if isDustAmount sconn (coins samount)
                    || isDustAmount sconn (commonAmount - coins samount)%D
                    || isDustAmount dconn (coins damount)
            then (true, w)
            else
              let firstUtxoSig := signature first in
              if negb (bool_decide
                         (checkId sconn dconn saddr scurrency samount daddr dcurrency
                            damount timestamp blockHash' firstUtxoSig = txid))
              then (true, w)
              else
                let '(good, e) := checkUtxoItems txid utxoItems e in
                let w := set_exchange e w in
                if negb good then (true, w)
                else
                  let '((made, isCreated), e) :=
                    createTransaction txid saddr scurrency samount daddr dcurrency damount
                      timestamp mpubkey utxoItems blockHash' e in
                  let w := set_exchange e w in
                  if negb made then (true, w)
                  else
                    let tr := pendingTransaction e txid in
                    let w := if isCreated then
                               let w := set_exchange (a_setUtxos tr utxoItems e) w in
                               emit (NotifyXBridgeTransactionReceived txid) w
                             else w in
                    if negb (matches tr txid) then (true, w)
                    else (true, sendTransaction txid w)
          end
        | _, _ => (true, w)
        end.

(** [Session::Impl::processTransactionAccepting] *)
Definition processTransactionAccepting (w : World) (packet : Packet) : bool * World :=
  let e := exchange w in
  if negb (isStarted e) then (true, w)
  else if negb (checkPacketAddress packet) then (true, w)
  else if size packet <? 164 then (false, w)
  else
    let d := data packet in
    let txid := bytes_at 20 hashSize d in
    let saddr := bytes_at 52 addressSize d in
    let scurrency := string_at 72 d in
    let samount := uint64_at 80 d in
    let daddr := bytes_at 88 addressSize d in
    let dcurrency := string_at 108 d in
    let damount := uint64_at 116 d in
    let mpubkey := packet_pubkey packet in
    let trExists := transaction e txid in
    if matches trExists txid then (true, w)
    else if negb (verify packet mpubkey) then (true, w)
    else
      match connectorByCurrency env scurrency with
      | None => (true, w)
      | Some conn =>
        let trPending := pendingTransaction e txid in
        if negb (matches trPending txid) then (true, w)
        else
          match connectorByCurrency env (a_currency trPending) with
          | None => (true, w)
          | Some makerConn =>
            if negb (forallb (fun entry => fst (getTxOut makerConn entry)) (a_utxos trPending))
            then
              let '(_, w) := sendCancelTransaction_hub trPending (reason_code crBadUtxo) w in
              (false, w)
            else
              let utxoItemsCount := uint32_at 124 d in
              match readUtxoItems conn packet (Z.to_nat utxoItemsCount) 128 d_zero [] with
              | None => (true, w)
              | Some (commonAmount, utxoItems) =>
                if (commonAmount * d_of_uint64 COIN <? d_of_uint64 samount)%D then (true, w)
                else if isDustAmount conn (coins samount)
                        || isDustAmount conn (commonAmount - coins samount)%D
                then (true, w)
                else
                  let '(good, e) := checkUtxoItems txid utxoItems e in
                  let w := set_exchange e w in
                  if negb good then (true, w)
                  else
                    let '(accepted, e) :=
                      acceptTransaction txid saddr scurrency samount daddr dcurrency damount
                        mpubkey utxoItems e in
                    let w := set_exchange e w in
                    if accepted then
                      let tr := transaction e txid in
                      if negb (matches tr txid) then (true, w)
                      else if negb (bool_decide (tr_state tr = Transaction.trJoined))
                      then (true, w)
                      else
                        let e := b_setUtxos tr utxoItems e in
                        let w := set_exchange e w in
                        let reply1 := newPacket xbcTransactionHold in
                        let reply1 := append (m_myid env) reply1 in
                        let reply1 := append_hash (tr_id tr) reply1 in
                        let reply1 := sign (pubKey e) (privKey e) reply1 in
                        (true, sendPacketBroadcast reply1 w)
                    else (true, w)
              end
          end
      end.

(** ** The vocabulary of the properties *)

(** The handlers that [Session::Impl::init] binds on the side of a trader,
    and the two it binds on both sides. *)
Inductive TraderHandler :=
| HPendingTransaction | HTransactionHold | HTransactionInit
| HTransactionCreateA | HTransactionCreateB
| HTransactionConfirmA | HTransactionConfirmB
| HTransactionCancel | HTransactionFinished.

Definition run (h : TraderHandler) : World -> Packet -> bool * World :=
  match h with
  | HPendingTransaction => processPendingTransaction
  | HTransactionHold => processTransactionHold
  | HTransactionInit => processTransactionInit
  | HTransactionCreateA => processTransactionCreateA
  | HTransactionCreateB => processTransactionCreateB
  | HTransactionConfirmA => processTransactionConfirmA
  | HTransactionConfirmB => processTransactionConfirmB
  | HTransactionCancel => processTransactionCancel
  | HTransactionFinished => processTransactionFinished
  end.

(** The order id a handler reads in the body of a packet. *)
Definition order_id (h : TraderHandler) (p : Packet) : bytes :=
  match h with
  | HPendingTransaction | HTransactionCancel | HTransactionFinished =>
    bytes_at 0 hashSize (data p)
  | HTransactionInit => bytes_at 40 hashSize (data p)
  | _ => bytes_at 20 hashSize (data p)
  end.

(** The state a handler of the state machine moves the order to (section
    4.3), for the six handlers that test the state first. *)
Definition target (h : TraderHandler) : option State :=
  match h with
  | HTransactionHold => Some trHold
  | HTransactionInit => Some trInitialized
  | HTransactionCreateA | HTransactionCreateB => Some trCreated
  | HTransactionConfirmA | HTransactionConfirmB => Some trCommited
  | _ => None
  end.

(** The packets that come from the Hub about an order a trader knows. *)
Definition from_hub (h : TraderHandler) : bool :=
  match h with
  | HPendingTransaction | HTransactionCancel => false
  | _ => true
  end.


(** What a handler added to the trace. *)
Definition new_events (w w' : World) : list Event :=
  skipn (length (trace w)) (trace w').

(** The registry holds an order under its own id, a hash of 32 bytes. *)
Definition registry_keyed (w : World) : Prop :=
  forall k x, m_transactions w !! k = Some x -> id x = k /\ length k = hashSize.


(** The conditions under which [processTransactionCancel] rolls an order
    back: a trader, not the Hub; a good signature; a wallet; the deposit
    sent, the deposit of the counterparty not redeemed, a refund
    transaction. *)
Definition rollback_path (w : World) (packet : Packet) (xtx : TransactionDescr)
  (conn : WalletConnector) : Prop :=
  size packet = 36 /\
  isStarted (exchange w) = false /\
  xapp_transaction w (bytes_at 0 hashSize (data packet)) = Some xtx /\
  (verify packet (sPubKey xtx) = true \/ verify packet (oPubKey xtx) = true \/
   verify packet (mPubKey xtx) = true) /\
  connectorByCurrency env (fromCurrency xtx) = Some conn /\
  state_code trCreated <= state_code (state xtx) /\
  state xtx <> trCancelled /\
  didSendDeposit xtx = true /\
  hasRedeemedCounterpartyDeposit xtx = false /\
  empty (refTx xtx) = false.

(** The states a cancel leaves an order in. *)
Definition cancel_state (s : State) : Prop :=
  s = trCancelled \/ s = trRollback \/ s = trRollbackFailed.

(** The states a handler of the state machine can leave an order in, when
    it changes the state: the state of the handler, or the states an order
    is left in when it fails and is cancelled. *)
Definition reach (h : TraderHandler) (s s' : State) : Prop :=
  match target h with
  | Some t => state_code s < state_code t /\
              (s' = t \/ s' = trFinished \/ cancel_state s')
  | None => True
  end.

(** What a handler may do to an order of the registry: the id and the key
    of the Hub stay, and the state changes only for the order the packet
    names. *)
Definition effect_on (h : TraderHandler) (packet : Packet) (k : bytes)
  (x x' : TransactionDescr) : Prop :=
  id x' = id x /\ sPubKey x' = sPubKey x /\
  (state x' = state x \/ (k = order_id h packet /\ reach h (state x) (state x'))).

(** The deposit transactions the wallets were asked to build: the
    currency of the wallet, the inputs and the outputs. *)
Definition deposits (tr : list Event) : list (string * list XTxIn * list (string * double)) :=
  flat_map (fun e => match e with
                     | CreateDepositTransaction c i o => [(c, i, o)]
                     | _ => []
                     end) tr.

End Model.

(** * Sample collaborators

    Concrete collaborators, orders and packets on which the handlers run:
    the properties below are stated for every collaborator, and are used
    here on these. *)

Module Sample.

(** Amounts as rationals. *)
#[local] Instance doubles : DoubleOps := {|
  double := QArith_base.Q;
  d_zero := QArith_base.inject_Z 0;
  d_of_uint64 := QArith_base.inject_Z;
  d_add := QArith_base.Qplus;
  d_sub := QArith_base.Qminus;
  d_mul := QArith_base.Qmult;
  d_div := QArith_base.Qdiv;
  d_lt := fun a b => negb (QArith_base.Qle_bool b a);
  d_le := QArith_base.Qle_bool
|}.

(** A toy signature: the key itself. *)
#[local] Instance packets : PacketOps := {|
  verify := fun p key => bool_decide (packet_signature p = key);
  signature_of := fun privkey _ _ => privkey
|}.

(** The states and the reasons in their order; the codes of
    [rpc/protocol.h]; 10^8 units in a coin. *)
#[local] Instance constants : Constants := {|
  state_code := fun s =>
    match s with
    | trNew => 0 | trPending => 1 | trAccepting => 2 | trHold => 3
    | trInitialized => 4 | trCreated => 5 | trCommited => 6 | trFinished => 7
    | trCancelled => 8 | trRollback => 9 | trRollbackFailed => 10
    | trDropped => 11 | trExpired => 12
    end;
  reason_code := fun r =>
    match r with
    | crBadAddress => 1 | crBadUtxo => 2 | crBadADepositTx => 3
    | crBadBDepositTx => 4 | crBlocknetError => 5 | crRpcError => 6
    | crNoMoney => 7 | crInvalidAddress => 8 | crTimeout => 9
    | crRollback => 10 | crUserRequest => 11
    end;
  RPC_VERIFY_ERROR := -25;
  RPC_VERIFY_ALREADY_IN_CHAIN := -27;
  COIN := 100000000;
  maxOtherPayTxTries := 3
|}.

(** An order book of two lists: the pending orders and the accepted
    ones. *)
Record BookOrder := mkBookOrder {
  bo_id : bytes;
  bo_state : Transaction.State;
  bo_maker : bytes;
  bo_taker : bytes
}.

Record Book := mkBook {
  book_started : bool;
  book_pending : list BookOrder;
  book_active : list BookOrder
}.

Definition no_order : BookOrder := mkBookOrder [] Transaction.trInvalid [] [].

Definition find_order (i : bytes) (l : list BookOrder) : BookOrder :=
  match List.find (fun o => bool_decide (bo_id o = i)) l with
  | Some o => o
  | None => no_order
  end.

Definition without (i : bytes) (l : list BookOrder) : list BookOrder :=
  List.filter (fun o => negb (bool_decide (bo_id o = i))) l.

Definition is_order (o : BookOrder) : bool :=
  negb (bool_decide (bo_state o = Transaction.trInvalid)).

#[local] Instance books : ExchangeOps := {|
  Exchange := Book;
  HubOrder := BookOrder;
  isStarted := book_started;
  isEnabled := book_started;
  pubKey := fun _ => repeat x02 33;
  privKey := fun _ => repeat x02 33;
  pendingTransaction := fun e i => find_order i (book_pending e);
  transaction := fun e i => find_order i (book_active e);
  matches := fun o i => is_order o && bool_decide (bo_id o = i);
  isValid := is_order;
  tr_id := bo_id;
  tr_state := bo_state;
  a_pk1 := bo_maker;
  b_pk1 := bo_taker;
  a_currency := fun _ => "BTC"%string;
  b_currency := fun _ => "LTC"%string;
  a_amount := fun _ => 100000000;
  b_amount := fun _ => 200000000;
  a_utxos := fun _ => [];
  createdTime := fun _ => 0;
  tr_blockHash := fun _ => repeat x00 32;
  updateTimestampOrRemoveExpired := fun _ e => (true, e);
  makerUtxosAreStillValid := fun _ _ => true;
  checkUtxoItems := fun _ _ e => (true, e);
  createTransaction := fun i _ _ _ _ _ _ _ _ _ key e =>
    ((true, true),
     mkBook (book_started e)
       (mkBookOrder i Transaction.trNew key [] :: book_pending e) (book_active e));
  acceptTransaction := fun i _ _ _ _ _ _ key _ e =>
    let o := find_order i (book_pending e) in
    if is_order o then
      (true,
       mkBook (book_started e) (without i (book_pending e))
         (mkBookOrder i Transaction.trJoined (bo_maker o) key :: book_active e))
    else (false, e);
  deletePendingTransaction := fun i e =>
    mkBook (book_started e) (without i (book_pending e)) (book_active e);
  tr_cancel := fun o e =>
    mkBook (book_started e) (without (bo_id o) (book_pending e))
      (without (bo_id o) (book_active e));
  a_setUtxos := fun _ _ e => e;
  b_setUtxos := fun _ _ e => e
|}.

(** ** Keys, ids and wallets *)

Definition hub_key : bytes := repeat x02 33.
Definition maker_key : bytes := repeat x03 33.
Definition taker_key : bytes := repeat x04 33.
Definition stranger_key : bytes := repeat x05 33.
Definition order_id0 : bytes := repeat x11 32.
Definition other_id : bytes := repeat x22 32.
Definition hub_address : bytes := repeat x0a 20.
Definition maker_address : bytes := repeat x0b 20.
Definition taker_address : bytes := repeat x0c 20.

Definition fee : double := QArith_base.Qmake 1 100.

(** A wallet that knows every output (three coins each), accepts every
    signature and builds every transaction; what it says of the chain and
    what it does with a raw transaction are given. *)
Definition wallet (cur : string) (info : bool * WalletInfo)
  (send : string -> bool * (string * Z)) : WalletConnector := {|
  currency := cur;
  fromXAddr := string_of_list_byte;
  getTxOut := fun e =>
    (true, mkUtxo (txId e) (vout e) (QArith_base.inject_Z 3) (address e) (rawAddress e)
             (signature e));
  verifyMessage := fun _ => true;
  isDustAmount := fun _ => false;
  minTxFee1 := fun _ _ => fee;
  minTxFee2 := fun _ _ => fee;
  conn_lockTime := fun r => if Ascii.eqb r "A" then 300 else 150;
  acceptableLockTimeDrift := fun _ _ => true;
  getKeyId := firstn 20;
  createDepositUnlockScript := fun a b hx _ => a ++ b ++ hx;
  getScriptId := firstn 20;
  scriptIdToString := string_of_list_byte;
  createDepositTransaction := fun _ _ => (true, ("deposit-id"%string, 0, "deposit"%string));
  createRefundTransaction := fun _ _ _ _ _ _ => (true, ("refund-id"%string, "refund"%string));
  createPaymentTransaction := fun _ _ _ _ _ _ =>
    (true, ("payment-id"%string, "payment"%string));
  getNewAddress := (true, "fresh"%string);
  getInfo := info;
  sendRawTransaction := send;
  checkDepositTransaction := fun _ _ v _ o => (true, (v, o, true));
  getSecretFromPaymentTransaction := fun _ _ _ _ => (false, ([], false))
|}.

Definition accepts (raw : string) : bool * (string * Z) := (true, (raw, 0)).
Definition already_in_chain (raw : string) : bool * (string * Z) :=
  (false, (EmptyString, RPC_VERIFY_ALREADY_IN_CHAIN)).

Definition ltc : WalletConnector := wallet "LTC" (true, mkInfo 400) accepts.

(** The process at the address [me], with the wallet [btc]. *)
Definition process (me : bytes) (btc : WalletConnector) : Env := {|
  connectorByCurrency := fun c =>
    if String.eqb c "BTC" then Some btc
    else if String.eqb c "LTC" then Some ltc else None;
  IsFullyValid := fun _ => true;
  Decompress := Some;
  getSn := fun key => bool_decide (key = hub_key);
  storeDataIntoBlockchain := fun _ => (true, "fee-id"%string);
  uint256S := fun _ => repeat x01 32;
  ToString := string_of_list_byte;
  m_myid := me;
  currentTime := 1000;
  orderHash := fun _ _ _ _ _ _ _ _ sig => firstn 32 sig
|}.

(** The chain is at block 100, before the locktime of the orders; at
    block 400, after it; or the wallet does not answer. *)
Definition btc_early : WalletConnector := wallet "BTC" (true, mkInfo 100) accepts.
Definition btc_late : WalletConnector := wallet "BTC" (true, mkInfo 400) accepts.
Definition btc_silent : WalletConnector := wallet "BTC" (false, mkInfo 100) accepts.
Definition btc_replay : WalletConnector := wallet "BTC" (true, mkInfo 400) already_in_chain.

(** A trader (the maker) with one of these wallets, and the Hub. *)
Definition trader_env (btc : WalletConnector) : Env := process maker_address btc.
Definition hub_env : Env := process hub_address btc_late.

(** ** Orders *)

Definition coin (n : Z) (a : Z) : UtxoEntry :=
  mkUtxo "coin" n (QArith_base.inject_Z a) (if n =? 0 then "first" else "second")
    maker_address [].

(** The order [order_id0] of a maker that sells one BTC for two LTC, in
    the state [st]; with its deposit and its refund when [deposited]. *)
Definition order (r : ascii) (st : State) (deposited : bool) : TransactionDescr := {|
  id := order_id0; role := r; state := st; reason := 0; local := true;
  hubAddress := hub_address; created := 900; txtime := 900;
  blockHash := repeat x00 32;
  from := maker_address; fromCurrency := "BTC"; fromAmount := 100000000;
  to := taker_address; toCurrency := "LTC"; toAmount := 200000000;
  sPubKey := hub_key; mPubKey := maker_key; mPrivKey := maker_key;
  oPubKey := taker_key; xPubKey := if Ascii.eqb r "A" then repeat x06 33 else [];
  xSecret := None; oHashedSecret := [];
  lockTime := 300; opponentLockTime := 150;
  lockScript := []; lockP2SHAddress := EmptyString;
  binTxId := if deposited then "deposit-id" else EmptyString; binTxVout := 0;
  binTx := if deposited then "deposit" else EmptyString;
  refTxId := if deposited then "refund-id" else EmptyString;
  refTx := if deposited then "refund" else EmptyString;
  refundAddress := EmptyString;
  oBinTxId := EmptyString; oBinTxVout := 0;
  unlockScript := []; unlockP2SHAddress := EmptyString;
  oOverpayment := d_zero;
  payTxId := EmptyString; payTx := EmptyString;
  usedCoins := [coin 0 2; coin 1 3]; feeUtxos := []; rawFeeTx := EmptyString;
  otherPayTxId := EmptyString; otherPayTxTries := 0;
  doneWatchingFlag := false; watchBlock := 0;
  depositSent := deposited; counterpartyRedeemed := false
|}.

(** A trader that knows the order [x]; the Hub with an order book. *)
Definition trader (x : TransactionDescr) : World :=
  mkWorld {[ id x := x ]} [] [] [] [] [] (mkBook false [] []) [].

Definition hub (pending active : list BookOrder) : World :=
  mkWorld ∅ [] [] [] [] [] (mkBook true pending active) [].

(** ** Packets *)

Definition zeros (n : nat) : bytes := repeat x00 n.

(** A name of a currency in its 8 bytes. *)
Definition currency_field (s : string) : bytes :=
  firstn 8 (list_byte_of_string s ++ zeros 8).

Definition packet_of (c : XBridgeCommand) (body : bytes) (key : bytes) : Packet :=
  mkPacket c body key key.

Definition hold_packet (key : bytes) : Packet :=
  packet_of xbcTransactionHold (hub_address ++ order_id0) key.

Definition cancel_packet (key : bytes) : Packet :=
  packet_of xbcTransactionCancel (order_id0 ++ Z_to_le 4 (reason_code crTimeout)) key.

(** An Init packet for [order_id0] with the amounts [a] and [b]. *)
Definition init_packet (a b : Z) : Packet :=
  packet_of xbcTransactionInit
    (maker_address ++ hub_address ++ order_id0 ++
     maker_address ++ currency_field "BTC" ++ Z_to_le 8 a ++
     taker_address ++ currency_field "LTC" ++ Z_to_le 8 b) hub_key.

Definition createA_packet : Packet :=
  packet_of xbcTransactionCreateA (hub_address ++ order_id0 ++ taker_key) hub_key.

(** The CreateB packet of the Hub: the key of the maker, the id of the
    deposit of the maker, the hash of the secret and the lock time of that
    deposit. *)
Definition createB_packet : Packet :=
  packet_of xbcTransactionCreateB
    (hub_address ++ order_id0 ++ maker_key ++ list_byte_of_string "deposit-a" ++ [x00] ++
     repeat x09 20 ++ Z_to_le 4 300) hub_key.


(** One announced UTXO: the id of the transaction, the output, the
    address and the signature. *)
Definition utxo_item (sig : byte) : bytes :=
  repeat x33 32 ++ Z_to_le 4 0 ++ maker_address ++ repeat sig 65.

(** A Transaction packet that announces the order [i]. *)
Definition transaction_packet (i : bytes) : Packet :=
  packet_of xbcTransaction
    (i ++ maker_address ++ currency_field "BTC" ++ Z_to_le 8 100000000 ++
     taker_address ++ currency_field "LTC" ++ Z_to_le 8 200000000 ++
     Z_to_le 8 900 ++ zeros 32 ++ Z_to_le 4 1 ++ utxo_item x44) maker_key.


End Sample.

(** * The handlers of the Hub, and the dispatch of a packet *)

(** What the session asks of an order of the Hub and of the exchange
    besides the methods above ([xbridgeexchange.h] and
    [xbridgetransaction.h] are not among the sources).  The session holds
    an order through a pointer that the exchange shares: a method that
    changes the order answers the order as it is afterwards, next to the
    exchange. *)
Class HubOps `{ExchangeOps} := {
  a_address : HubOrder -> bytes;
  b_address : HubOrder -> bytes;
  a_destination : HubOrder -> bytes;
  b_destination : HubOrder -> bytes;
  b_bintxid : HubOrder -> string;
  a_payTxId : HubOrder -> string;
  tr_updateTimestamp : HubOrder -> Exchange -> HubOrder * Exchange;
  a_setLockTime : Z -> HubOrder -> Exchange -> HubOrder * Exchange;
  b_setLockTime : Z -> HubOrder -> Exchange -> HubOrder * Exchange;
  a_setRefundTx : string -> string -> HubOrder -> Exchange -> HubOrder * Exchange;
  b_setRefundTx : string -> string -> HubOrder -> Exchange -> HubOrder * Exchange;
  a_setPayTxId : string -> HubOrder -> Exchange -> HubOrder * Exchange;
  b_setPayTxId : string -> HubOrder -> Exchange -> HubOrder * Exchange;
  updateTransactionWhenHoldApplyReceived :
    HubOrder -> bytes -> Exchange -> bool * (HubOrder * Exchange);
  updateTransactionWhenInitializedReceived :
    HubOrder -> bytes -> bytes -> Exchange -> bool * (HubOrder * Exchange);
  updateTransactionWhenCreatedReceived :
    HubOrder -> bytes -> string -> Exchange -> bool * (HubOrder * Exchange);
  updateTransactionWhenConfirmedReceived :
    HubOrder -> bytes -> Exchange -> bool * (HubOrder * Exchange);
  (** [e.pendingTransactions()] *)
  pendingTransactions : Exchange -> list HubOrder
}.

Section HubHandlers.
Context `{DoubleOps} `{PacketOps} `{Constants} `{!ExchangeOps} `{!HubOps}.
Variable env : Env.

Import XBridgePacket.

(** The process of the Hub: the state of the process, and the orders
    whose deposits [xbridge::App] watches for the Hub
    ([watchTraderDeposit], [unwatchTraderDeposit]; [xbridgeapp.h] is not
    among the sources), by their id. *)
Record HubState := mkHub {
  xapp : World;
  m_watchTraders : list bytes
}.

Definition with_app (w : World) (s : HubState) : HubState :=
  mkHub w (m_watchTraders s).

Definition watchTraderDeposit (tr : HubOrder) (s : HubState) : HubState :=
  mkHub (xapp s) (tr_id tr :: m_watchTraders s).

Definition unwatchTraderDeposit (tr : HubOrder) (s : HubState) : HubState :=
  mkHub (xapp s)
    (List.filter (fun i => negb (bool_decide (i = tr_id tr))) (m_watchTraders s)).

(** [Session::Impl::isAddressInTransaction] *)
Definition isAddressInTransaction (address' : bytes) (tx : HubOrder) : bool :=
  bool_decide (a_address tx = address') || bool_decide (b_address tx = address')
  || bool_decide (a_destination tx = address')
  || bool_decide (b_destination tx = address').

(** The packet [xbcTransactionInit] for one of the two traders. *)
Definition initPacket (e : Exchange) (id' dest addr : bytes) (cur : bytes) (amount' : Z)
  (ocur : bytes) (oamount : Z) : Packet :=
  let reply := newPacket xbcTransactionInit in
  let reply := append dest reply in
  let reply := append (m_myid env) reply in
  let reply := append_hash id' reply in
  let reply := append addr reply in
  let reply := append cur reply in
  let reply := append_uint64 amount' reply in
  let reply := append dest reply in
  let reply := append ocur reply in
  let reply := append_uint64 oamount reply in
  sign (pubKey e) (privKey e) reply.

(** [Session::Impl::processTransactionHoldApply] *)
Definition processTransactionHoldApply (s : HubState) (packet : Packet) : bool * HubState :=
  if negb (size packet =? 72) then (false, s)
  else if negb (checkPacketAddress env packet) then (true, s)
  else
    let w := xapp s in
    let e := exchange w in
    if negb (isStarted e) then (true, s)
    else
      let d := data packet in
      let from' := bytes_at 20 addressSize d in
      let id' := bytes_at 40 hashSize d in
      let tr := transaction e id' in
      if negb (matches tr id') then (true, s)
      else if negb (verify packet (a_pk1 tr)) && negb (verify packet (b_pk1 tr))
      then (true, s)
      else if negb (bool_decide (tr_state tr = Transaction.trJoined)) then (true, s)
      else
        let '(tr, e) := tr_updateTimestamp tr e in
        let w := set_exchange e w in
        if negb (isAddressInTransaction from' tr) then
          let '(_, w) := sendCancelTransaction_hub tr (reason_code crInvalidAddress) w in
          (true, with_app w s)
        else
          let '(updated, (tr, e)) := updateTransactionWhenHoldApplyReceived tr from' e in
          let w := set_exchange e w in
          if updated && bool_decide (tr_state tr = Transaction.trHold) then
            let a_cur := currencyField (a_currency tr) in
            let b_cur := currencyField (b_currency tr) in
            (* Maker *)
            let reply1 := initPacket e id' (a_destination tr) (a_address tr) a_cur
                            (a_amount tr) b_cur (b_amount tr) in
            let w := sendPacket (a_destination tr) reply1 w in
            (* Taker *)
            let reply2 := initPacket e id' (b_destination tr) (b_address tr) b_cur
                            (b_amount tr) a_cur (a_amount tr) in
            let w := sendPacket (b_destination tr) reply2 w in
            (true, with_app w s)
          else (true, with_app w s).

(** [Session::Impl::processTransactionInitialized] *)
Definition processTransactionInitialized (s : HubState) (packet : Packet)
  : bool * HubState :=
  if negb (size packet =? 104) then (false, s)
  else if negb (checkPacketAddress env packet) then (true, s)
  else
    let w := xapp s in
    let e := exchange w in
    if negb (isStarted e) then (true, s)
    else
      let d := data packet in
      let from' := bytes_at 20 addressSize d in
      let id' := bytes_at 40 hashSize d in
      let pk1 := packet_pubkey packet in
      let tr := transaction e id' in
      if negb (matches tr id') then (true, s)
      else if negb (verify packet (a_pk1 tr)) && negb (verify packet (b_pk1 tr))
      then (true, s)
      else if negb (bool_decide (tr_state tr = Transaction.trHold)) then (true, s)
      else
        let '(tr, e) := tr_updateTimestamp tr e in
        let w := set_exchange e w in
        if negb (isAddressInTransaction from' tr) then
          let '(_, w) := sendCancelTransaction_hub tr (reason_code crInvalidAddress) w in
          (true, with_app w s)
        else
          let '(updated, (tr, e)) :=
            updateTransactionWhenInitializedReceived tr from' pk1 e in
          let w := set_exchange e w in
          if updated && bool_decide (tr_state tr = Transaction.trInitialized) then
            (* Send to Maker *)
            let reply1 := newPacket xbcTransactionCreateA in
            let reply1 := append (m_myid env) reply1 in
            let reply1 := append_hash id' reply1 in
            let reply1 := append (b_pk1 tr) reply1 in
            let reply1 := sign (pubKey e) (privKey e) reply1 in
            (true, with_app (sendPacket (a_address tr) reply1 w) s)
          else (true, with_app w s).

(** [Session::Impl::processTransactionCreatedA] *)
Definition processTransactionCreatedA (s : HubState) (packet : Packet) : bool * HubState :=
  if size packet <=? 76 then (false, s)
  else if negb (checkPacketAddress env packet) then (true, s)
  else
    let w := xapp s in
    let e := exchange w in
    if negb (isStarted e) then (true, s)
    else
      let d := data packet in
      let txid := bytes_at 20 hashSize d in
      let binTxId' := string_at 52 d in
      let offset := (52 + (String.length binTxId' + 1))%nat in
      let hx := bytes_at offset addressSize d in
      let offset := (offset + addressSize)%nat in
      let lockTimeA := uint32_at offset d in
      let offset := (offset + 4)%nat in
      let refTxId' := string_at offset d in
      let offset := (offset + (String.length refTxId' + 1))%nat in
      let refTx' := string_at offset d in
      let tr := transaction e txid in
      if negb (matches tr txid) then (true, s)
      else if negb (verify packet (a_pk1 tr)) then (true, s)
      else if negb (bool_decide (tr_state tr = Transaction.trInitialized)) then (true, s)
      else
        let '(tr, e) := a_setLockTime lockTimeA tr e in
        let '(tr, e) := a_setRefundTx refTxId' refTx' tr e in
        let '(tr, e) := tr_updateTimestamp tr e in
        let s := watchTraderDeposit tr s in
        (* the handler returns when the update answers true *)
        let '(bad, (tr, e)) :=
          updateTransactionWhenCreatedReceived tr (a_address tr) binTxId' e in
        let w := set_exchange e w in
        if bad then (true, with_app w s)
        else
          let reply2 := newPacket xbcTransactionCreateB in
          let reply2 := append (m_myid env) reply2 in
          let reply2 := append_hash txid reply2 in
          let reply2 := append (a_pk1 tr) reply2 in
          let reply2 := append_string binTxId' reply2 in
          let reply2 := append hx reply2 in
          let reply2 := append_uint32 lockTimeA reply2 in
          let reply2 := sign (pubKey e) (privKey e) reply2 in
          (true, with_app (sendPacket (b_address tr) reply2 w) s).

(** [Session::Impl::processTransactionCreatedB] *)
Definition processTransactionCreatedB (s : HubState) (packet : Packet) : bool * HubState :=
  if size packet <=? 56 then (false, s)
  else if negb (checkPacketAddress env packet) then (true, s)
  else
    let w := xapp s in
    let e := exchange w in
    if negb (isStarted e) then (true, s)
    else
      let d := data packet in
      let txid := bytes_at 20 hashSize d in
      let binTxId' := string_at 52 d in
      let offset := (52 + (String.length binTxId' + 1))%nat in
      let lockTimeB := uint32_at offset d in
      let offset := (offset + 4)%nat in
      let refTxId' := string_at offset d in
      let offset := (offset + (String.length refTxId' + 1))%nat in
      let refTx' := string_at offset d in
      let tr := transaction e txid in
      if negb (matches tr txid) then (true, s)
      else if negb (verify packet (b_pk1 tr)) then (true, s)
      else if negb (bool_decide (tr_state tr = Transaction.trInitialized)) then (true, s)
      else
        let '(tr, e) := b_setLockTime lockTimeB tr e in
        let '(tr, e) := b_setRefundTx refTxId' refTx' tr e in
        let '(tr, e) := tr_updateTimestamp tr e in
        let '(updated, (tr, e)) :=
          updateTransactionWhenCreatedReceived tr (b_address tr) binTxId' e in
        let w := set_exchange e w in
        if updated && bool_decide (tr_state tr = Transaction.trCreated) then
          let reply := newPacket xbcTransactionConfirmA in
          let reply := append (m_myid env) reply in
          let reply := append_hash txid reply in
          let reply := append_string (b_bintxid tr) reply in
          let reply := append_uint32 lockTimeB reply in
          let reply := sign (pubKey e) (privKey e) reply in
          (true, with_app (sendPacket (a_destination tr) reply w) s)
        else (true, with_app w s).

(** [Session::Impl::processTransactionConfirmedA] *)
Definition processTransactionConfirmedA (s : HubState) (packet : Packet)
  : bool * HubState :=
  if (size packet <=? 52) || (1000 <? size packet) then (false, s)
  else if negb (checkPacketAddress env packet) then (true, s)
  else
    let w := xapp s in
    let e := exchange w in
    if negb (isStarted e) then (true, s)
    else
      let d := data packet in
      let txid := bytes_at 20 hashSize d in
      let a_payTxId' := string_at 52 d in
      let tr := transaction e txid in
      if negb (matches tr txid) then (true, s)
      else if negb (verify packet (a_pk1 tr)) then (true, s)
      else if negb (bool_decide (tr_state tr = Transaction.trCreated)) then (true, s)
      else
        let '(tr, e) := tr_updateTimestamp tr e in
        let '(tr, e) := a_setPayTxId a_payTxId' tr e in
        let '(_, (tr, e)) := updateTransactionWhenConfirmedReceived tr (a_destination tr) e in
        let w := set_exchange e w in
        let reply2 := newPacket xbcTransactionConfirmB in
        let reply2 := append (m_myid env) reply2 in
        let reply2 := append_hash txid reply2 in
        let reply2 := append_string (a_payTxId tr) reply2 in
        let reply2 := sign (pubKey e) (privKey e) reply2 in
        (true, with_app (sendPacket (b_destination tr) reply2 w) s).

(** [Session::Impl::processTransactionConfirmedB] *)
Definition processTransactionConfirmedB (s : HubState) (packet : Packet)
  : bool * HubState :=
  if (size packet <=? 52) || (1000 <? size packet) then (false, s)
  else if negb (checkPacketAddress env packet) then (true, s)
  else
    let w := xapp s in
    let e := exchange w in
    if negb (isStarted e) then (true, s)
    else
      let d := data packet in
      let txid := bytes_at 20 hashSize d in
      let b_payTxId' := string_at 52 d in
      let tr := transaction e txid in
      if negb (matches tr txid) then (true, s)
      else if negb (verify packet (b_pk1 tr)) then (true, s)
      else if negb (bool_decide (tr_state tr = Transaction.trCreated)) then (true, s)
      else
        let '(tr, e) := tr_updateTimestamp tr e in
        let '(tr, e) := b_setPayTxId b_payTxId' tr e in
        let '(updated, (tr, e)) :=
          updateTransactionWhenConfirmedReceived tr (b_destination tr) e in
        let w := set_exchange e w in
        if updated && bool_decide (tr_state tr = Transaction.trFinished) then
          let s := unwatchTraderDeposit tr s in
          let reply := newPacket xbcTransactionFinished in
          let reply := append_hash txid reply in
          let reply := sign (pubKey e) (privKey e) reply in
          (true, with_app (sendPacketBroadcast reply w) s)
        else (true, with_app w s).

(** [Session::sendListOfTransactions]: the Hub announces its pending
    orders. *)
Definition pendingPacket (e : Exchange) (ptr : HubOrder) : Packet :=
  let fc := currencyField (a_currency ptr) in
  let tc := currencyField (b_currency ptr) in
  let packet := newPacket xbcPendingTransaction in
  let packet := append_hash (tr_id ptr) packet in
  let packet := append fc packet in
  let packet := append_uint64 (a_amount ptr) packet in
  let packet := append tc packet in
  let packet := append_uint64 (b_amount ptr) packet in
  let packet := append (m_myid env) packet in
  let packet := append_uint64 (createdTime ptr) packet in
  let packet := append_hash (tr_blockHash ptr) packet in
  sign (pubKey e) (privKey e) packet.

Definition sendListOfTransactions (w : World) : World :=
  let e := exchange w in
  if negb (isStarted e) then w
  else fold_left (fun w ptr => sendPacketBroadcast (pendingPacket e ptr) w)
         (pendingTransactions e) w.

(** ** The dispatch *)

(** A handler of the table [m_handlers]. *)
Definition Handler : Type := HubState -> Packet -> bool * HubState.

(** A handler of a trader, of the state of the process alone. *)
Definition on_app (f : World -> Packet -> bool * World) : Handler :=
  fun s packet => let '(r, w) := f (xapp s) packet in (r, with_app w s).

(** [Session::Impl::processInvalid], [Session::Impl::processZero] and
    [Session::Impl::processXChatMessage] *)
Definition processInvalid (s : HubState) (_ : Packet) : bool * HubState := (true, s).
Definition processZero (s : HubState) (_ : Packet) : bool * HubState := (true, s).
Definition processXChatMessage (s : HubState) (_ : Packet) : bool * HubState := (true, s).

(** The table that [Session::Impl::init] fills: [server] when the exchange
    is enabled ([-enableexchange]) and the node has an active service
    node. *)
Definition handlers (server : bool) (c : XBridgeCommand) : option Handler :=
  match c with
  | xbcInvalid => Some processInvalid
  | xbcTransaction =>
    if server then Some (on_app (processTransaction env)) else None
  | xbcTransactionAccepting =>
    if server then Some (on_app (processTransactionAccepting env)) else None
  | xbcTransactionHoldApply => if server then Some processTransactionHoldApply else None
  | xbcTransactionInitialized =>
    if server then Some processTransactionInitialized else None
  | xbcTransactionCreatedA => if server then Some processTransactionCreatedA else None
  | xbcTransactionCreatedB => if server then Some processTransactionCreatedB else None
  | xbcTransactionConfirmedA => if server then Some processTransactionConfirmedA else None
  | xbcTransactionConfirmedB => if server then Some processTransactionConfirmedB else None
  | xbcPendingTransaction =>
    if server then None else Some (on_app (processPendingTransaction env))
  | xbcTransactionHold =>
    if server then None else Some (on_app (processTransactionHold env))
  | xbcTransactionInit =>
    if server then None else Some (on_app (processTransactionInit env))
  | xbcTransactionCreateA =>
    if server then None else Some (on_app (processTransactionCreateA env))
  | xbcTransactionCreateB =>
    if server then None else Some (on_app (processTransactionCreateB env))
  | xbcTransactionConfirmA =>
    if server then None else Some (on_app (processTransactionConfirmA env))
  | xbcTransactionConfirmB =>
    if server then None else Some (on_app (processTransactionConfirmB env))
  | xbcTransactionCancel => Some (on_app (processTransactionCancel env))
  | xbcTransactionFinished => Some (on_app processTransactionFinished)
  | xbcXChatMessage => Some processXChatMessage
  | xbcAnnounce | xbcServicesPing => None
  end.

(** [Session::Impl::decryptPacket] *)
Definition decryptPacket (_ : Packet) : bool := true.

(** The outcome of [Session::processPacket]: what it returns, the level
    it gave to [state->DoS] when it called it ([None] when it did not; the
    level is what [CValidationState::DoS] adds to the score of the peer),
    the flag that [setWorking] and [setNotWorking] set, and the process. *)
Record Outcome := mkOutcome {
  returned : bool;
  dos : option Z;
  working : bool;
  after : HubState
}.

(** [Session::processPacket]; [state] tells whether the caller gave a
    validation state. *)
Definition processPacket (server : bool) (state : bool) (s : HubState) (packet : Packet)
  : Outcome :=
  (* setWorking() *)
  if negb (decryptPacket packet) then mkOutcome false None false s
  else
    let c := command packet in
    match handlers server c with
    | None =>
      let '(_, s) := processInvalid s packet in
      mkOutcome false None false s
    | Some handler =>
      let '(ok, s) := handler s packet in
      if negb ok then
        (* state->DoS(0, ...) *)
        mkOutcome false (if state then Some 0 else None) false s
      else mkOutcome true None false s
    end.

End HubHandlers.

(** ** The vocabulary of the properties of the Hub and of the dispatch *)

Section HubVocabulary.
Context `{DoubleOps} `{PacketOps} `{Constants} `{!ExchangeOps} `{!HubOps}.
Variable env : Env.

Import XBridgePacket.

(** The handlers of the Hub that follow an order after it is accepted. *)
Inductive HubHandler :=
| HHoldApply | HInitialized | HCreatedA | HCreatedB | HConfirmedA | HConfirmedB.

Definition run_hub (h : HubHandler) : Handler :=
  match h with
  | HHoldApply => processTransactionHoldApply env
  | HInitialized => processTransactionInitialized env
  | HCreatedA => processTransactionCreatedA env
  | HCreatedB => processTransactionCreatedB env
  | HConfirmedA => processTransactionConfirmedA env
  | HConfirmedB => processTransactionConfirmedB env
  end.

(** The order id these handlers read in the body of a packet. *)
Definition hub_order_id (h : HubHandler) (p : Packet) : bytes :=
  match h with
  | HHoldApply | HInitialized => bytes_at 40 hashSize (data p)
  | _ => bytes_at 20 hashSize (data p)
  end.

(** The state of the order in which the Hub expects the packet. *)
Definition expected_state (h : HubHandler) : Transaction.State :=
  match h with
  | HHoldApply => Transaction.trJoined
  | HInitialized => Transaction.trHold
  | HCreatedA | HCreatedB => Transaction.trInitialized
  | HConfirmedA | HConfirmedB => Transaction.trCreated
  end.

(** The trader whose signature the Hub expects: the maker, the taker, or
    either of them. *)
Definition signed_by_the_party (h : HubHandler) (p : Packet) (tr : HubOrder) : bool :=
  match h with
  | HHoldApply | HInitialized => verify p (a_pk1 tr) || verify p (b_pk1 tr)
  | HCreatedA | HConfirmedA => verify p (a_pk1 tr)
  | HCreatedB | HConfirmedB => verify p (b_pk1 tr)
  end.

(** The packet is for this session, the exchange is started, the order is
    an active order of the exchange in the expected state, and the packet
    is signed by the expected trader. *)
Definition authorised (h : HubHandler) (s : HubState) (p : Packet) : bool :=
  let e := exchange (xapp s) in
  let tr := transaction e (hub_order_id h p) in
  checkPacketAddress env p && isStarted e && matches tr (hub_order_id h p)
  && signed_by_the_party h p tr
  && bool_decide (tr_state tr = expected_state h).

(** The size of the body that the handler of a command takes. *)
Definition takes (c : XBridgeCommand) (n : Z) : bool :=
  match c with
  | xbcTransaction => 152 <=? n
  | xbcPendingTransaction => n =? 124
  | xbcTransactionAccepting => 164 <=? n
  | xbcTransactionHold => n =? 52
  | xbcTransactionHoldApply => n =? 72
  | xbcTransactionInit => n =? 144
  | xbcTransactionInitialized => n =? 104
  | xbcTransactionCreateA => n =? 85
  | xbcTransactionCreateB => 109 <? n
  | xbcTransactionCreatedA => 76 <? n
  | xbcTransactionCreatedB => 56 <? n
  | xbcTransactionConfirmA => 56 <? n
  | xbcTransactionConfirmB
  | xbcTransactionConfirmedA
  | xbcTransactionConfirmedB => (52 <? n) && (n <=? 1000)
  | xbcTransactionCancel => n =? 36
  | xbcTransactionFinished => n =? 32
  | xbcInvalid | xbcAnnounce | xbcXChatMessage | xbcServicesPing => true
  end.

(** The commands of the side of the Hub and of the side of a trader. *)
Definition hub_command (c : XBridgeCommand) : bool :=
  match c with
  | xbcTransaction | xbcTransactionAccepting | xbcTransactionHoldApply
  | xbcTransactionInitialized | xbcTransactionCreatedA | xbcTransactionCreatedB
  | xbcTransactionConfirmedA | xbcTransactionConfirmedB => true
  | _ => false
  end.

Definition trader_command (c : XBridgeCommand) : bool :=
  match c with
  | xbcPendingTransaction | xbcTransactionHold | xbcTransactionInit
  | xbcTransactionCreateA | xbcTransactionCreateB
  | xbcTransactionConfirmA | xbcTransactionConfirmB => true
  | _ => false
  end.

(** The packets of a trace, sent to one address or broadcast. *)
Definition sent (tr : list Event) : list Packet :=
  flat_map (fun e => match e with
                     | SendPacket _ p | SendPacketBroadcast p => [p]
                     | _ => []
                     end) tr.

(** The command that [Session::Impl::init] binds to a handler of a
    trader. *)
Definition command_of (h : TraderHandler) : XBridgeCommand :=
  match h with
  | HPendingTransaction => xbcPendingTransaction
  | HTransactionHold => xbcTransactionHold
  | HTransactionInit => xbcTransactionInit
  | HTransactionCreateA => xbcTransactionCreateA
  | HTransactionCreateB => xbcTransactionCreateB
  | HTransactionConfirmA => xbcTransactionConfirmA
  | HTransactionConfirmB => xbcTransactionConfirmB
  | HTransactionCancel => xbcTransactionCancel
  | HTransactionFinished => xbcTransactionFinished
  end.

(** The command that [Session::Impl::init] binds to a handler of the
    Hub. *)
Definition hub_command_of (h : HubHandler) : XBridgeCommand :=
  match h with
  | HHoldApply => xbcTransactionHoldApply
  | HInitialized => xbcTransactionInitialized
  | HCreatedA => xbcTransactionCreatedA
  | HCreatedB => xbcTransactionCreatedB
  | HConfirmedA => xbcTransactionConfirmedA
  | HConfirmedB => xbcTransactionConfirmedB
  end.

(** A packet has a size that the handler of its command takes. *)
Definition fit (p : Packet) : Prop := takes (command p) (size p) = true.

(** The packets sent from [w] to [w'] all fit their handler. *)
Definition fits_since (w w' : World) : Prop :=
  exists l, sent (trace w') = sent (trace w) ++ l /\ Forall fit l.

(** The total of the amounts of a list of coins, added in their order to
    [a]. *)
Definition total (a : double) (l : list UtxoEntry) : double :=
  fold_left (fun acc e => (acc + amount e)%D) l a.

(** Whether the coins [l] cover the amount and the fees, with the fee of
    a transaction of that many inputs. *)
Definition covers (conn : WalletConnector) (outAmount fee2 : double) (l : list UtxoEntry)
  : bool :=
  (total d_zero l >=? outAmount + minTxFee1 conn (Z.of_nat (length l)) 3 + fee2)%D.

(** The orders and the wallets of a trader are well formed: an order is
    held under its id, of 32 bytes; the address of a local order has 20
    bytes; the id of a fee transaction has 32 bytes; the id of a key has
    20 bytes; the id of a payment transaction has at most 947
    characters. *)
Definition trader_wf (w : World) : Prop :=
  registry_keyed w /\
  (forall k x, m_transactions w !! k = Some x -> isLocal x = true ->
     length (from x) = addressSize) /\
  (forall s, length (uint256S env s) = hashSize) /\
  (forall c conn key, connectorByCurrency env c = Some conn ->
     length (getKeyId conn key) = addressSize) /\
  (forall c conn i o a b s u, connectorByCurrency env c = Some conn ->
     (String.length (fst (snd (createPaymentTransaction conn i o a b s u))) <= 947)%nat).

(** The Hub and its orders are well formed.  The address of the session
    has 20 bytes.  The id of an order and the hash of its block are
    [uint256] values: 32 bytes, whatever the order, also for the empty
    order that [Exchange::transaction] answers for an unknown id.  The
    addresses and the keys are asked only of the orders that hold them:
    an order on hold ([trHold]: the two traders have answered the Hold
    packet) has the addresses of its two traders, of 20 bytes; an order
    that is initialized ([trInitialized]) has their keys, of 33 bytes.
    The setters of [xbridge::Transaction] ([xbridgetransaction.h], not
    among the sources) do what their names say: the lock time, the refund,
    the time stamp and the update on a Created packet leave the key of the
    maker as it is; [a_setPayTxId] sets what [a_payTxId] reads, and the
    update on a Confirmed packet leaves it. *)
Definition hub_wf : Prop :=
  length (m_myid env) = addressSize /\
  (forall tr : HubOrder,
     length (tr_id tr) = hashSize /\ length (tr_blockHash tr) = hashSize) /\
  (forall tr : HubOrder, tr_state tr = Transaction.trHold ->
     length (a_address tr) = addressSize /\ length (b_address tr) = addressSize /\
     length (a_destination tr) = addressSize /\
     length (b_destination tr) = addressSize) /\
  (forall tr : HubOrder, tr_state tr = Transaction.trInitialized ->
     length (a_pk1 tr) = pubkeySize /\ length (b_pk1 tr) = pubkeySize) /\
  (forall l tr e, a_pk1 (fst (a_setLockTime l tr e)) = a_pk1 tr) /\
  (forall i r tr e, a_pk1 (fst (a_setRefundTx i r tr e)) = a_pk1 tr) /\
  (forall tr e, a_pk1 (fst (tr_updateTimestamp tr e)) = a_pk1 tr) /\
  (forall tr a b e,
     a_pk1 (fst (snd (updateTransactionWhenCreatedReceived tr a b e))) = a_pk1 tr) /\
  (forall s tr e, a_payTxId (fst (a_setPayTxId s tr e)) = s) /\
  (forall tr a e,
     a_payTxId (fst (snd (updateTransactionWhenConfirmedReceived tr a e))) =
     a_payTxId tr).

(** The body of a CreatedA packet holds the hash of the secret after the
    id of the deposit. *)
Definition holds_the_hash (p : Packet) : Prop :=
  (52 + (String.length (string_at 52 (data p)) + 1) + addressSize <= length (data p))%nat.

(** The body of a ConfirmedA packet holds the id of the payment with the
    NUL that ends it. *)
Definition holds_the_payment (p : Packet) : Prop :=
  (52 + (String.length (string_at 52 (data p)) + 1) <= length (data p))%nat.

(** A name that a field of 8 bytes carries whole: shorter than the field,
    and free of NUL. *)
Definition short_name (c : string) : Prop :=
  (String.length c < 8)%nat /\ ~ In x00 (list_byte_of_string c).

End HubVocabulary.

(** * XRouter settings

    A shallow embedding of [src/xrouter/xroutersettings.cpp]: the text of
    a configuration that a node publishes, and the lookups of a value of a
    command. *)
Module XRouter.

Definition privatePrefix : string := "private::".
Definition privateComment : string := "#!".

(** [boost::split(lines, text, boost::is_any_of(sep))], for a set of one
    separator: the runs between the separators, the empty ones too. *)
Fixpoint split (sep : ascii) (text : string) : list string :=
  match text with
  | EmptyString => [EmptyString]
  | String c r =>
    if Ascii.eqb c sep then EmptyString :: split sep r
    else match split sep r with
         | l :: ls => String c l :: ls
         | [] => [String c EmptyString]
         end
  end.

(** [hay.find(needle) != std::string::npos] *)
Fixpoint contains (needle hay : string) : bool :=
  String.prefix needle hay ||
  match hay with
  | EmptyString => false
  | String _ r => contains needle r
  end.

(** The class [\s] of [std::regex] in the classic locale. *)
Definition is_space (c : ascii) : bool :=
  let n := nat_of_ascii c in
  (n =? 32)%nat || ((9 <=? n)%nat && (n <=? 13)%nat).

(** What [.] of [std::regex] takes: all but the ends of a line. *)
Definition any_char (c : ascii) : bool :=
  let n := nat_of_ascii c in
  negb ((n =? 10)%nat || (n =? 13)%nat).

Fixpoint skip_spaces (s : string) : string :=
  match s with
  | String c r => if is_space c then skip_spaces r else s
  | EmptyString => s
  end.

Fixpoint all_chars (f : ascii -> bool) (s : string) : bool :=
  match s with
  | String c r => f c && all_chars f r
  | EmptyString => true
  end.

(** [std::regex_match(line, m, rprivateComment)] for the expression
    [^\s*#!.*$]: the whole line is spaces, the mark of a private comment
    and characters of one line. *)
Definition regex_match_privateComment (line : string) : bool :=
  let r := skip_spaces line in
  String.prefix privateComment r &&
  all_chars any_char (String.substring 2 (String.length r - 2) r).

(** The lines [genPublic] leaves out. *)
Definition excluded (line : string) : bool :=
  contains privatePrefix line || regex_match_privateComment line.

(** [XRouterSettings::genPublic] and [XRouterPluginSettings::genPublic]:
    from [rawtext] to [pubtext]. *)
Definition genPublic (rawtext : string) : string :=
  let lines := split "010" rawtext in
  fold_left
    (fun publictext line =>
       if excluded line then publictext
       else String.append publictext (String.append line (String "010" EmptyString)))
    lines EmptyString.

(** The end of a line, and the text of the lines, each with its end of
    line. *)
Definition lf : ascii := "010"%char.

Fixpoint unlines (ls : list string) : string :=
  match ls with
  | [] => EmptyString
  | l :: r => String.append l (String "010" (unlines r))
  end.

End XRouter.

(** ** The values of a configuration *)

(** What [xroutersettings.h] and [xrouterdef.h] give, neither among the
    sources: the lookups [IniConfig::get<T>(key, def)] of the value of a
    key, [IniConfig::has(key)], the commands, their names and the delimiter
    of a name space. *)
Class IniOps := {
  IniConfig : Type;
  get_int : IniConfig -> string -> Z -> Z;
  get_string : IniConfig -> string -> string -> string;
  has : IniConfig -> string -> bool;
  XRouterCommand : Type;
  XRouterCommand_eq_dec :: EqDecision XRouterCommand;
  xrService : XRouterCommand;
  XRouterCommand_ToString : XRouterCommand -> string;
  xrdelimiter : string;
  XROUTER_DEFAULT_FETCHLIMIT : Z
}.

Module XRouterSettings.
Section Settings.
Context `{IniOps}.

(** [std::numeric_limits<int>::max()] *)
Definition INT_MAX : Z := 2147483647.

Definition maxFetchLimit (fl : Z) : Z :=
  if fl <? 0 then INT_MAX else fl.

(** [XRouterSettings]: its own configuration, the configurations of the
    plug-ins it loaded, and the wallets it serves. *)
Record Settings := mkSettings {
  m_pt : IniConfig;
  plugins : gmap string IniConfig;
  wallets : gset string
}.

Definition hasWallet (s : Settings) (currency : string) : bool :=
  bool_decide (currency ∈ wallets s).

(** [XRouterSettings::loadWallets] *)
Definition loadWallets (s : Settings) : Settings :=
  let s := mkSettings (m_pt s) (plugins s) ∅ in
  let ws := get_string (m_pt s) "Main.wallets" EmptyString in
  let lwallets := XRouter.split "," ws in
  fold_left
    (fun s w =>
       if negb (String.eqb w EmptyString)
       then mkSettings (m_pt s) (plugins s) ({[ w ]} ∪ wallets s)
       else s)
    lwallets s.

(** [XRouterPluginSettings::fetchLimit] *)
Definition fetchLimit (ps : IniConfig) : Z :=
  maxFetchLimit (get_int ps "fetchlimit" XROUTER_DEFAULT_FETCHLIMIT).

(** [c == xrService && hasPlugin(service)], and the settings that
    [getPluginSettings(service)] gives then. *)
Definition plugin_of (s : Settings) (c : XRouterCommand) (service : string)
  : option IniConfig :=
  if bool_decide (c = xrService) then plugins s !! service else None.

(** [XRouterSettings::commandFetchLimit] *)
Definition commandFetchLimit (s : Settings) (c : XRouterCommand) (service : string)
    (def : Z) : Z :=
  match plugin_of s c service with
  | Some ps =>
    if has ps "fetchlimit" then maxFetchLimit (fetchLimit ps)
    else maxFetchLimit (get_int (m_pt s) "Main.fetchlimit" def)
  | None =>
    let res := get_int (m_pt s) "Main.fetchlimit" def in
    let res := get_int (m_pt s) (XRouterCommand_ToString c +:+ ".fetchlimit") res in
    let res :=
      if negb (String.eqb service EmptyString) then
        let res := get_int (m_pt s) (service +:+ ".fetchlimit") res in
        get_int (m_pt s)
          (service +:+ xrdelimiter +:+ XRouterCommand_ToString c +:+ ".fetchlimit") res
      else res in
    maxFetchLimit res
  end.

End Settings.
End XRouterSettings.

(** * More samples

    A Hub whose order book holds one order, [Sample.order_id0] between the
    maker and the taker of the samples above; wallets whose ids of a key
    have 20 bytes; and more orders and packets of the samples above. *)
Module Desk.
Import Sample.
#[local] Existing Instances doubles packets constants.

(** An order of the book: its state, and the id of the payment of the
    maker. *)
Record Deal := mkDeal {
  deal_state : Transaction.State;
  deal_payment : string
}.

(** The order book: whether the exchange runs, and its one order (in the
    state [trInvalid] when there is none). *)
Record Book := mkBook {
  started : bool;
  deal : Deal
}.

Definition order_state (e : Book) : Transaction.State := deal_state (deal e).

Definition no_deal : Deal := mkDeal Transaction.trInvalid EmptyString.

Definition known (o : Deal) : bool :=
  negb (bool_decide (deal_state o = Transaction.trInvalid)).

(** The order has a taker. *)
Definition joined (o : Deal) : bool :=
  match deal_state o with
  | Transaction.trJoined | Transaction.trHold | Transaction.trInitialized
  | Transaction.trCreated | Transaction.trFinished => true
  | _ => false
  end.

(** The taker has made its deposit. *)
Definition funded (o : Deal) : bool :=
  match deal_state o with
  | Transaction.trCreated | Transaction.trFinished => true
  | _ => false
  end.

Definition to_state (st : Transaction.State) (o : Deal) : Deal :=
  mkDeal st (deal_payment o).

Definition at_state (st : Transaction.State) (e : Book) : Book :=
  mkBook (started e) (to_state st (deal e)).

Definition paid (p : string) (o : Deal) : Deal := mkDeal (deal_state o) p.

(** The order that is not there has an id of zeros and no key; an order
    has the key of its taker once it has a taker. *)
#[local] Instance book : ExchangeOps := {|
  Exchange := Book;
  HubOrder := Deal;
  isStarted := started;
  isEnabled := started;
  pubKey := fun _ => hub_key;
  privKey := fun _ => hub_key;
  pendingTransaction := fun e i =>
    if bool_decide (i = order_id0) && bool_decide (order_state e = Transaction.trNew)
    then deal e else no_deal;
  transaction := fun e i =>
    if bool_decide (i = order_id0) then deal e else no_deal;
  matches := fun o i => known o && bool_decide (i = order_id0);
  isValid := known;
  tr_id := fun o => if known o then order_id0 else repeat x00 32;
  tr_state := deal_state;
  a_pk1 := fun o => if known o then maker_key else [];
  b_pk1 := fun o => if joined o then taker_key else [];
  a_currency := fun _ => "BTC"%string;
  b_currency := fun _ => "LTC"%string;
  a_amount := fun _ => 100000000;
  b_amount := fun _ => 200000000;
  a_utxos := fun _ => [];
  createdTime := fun _ => 900;
  tr_blockHash := fun _ => repeat x00 32;
  updateTimestampOrRemoveExpired := fun _ e => (true, e);
  makerUtxosAreStillValid := fun _ _ => true;
  checkUtxoItems := fun _ _ e => (true, e);
  createTransaction := fun _ _ _ _ _ _ _ _ _ _ _ e =>
    ((true, true), at_state Transaction.trNew e);
  acceptTransaction := fun _ _ _ _ _ _ _ _ _ e =>
    if bool_decide (order_state e = Transaction.trNew)
    then (true, at_state Transaction.trJoined e) else (false, e);
  deletePendingTransaction := fun _ e => at_state Transaction.trInvalid e;
  tr_cancel := fun _ e => at_state Transaction.trCancelled e;
  a_setUtxos := fun _ _ e => e;
  b_setUtxos := fun _ _ e => e
|}.

(** The order moves one step at an answer of a trader that finds it in
    the state before; the addresses of the taker are there once the order
    has a taker, and the id of its deposit once it is made. *)
#[local] Instance desk : HubOps := {|
  a_address := fun o => if known o then maker_address else [];
  b_address := fun o => if joined o then taker_address else [];
  a_destination := fun o => if known o then maker_address else [];
  b_destination := fun o => if joined o then taker_address else [];
  b_bintxid := fun o => if funded o then "deposit-b"%string else EmptyString;
  a_payTxId := deal_payment;
  tr_updateTimestamp := fun o e => (o, e);
  a_setLockTime := fun _ o e => (o, e);
  b_setLockTime := fun _ o e => (o, e);
  a_setRefundTx := fun _ _ o e => (o, e);
  b_setRefundTx := fun _ _ o e => (o, e);
  a_setPayTxId := fun p o e => (paid p o, mkBook (started e) (paid p (deal e)));
  b_setPayTxId := fun _ o e => (o, e);
  updateTransactionWhenHoldApplyReceived := fun o _ e =>
    if bool_decide (deal_state o = Transaction.trJoined)
    then (true, (to_state Transaction.trHold o, at_state Transaction.trHold e))
    else (false, (o, e));
  updateTransactionWhenInitializedReceived := fun o _ _ e =>
    if bool_decide (deal_state o = Transaction.trHold)
    then (true, (to_state Transaction.trInitialized o,
                 at_state Transaction.trInitialized e))
    else (false, (o, e));
  updateTransactionWhenCreatedReceived := fun o from' _ e =>
    if bool_decide (deal_state o = Transaction.trInitialized)
       && bool_decide (from' = taker_address)
    then (true, (to_state Transaction.trCreated o, at_state Transaction.trCreated e))
    else (false, (o, e));
  updateTransactionWhenConfirmedReceived := fun o from' e =>
    if bool_decide (deal_state o = Transaction.trCreated)
       && bool_decide (from' = taker_address)
    then (true, (to_state Transaction.trFinished o, at_state Transaction.trFinished e))
    else (false, (o, e));
  pendingTransactions := fun e =>
    if bool_decide (order_state e = Transaction.trNew) then [deal e] else []
|}.

(** The wallet [c], with ids of a key of 20 bytes. *)
Definition keyed (c : WalletConnector) : WalletConnector := {|
  currency := currency c;
  fromXAddr := fromXAddr c;
  getTxOut := getTxOut c;
  verifyMessage := verifyMessage c;
  isDustAmount := isDustAmount c;
  minTxFee1 := minTxFee1 c;
  minTxFee2 := minTxFee2 c;
  conn_lockTime := conn_lockTime c;
  acceptableLockTimeDrift := acceptableLockTimeDrift c;
  getKeyId := fun key => firstn 20 (key ++ repeat x00 20);
  createDepositUnlockScript := createDepositUnlockScript c;
  getScriptId := getScriptId c;
  scriptIdToString := scriptIdToString c;
  createDepositTransaction := createDepositTransaction c;
  createRefundTransaction := createRefundTransaction c;
  createPaymentTransaction := createPaymentTransaction c;
  getNewAddress := getNewAddress c;
  getInfo := getInfo c;
  sendRawTransaction := sendRawTransaction c;
  checkDepositTransaction := checkDepositTransaction c;
  getSecretFromPaymentTransaction := getSecretFromPaymentTransaction c
|}.

(** The process at the address [me], with these wallets. *)
Definition process (me : bytes) : Env := {|
  connectorByCurrency := fun c =>
    match connectorByCurrency (Sample.process me btc_late) c with
    | Some conn => Some (keyed conn)
    | None => None
    end;
  IsFullyValid := IsFullyValid (Sample.process me btc_late);
  Decompress := Decompress (Sample.process me btc_late);
  getSn := getSn (Sample.process me btc_late);
  storeDataIntoBlockchain := storeDataIntoBlockchain (Sample.process me btc_late);
  uint256S := uint256S (Sample.process me btc_late);
  ToString := ToString (Sample.process me btc_late);
  m_myid := me;
  currentTime := currentTime (Sample.process me btc_late);
  orderHash := orderHash (Sample.process me btc_late)
|}.

Definition hub_env : Env := process hub_address.
Definition trader_env : Env := process maker_address.

(** The Hub with its order in the state [st]; a trader that knows the
    order [x]; a trader that knows no order. *)
Definition hub (st : Transaction.State) : HubState :=
  mkHub (mkWorld ∅ [] [] [] [] [] (mkBook true (mkDeal st EmptyString)) []) [].

Definition trader (x : TransactionDescr) : HubState :=
  mkHub (mkWorld {[ id x := x ]} [] [] [] [] [] (mkBook false no_deal) []) [].

Definition newcomer : World :=
  mkWorld ∅ [] [] [] [] [] (mkBook false no_deal) [].

(** The exchange with its order not yet accepted, and that order. *)
Definition announcing : Exchange := mkBook true (mkDeal Transaction.trNew EmptyString).
Definition announced : HubOrder := mkDeal Transaction.trNew EmptyString.

(** The answer of the maker to a Hold packet, signed with [key]. *)
Definition holdApply_packet (key : bytes) : Packet :=
  packet_of xbcTransactionHoldApply (hub_address ++ maker_address ++ order_id0) key.

(** The maker tells of its deposit: the id of the deposit, the hash of
    the secret, the lock time, the id of the refund and the refund. *)
Definition createdA_packet : Packet :=
  packet_of xbcTransactionCreatedA
    (hub_address ++ order_id0 ++ list_byte_of_string "deposit-a" ++ [x00] ++
     repeat x09 20 ++ Z_to_le 4 300 ++
     list_byte_of_string "refund-id" ++ [x00] ++ list_byte_of_string "refund" ++ [x00])
    maker_key.

(** The maker tells of its payment. *)
Definition confirmedA_packet : Packet :=
  packet_of xbcTransactionConfirmedA
    (hub_address ++ order_id0 ++ list_byte_of_string "payment-a" ++ [x00]) maker_key.

(** A TransactionHold packet about another order than the one the trader
    knows. *)
Definition other_hold_packet : Packet :=
  packet_of xbcTransactionHold (hub_address ++ other_id) hub_key.

(** The maker, with the secret, after the deposits. *)
Definition redeeming_order : TransactionDescr :=
  setSecret (repeat x07 32) (order "A" trCreated true).

(** A trader whose wallet of the currency it buys answers that the
    transaction is in the chain already. *)
Definition replay_env : Env := {|
  connectorByCurrency := fun c =>
    if String.eqb c "BTC" then Some btc_late
    else if String.eqb c "LTC"
         then Some (wallet "LTC" (true, mkInfo 400) already_in_chain)
         else None;
  IsFullyValid := IsFullyValid (Sample.trader_env btc_late);
  Decompress := Decompress (Sample.trader_env btc_late);
  getSn := getSn (Sample.trader_env btc_late);
  storeDataIntoBlockchain := storeDataIntoBlockchain (Sample.trader_env btc_late);
  uint256S := uint256S (Sample.trader_env btc_late);
  ToString := ToString (Sample.trader_env btc_late);
  m_myid := m_myid (Sample.trader_env btc_late);
  currentTime := currentTime (Sample.trader_env btc_late);
  orderHash := orderHash (Sample.trader_env btc_late)
|}.

End Desk.

(** * A sample configuration *)
Module Conf.

(** A configuration as a list of keys and values, and two commands. *)
#[local] Instance ini : IniOps := {|
  IniConfig := list (string * (Z * string));
  get_int := fun c key def =>
    match List.find (fun kv => String.eqb (fst kv) key) c with
    | Some kv => fst (snd kv)
    | None => def
    end;
  get_string := fun c key def =>
    match List.find (fun kv => String.eqb (fst kv) key) c with
    | Some kv => snd (snd kv)
    | None => def
    end;
  has := fun c key => existsb (fun kv => String.eqb (fst kv) key) c;
  XRouterCommand := bool;
  xrService := true;
  XRouterCommand_ToString := fun c => if c then "xrService"%string else "xrGetBlockCount"%string;
  xrdelimiter := "::"%string;
  XROUTER_DEFAULT_FETCHLIMIT := 50
|}.

End Conf.

(** * Properties of the handlers *)

Create Rewrite HintDb registry.
Create Rewrite HintDb deposits.

Section Properties.
Context `{DoubleOps} `{PacketOps} `{Constants} `{!ExchangeOps}.
Variable env : Env.

Import XBridgePacket.

Ltac break_match :=
  match goal with
  | |- context [match ?c with _ => _ end] => destruct c eqn:?
  end.

(* Reads of a field through the setters: keeps the orders small. *)
Ltac descr_simpl :=   cbn [id role state reason local hubAddress created
    txtime blockHash from fromCurrency fromAmount to toCurrency toAmount sPubKey
    mPubKey mPrivKey oPubKey xPubKey xSecret oHashedSecret lockTime
    opponentLockTime lockScript lockP2SHAddress binTxId binTxVout binTx refTxId
    refTx refundAddress oBinTxId oBinTxVout unlockScript unlockP2SHAddress
    oOverpayment payTxId payTx usedCoins feeUtxos rawFeeTx otherPayTxId
    otherPayTxTries doneWatchingFlag watchBlock depositSent counterpartyRedeemed
    set_id set_hubAddress set_created set_blockHash set_fromCurrency
    set_fromAmount set_toCurrency set_toAmount set_sPubKey set_state set_reason
    set_txtime set_oPubKey set_xSecret set_oHashedSecret set_lockTime
    set_opponentLockTime set_lockScript set_lockP2SHAddress set_binTxId
    set_binTxVout set_binTx set_refTxId set_refTx set_oBinTxId set_oBinTxVout
    set_unlockScript set_unlockP2SHAddress set_oOverpayment set_payTxId set_payTx
    set_otherPayTxId set_otherPayTxTries set_doneWatchingFlag set_watchBlock
    set_depositSent set_counterpartyRedeemed sentDeposit failDeposit
    counterpartyDepositRedeemed setSecret doneWatching setOtherPayTxId
    tryOtherPayTx setWatchBlock isLocal didSendDeposit
    hasRedeemedCounterpartyDeposit isDoneWatching].

Ltac break_all := repeat (break_match; descr_simpl).

Lemma reg_emit e w : m_transactions (emit e w) = m_transactions w.
Proof. reflexivity. Qed.
Lemma reg_store k x w : m_transactions (store k x w) = <[k:=x]> (m_transactions w).
Proof. reflexivity. Qed.
Lemma reg_processLater k p w : m_transactions (processLater k p w) = m_transactions w.
Proof. reflexivity. Qed.
Lemma reg_removePackets k w : m_transactions (removePackets k w) = m_transactions w.
Proof. reflexivity. Qed.
Lemma reg_unlockCoins c l w : m_transactions (unlockCoins c l w) = m_transactions w.
Proof. reflexivity. Qed.
Lemma reg_unlockFeeUtxos l w : m_transactions (unlockFeeUtxos l w) = m_transactions w.
Proof. reflexivity. Qed.
Lemma reg_watchForSpentDeposit k w : m_transactions (watchForSpentDeposit k w) = m_transactions w.
Proof. reflexivity. Qed.
Lemma reg_unwatchSpentDeposit k w : m_transactions (unwatchSpentDeposit k w) = m_transactions w.
Proof. reflexivity. Qed.
Lemma reg_set_exchange e w : m_transactions (set_exchange e w) = m_transactions w.
Proof. reflexivity. Qed.
Lemma reg_sendPacket d p w : m_transactions (sendPacket d p w) = m_transactions w.
Proof. reflexivity. Qed.
Lemma reg_sendPacketBroadcast p w : m_transactions (sendPacketBroadcast p w) = m_transactions w.
Proof. reflexivity. Qed.
Lemma reg_moveTransactionToHistory k w :
  m_transactions (moveTransactionToHistory k w) = m_transactions w.
Proof. unfold moveTransactionToHistory. destruct (_ !! _); reflexivity. Qed.
Lemma reg_cancel conn k r x w :
  m_transactions (cancel conn k r x w) =
  <[k := set_reason r (set_state trCancelled x)]> (m_transactions w).
Proof. unfold cancel. destruct (state_lt _ _); reflexivity. Qed.
Lemma reg_sendCancelTransaction_hub (tx : HubOrder) (r : Z) (w : World) :
  m_transactions (snd (sendCancelTransaction_hub tx r w)) = m_transactions w.
Proof. unfold sendCancelTransaction_hub. break_match; reflexivity. Qed.

Hint Rewrite reg_emit reg_store reg_processLater reg_removePackets reg_unlockCoins
  reg_unlockFeeUtxos reg_watchForSpentDeposit reg_unwatchSpentDeposit reg_set_exchange
  reg_sendPacket reg_sendPacketBroadcast reg_moveTransactionToHistory reg_cancel
  reg_sendCancelTransaction_hub : registry.

Lemma redeemOrderDeposit_effect (xtx : TransactionDescr) (ec : Z) (w : World) :
  forall done ec' x' w',
  redeemOrderDeposit env xtx ec w = (done, ec', x', w') ->
  ec' = ec /\
  m_transactions w' = m_transactions w /\ exchange w' = exchange w /\
  (x' = xtx \/ x' = set_state trRollback xtx \/ x' = set_state trRollbackFailed xtx).
Proof.
  intros done ec' x' w'. unfold redeemOrderDeposit.
  repeat break_match; intros [= <- <- <- <-]; simpl; auto 10.
Qed.

Ltac use_snd :=
  match goal with
  | E : ?f = (_, ?w) |- context [m_transactions ?w] =>
    replace w with (snd f) by (rewrite E; reflexivity)
  end.

Lemma processTransactionCancel_effect (w : World) (packet : Packet) (k : bytes)
  (x : TransactionDescr) :
  m_transactions w !! k = Some x ->
  exists x', m_transactions (snd (processTransactionCancel env w packet)) !! k = Some x' /\
    id x' = id x /\ sPubKey x' = sPubKey x /\
    (x' = x \/ (k = bytes_at 0 XBridgePacket.hashSize (data packet) /\ cancel_state (state x'))).
Proof.
  intros Hk. unfold processTransactionCancel, xapp_transaction, cancel_state.
  repeat break_match; cbn [snd fst].
  all: try match goal with E : redeemOrderDeposit _ _ _ _ = _ |- _ =>
      apply redeemOrderDeposit_effect in E; destruct E as (-> & Hreg & Hex & Hx') end.
  all: try use_snd.
  all: autorewrite with registry; try rewrite Hreg; autorewrite with registry.
  all: try solve [eauto 10].
  all: rewrite lookup_insert; match goal with |- context [decide (?a = ?b)] => destruct (decide (a = b)) end; subst; simplify_eq; eauto 10.
  all: try (destruct Hx' as [->| [-> | ->]]); (eexists; split; [reflexivity|]; simpl; eauto 10).
Qed.

Lemma bytes_at_hash_prefix (n : nat) (a b : bytes) :
  length a = n -> bytes_at 0 n (firstn n a ++ b) = a.
Proof.
  intros Hl. unfold bytes_at. rewrite skipn_O.
  rewrite (firstn_all2 a) by lia.
  rewrite firstn_app, firstn_all2 by lia.
  rewrite Hl, Nat.sub_diag. simpl. apply app_nil_r.
Qed.

Lemma cancel_packet_id (tx : TransactionDescr) (r : Z) :
  length (id tx) = XBridgePacket.hashSize ->
  bytes_at 0 XBridgePacket.hashSize
    (data (sign (mPubKey tx) (mPrivKey tx)
             (append_uint32 r (append_hash (id tx) (newPacket xbcTransactionCancel))))) = id tx.
Proof.
  intros Hl. unfold sign, append_uint32, append_hash, append, newPacket.
  cbn [data]. rewrite app_nil_l. apply bytes_at_hash_prefix. exact Hl.
Qed.

Lemma cancelOrder_effect (txid : bytes) (xtx : TransactionDescr) (r : TxCancelReason)
  (w : World) (k : bytes) (x0 : TransactionDescr) :
  id xtx = txid -> length txid = XBridgePacket.hashSize ->
  m_transactions (store txid xtx w) !! k = Some x0 ->
  exists x', m_transactions (snd (cancelOrder env txid xtx r w)) !! k = Some x' /\
    id x' = id x0 /\ sPubKey x' = sPubKey x0 /\
    (x' = x0 \/ (k = txid /\ cancel_state (state x'))).
Proof.
  intros Hid Hlen Hk. unfold cancelOrder, sendCancelTransaction.
  pose proof (processTransactionCancel_effect (store txid xtx w)
    (sign (mPubKey xtx) (mPrivKey xtx)
       (append_uint32 (reason_code r) (append_hash (id xtx) (newPacket xbcTransactionCancel))))
    k x0 Hk) as (x' & Hx' & Hi & Hs & Hst).
  rewrite cancel_packet_id in Hst by (rewrite Hid; exact Hlen). rewrite Hid in Hst.
  destruct (processTransactionCancel _ _ _) as [b w1]. cbn [snd fst] in *.
  autorewrite with registry. eauto 10.
Qed.


Lemma state_ge_false (s t : State) : state_ge s t = false -> state_code s < state_code t.
Proof. unfold state_ge. intros E. apply Z.leb_gt in E. exact E. Qed.

Lemma findSecret_effect (conn : WalletConnector) (xtx : TransactionDescr) (w : World) :
  forall x' w',
  findSecret conn xtx w = Some (x', w') ->
  m_transactions w' = m_transactions w /\
  id x' = id xtx /\ sPubKey x' = sPubKey xtx /\ state x' = state xtx.
Proof.
  intros x' w'. unfold findSecret.
  repeat break_match; intros [= <- <-]; simpl; auto.
Qed.

Lemma redeemOrderCounterpartyDeposit_effect (xtx : TransactionDescr) (ec : Z) (w : World) :
  forall done ec' x' w',
  redeemOrderCounterpartyDeposit env xtx ec w = (done, ec', x', w') ->
  m_transactions w' = m_transactions w /\
  id x' = id xtx /\ sPubKey x' = sPubKey xtx /\ state x' = state xtx.
Proof.
  intros done ec' x' w'. unfold redeemOrderCounterpartyDeposit.
  repeat break_match; intros [= <- <- <- <-];
    try match goal with E : findSecret _ _ _ = Some _ |- _ =>
      apply findSecret_effect in E; destruct E as (E1 & E2 & E3 & E4) end;
    simpl; auto 10.
Qed.

Lemma cancelOrder_leaf (txid : bytes) (xtx : TransactionDescr) (r : TxCancelReason)
  (W w : World) (k : bytes) (x t : TransactionDescr) (T : State) :
  m_transactions W = m_transactions w ->
  m_transactions w !! txid = Some t ->
  m_transactions w !! k = Some x ->
  id t = txid -> length txid = XBridgePacket.hashSize ->
  id xtx = id t -> sPubKey xtx = sPubKey t ->
  (state xtx = state t \/ state xtx = T) ->
  state_code (state t) < state_code T ->
  exists x', m_transactions (snd (cancelOrder env txid xtx r W)) !! k = Some x' /\
    id x' = id x /\ sPubKey x' = sPubKey x /\
    (state x' = state x \/
     (k = txid /\ state_code (state x) < state_code T /\
      (state x' = T \/ state x' = trFinished \/ cancel_state (state x')))).
Proof.
  intros HW Ht Hk Hid Hlen Hxi Hxs Hst Hlt.
  destruct (decide (txid = k)) as [<-|Hne].
  - assert (x = t) as -> by congruence.
    destruct (cancelOrder_effect txid xtx r W txid xtx) as (x' & Hx' & Hi & Hs & Hc).
    + congruence.
    + exact Hlen.
    + rewrite reg_store. apply lookup_insert_eq.
    + exists x'. split; [exact Hx'|]. split; [congruence|]. split; [congruence|].
      destruct Hc as [->|[_ Hc]].
      * destruct Hst as [->| ->]; auto 10.
      * auto 10.
  - destruct (cancelOrder_effect txid xtx r W k x) as (x' & Hx' & Hi & Hs & Hc).
    + congruence.
    + exact Hlen.
    + rewrite reg_store, lookup_insert_ne, HW by exact Hne. exact Hk.
    + exists x'. split; [exact Hx'|]. split; [exact Hi|]. split; [exact Hs|].
      destruct Hc as [->|[Hc _]]; [auto|]. congruence.
Qed.

Lemma store_leaf (txid : bytes) (xtx : TransactionDescr)
  (m : gmap bytes TransactionDescr) (k : bytes) (x t : TransactionDescr) (T : State) :
  m !! txid = Some t ->
  m !! k = Some x ->
  id xtx = id t -> sPubKey xtx = sPubKey t ->
  (state xtx = state t \/ state xtx = T \/ state xtx = trFinished) ->
  state_code (state t) < state_code T ->
  exists x', <[txid := xtx]> m !! k = Some x' /\
    id x' = id x /\ sPubKey x' = sPubKey x /\
    (state x' = state x \/
     (k = txid /\ state_code (state x) < state_code T /\
      (state x' = T \/ state x' = trFinished \/ cancel_state (state x')))).
Proof.
  intros Ht Hk Hxi Hxs Hst Hlt.
  destruct (decide (txid = k)) as [<-|Hne].
  - assert (x = t) as -> by congruence.
    exists xtx. rewrite lookup_insert_eq. repeat split; auto.
    destruct Hst as [->|[->| ->]]; auto 10.
  - exists x. rewrite lookup_insert_ne by exact Hne. auto.
Qed.

Lemma refundTx_effect (conn : WalletConnector) (txid : bytes) (xtx : TransactionDescr)
  (outAmount fee2 : double) (w : World) :
  match refundTx env conn txid xtx outAmount fee2 w with
  | inl r => exists xtx', r = cancelOrder env txid xtx' crRpcError w /\
               id xtx' = id xtx /\ sPubKey xtx' = sPubKey xtx /\ state xtx' = state xtx
  | inr xtx' => id xtx' = id xtx /\ sPubKey xtx' = sPubKey xtx /\ state xtx' = state xtx
  end.
Proof.
  destruct (refundTx _ _ _ _ _ _ _) as [r|xtx'] eqn:E;
    revert E; unfold refundTx; repeat break_match; intros [= <-]; eauto 10.
Qed.

Ltac same_field := solve [reflexivity | simpl; congruence].
Ltac state_case :=
  simpl;
  solve [ left; congruence | right; left; congruence | right; right; congruence
        | right; congruence ].

Ltac use_refundTx :=
  match goal with
  | E : refundTx ?e ?c ?t ?x ?o ?f ?w = inl _ |- _ =>
    let Hr := fresh "Hr" in
    pose proof (refundTx_effect c t x o f w) as Hr; rewrite E in Hr;
    destruct Hr as (? & -> & Hri & Hrs & Hrst);
    simpl in Hri, Hrs, Hrst; clear E
  | E : refundTx ?e ?c ?t ?x ?o ?f ?w = inr _ |- _ =>
    let Hr := fresh "Hr" in
    pose proof (refundTx_effect c t x o f w) as Hr; rewrite E in Hr;
    destruct Hr as (Hri & Hrs & Hrst);
    simpl in Hri, Hrs, Hrst; clear E
  end.

Lemma acceptorFee_effect (txid : bytes) (xtx : TransactionDescr) (packet : Packet)
  (w : World) :
  match acceptorFee env txid xtx packet w with
  | inl r => exists W, m_transactions W = m_transactions w /\
               (r = (true, W) \/ r = cancelOrder env txid xtx crBlocknetError W)
  | inr (_, W) => m_transactions W = m_transactions w
  end.
Proof.
  destruct (acceptorFee _ _ _ _ _) as [r|[f W]] eqn:E;
    revert E; unfold acceptorFee; repeat break_match; intros [= <-]; subst;
    try reflexivity; eexists; (split; [|eauto]); reflexivity.
Qed.

Ltac use_acceptorFee :=
  match goal with
  | E : acceptorFee ?e ?t ?x ?p ?w = inl _ |- _ =>
    let Hr := fresh "Hr" in
    pose proof (acceptorFee_effect t x p w) as Hr; rewrite E in Hr;
    destruct Hr as (? & Hreg & [-> | ->]); clear E
  | E : acceptorFee ?e ?t ?x ?p ?w = inr _ |- _ =>
    let Hr := fresh "Hr" in
    pose proof (acceptorFee_effect t x p w) as Hr; rewrite E in Hr;
    rename Hr into Hreg; clear E
  end.

Ltac use_redeem :=
  match goal with
  | E : redeemOrderCounterpartyDeposit _ _ _ _ = _ |- _ =>
    apply redeemOrderCounterpartyDeposit_effect in E;
    destruct E as (Hreg & Hri & Hrs & Hrst); simpl in Hri, Hrs, Hrst
  end.

Ltac prepare :=
  repeat match goal with
         | E : context [if ?c then _ else _] |- _ => destruct c eqn:?
         end;
  try match goal with E : m_transactions _ !! bytes_at _ _ _ = Some _ |- _ =>
        match goal with Hwf : registry_keyed _ |- _ =>
          destruct (Hwf _ _ E) as [Hid Hlen] end end;
  try match goal with E : state_ge _ _ = false |- _ => apply state_ge_false in E end;
  try use_refundTx; try use_acceptorFee; try use_redeem.

Ltac registry_frame :=
  first [ reflexivity
        | autorewrite with registry;
          try match goal with Hreg : m_transactions _ = m_transactions _ |- _ =>
                rewrite Hreg end;
          autorewrite with registry; first [reflexivity | congruence] ].

Ltac leaf :=
  cbn [snd fst];
  first
    [ solve [eauto 10]
    | eapply cancelOrder_leaf;
      [ | eassumption | eassumption | assumption | assumption
      | same_field | same_field | state_case | assumption ]; registry_frame
    | autorewrite with registry;
      try match goal with Hreg : m_transactions _ = m_transactions _ |- _ =>
            rewrite Hreg end;
      autorewrite with registry;
      first [ solve [eauto 10]
            | eapply store_leaf;
              [ eassumption | eassumption | same_field | same_field | state_case
              | assumption ] ] ].

Lemma handler_effect (h : TraderHandler) (w : World) (packet : Packet) (k : bytes)
  (x : TransactionDescr) :
  registry_keyed w ->
  m_transactions w !! k = Some x ->
  exists x', m_transactions (snd (run env h w packet)) !! k = Some x' /\
    effect_on h packet k x x'.
Proof.
  intros Hwf Hk.
  destruct h; cbn [run]; unfold effect_on, reach; cbn [target order_id].
  - (* PendingTransaction *)
    unfold processPendingTransaction, xapp_transaction, appendTransaction.
    repeat break_match; cbn [snd fst]; try solve [eauto 10].
    all: autorewrite with registry; rewrite lookup_insert;
      match goal with |- context [decide (?a = ?b)] => destruct (decide (a = b)) end;
      subst; simplify_eq; try solve [eauto 10].
    all: try solve [eexists; split; [reflexivity|]; unfold updateTimestamp; simpl; auto 10].
    simpl in Hk. congruence.
  - (* TransactionHold *)
    unfold processTransactionHold, xapp_transaction.
    break_all; cbn [snd fst]; try solve [eauto 10]; prepare; leaf.
  - unfold processTransactionInit, xapp_transaction.
    break_all; cbn [snd fst]; try solve [eauto 10]; prepare; leaf.
  - unfold processTransactionCreateA, xapp_transaction.
    break_all; cbn [snd fst]; try solve [eauto 10]; prepare; leaf.
  - unfold processTransactionCreateB, xapp_transaction.
    break_all; cbn [snd fst]; try solve [eauto 10]; prepare; leaf.
  - unfold processTransactionConfirmA, xapp_transaction.
    break_all; cbn [snd fst]; try solve [eauto 10]; prepare; leaf.
  - unfold processTransactionConfirmB, xapp_transaction.
    break_all; cbn [snd fst]; try solve [eauto 10]; prepare; leaf.
  - (* Cancel *)
    destruct (processTransactionCancel_effect w packet k x Hk) as (x' & Hx' & Hi & Hs & Hc).
    exists x'. split; [exact Hx'|]. split; [exact Hi|]. split; [exact Hs|].
    destruct Hc as [->|[-> _]]; auto.
  - unfold processTransactionFinished, xapp_transaction.
    repeat break_match; cbn [snd fst]; try solve [eauto 10].
    autorewrite with registry. rewrite lookup_insert.
    match goal with |- context [decide (?a = ?b)] => destruct (decide (a = b)) end;
      subst; simplify_eq; eauto 10.
Qed.

Lemma bad_hub_signature_dropped (h : TraderHandler) (w : World) (packet : Packet)
  (xtx : TransactionDescr) :
  from_hub h = true ->
  xapp_transaction w (order_id h packet) = Some xtx ->
  verify packet (sPubKey xtx) = false ->
  snd (run env h w packet) = w.
Proof.
  intros Hh Hx Hv.
  destruct h; try discriminate Hh; simpl in Hx |- *;
    [ unfold processTransactionHold
    | unfold processTransactionInit
    | unfold processTransactionCreateA
    | unfold processTransactionCreateB
    | unfold processTransactionConfirmA
    | unfold processTransactionConfirmB
    | unfold processTransactionFinished ];
    (break_match; [reflexivity|]);
    cbv zeta; rewrite Hx;
    first [ rewrite Hv; reflexivity | break_match; [reflexivity|]; rewrite Hv; reflexivity ].
Qed.


Lemma first_sight_pins_the_key (w : World) (packet : Packet) (x' : TransactionDescr) :
  let txid := order_id HPendingTransaction packet in
  xapp_transaction w txid = None ->
  xapp_transaction (snd (processPendingTransaction env w packet)) txid = Some x' ->
  sPubKey x' = packet_pubkey packet.
Proof.
  cbn [order_id]. intros Hn. unfold processPendingTransaction, appendTransaction.
  rewrite Hn. unfold xapp_transaction in *.
  repeat break_match; cbn [snd fst]; try congruence.
  simpl. rewrite lookup_insert_eq. intros [= <-]. reflexivity.
Qed.

Lemma state_lt_false (s t : State) : state_code t <= state_code s -> state_lt s t = false.
Proof. intros Hle. unfold state_lt. apply Z.ltb_ge. exact Hle. Qed.






Lemma signed_by_a_party (packet : Packet) (x : TransactionDescr) :
  negb (verify packet (sPubKey x)) && negb (verify packet (oPubKey x))
    && negb (verify packet (mPubKey x)) = false <->
  (verify packet (sPubKey x) = true \/ verify packet (oPubKey x) = true \/
   verify packet (mPubKey x) = true).
Proof.
  destruct (verify packet (sPubKey x)), (verify packet (oPubKey x)),
    (verify packet (mPubKey x)); simpl; intuition congruence.
Qed.


Lemma new_events_app (w w' : World) (l : list Event) :
  trace w' = trace w ++ l -> new_events w w' = l.
Proof.
  intros E. unfold new_events. rewrite E.
  rewrite skipn_app, skipn_all, Nat.sub_diag. reflexivity.
Qed.



Lemma deposits_app (l l' : list Event) : deposits (l ++ l') = deposits l ++ deposits l'.
Proof. unfold deposits. apply flat_map_app. Qed.

Lemma dep_emit e w : deposits (trace (emit e w)) = deposits (trace w) ++ deposits [e].
Proof. cbn [trace emit]. apply deposits_app. Qed.

Lemma dep_store k x w : trace (store k x w) = trace w.
Proof. reflexivity. Qed.

Lemma dep_processLater k p w : trace (processLater k p w) = trace w.
Proof. reflexivity. Qed.

Lemma dep_removePackets k w : trace (removePackets k w) = trace w.
Proof. reflexivity. Qed.

Lemma dep_unlockCoins c l w : trace (unlockCoins c l w) = trace w.
Proof. reflexivity. Qed.

Lemma dep_unlockFeeUtxos l w : trace (unlockFeeUtxos l w) = trace w.
Proof. reflexivity. Qed.

Lemma dep_watchForSpentDeposit k w : trace (watchForSpentDeposit k w) = trace w.
Proof. reflexivity. Qed.

Lemma dep_unwatchSpentDeposit k w : trace (unwatchSpentDeposit k w) = trace w.
Proof. reflexivity. Qed.

Lemma dep_set_exchange e w : trace (set_exchange e w) = trace w.
Proof. reflexivity. Qed.

Lemma dep_sendPacket d p w : deposits (trace (sendPacket d p w)) = deposits (trace w).
Proof. unfold sendPacket. rewrite dep_emit. apply app_nil_r. Qed.

Lemma dep_sendPacketBroadcast p w :
  deposits (trace (sendPacketBroadcast p w)) = deposits (trace w).
Proof. unfold sendPacketBroadcast. rewrite dep_emit. apply app_nil_r. Qed.

Lemma dep_moveTransactionToHistory k w : trace (moveTransactionToHistory k w) = trace w.
Proof. unfold moveTransactionToHistory. destruct (_ !! _); reflexivity. Qed.

Lemma dep_cancel conn k r x w : trace (cancel conn k r x w) = trace w.
Proof. unfold cancel. destruct (state_lt _ _); reflexivity. Qed.

Hint Rewrite dep_emit dep_store dep_processLater dep_removePackets dep_unlockCoins
  dep_unlockFeeUtxos dep_watchForSpentDeposit dep_unwatchSpentDeposit dep_set_exchange
  dep_sendPacket dep_sendPacketBroadcast dep_moveTransactionToHistory dep_cancel
  : deposits.

Lemma dep_sendCancelTransaction_hub tx r w :
  deposits (trace (snd (sendCancelTransaction_hub tx r w))) = deposits (trace w).
Proof.
  unfold sendCancelTransaction_hub. break_match; cbn [snd]; autorewrite with deposits;
    reflexivity.
Qed.

Lemma dep_redeemOrderDeposit xtx ec w :
  deposits (trace (snd (redeemOrderDeposit env xtx ec w))) = deposits (trace w).
Proof.
  unfold redeemOrderDeposit. repeat break_match; cbn [snd]; autorewrite with deposits;
    cbn [deposits flat_map app]; rewrite ?app_nil_r; reflexivity.
Qed.

Lemma dep_processTransactionCancel w p :
  deposits (trace (snd (processTransactionCancel env w p))) = deposits (trace w).
Proof.
  unfold processTransactionCancel.
  repeat break_match; cbn [snd]; autorewrite with deposits;
    cbn [deposits flat_map app]; rewrite ?app_nil_r; try reflexivity.
  - match goal with E : sendCancelTransaction_hub ?a ?b ?c = _ |- _ =>
      pose proof (dep_sendCancelTransaction_hub a b c) as Hd; rewrite E in Hd end.
    exact Hd.
  - match goal with E : redeemOrderDeposit _ ?a ?b ?c = _ |- _ =>
      pose proof (dep_redeemOrderDeposit a b c) as Hd; rewrite E in Hd end.
    cbn [snd] in Hd. autorewrite with deposits in Hd. exact Hd.
  - match goal with E : redeemOrderDeposit _ ?a ?b ?c = _ |- _ =>
      pose proof (dep_redeemOrderDeposit a b c) as Hd; rewrite E in Hd end.
    cbn [snd] in Hd. autorewrite with deposits in Hd. exact Hd.
Qed.

Lemma dep_cancelOrder txid xtx r w :
  deposits (trace (snd (cancelOrder env txid xtx r w))) = deposits (trace w).
Proof.
  unfold cancelOrder, sendCancelTransaction.
  match goal with |- context [processTransactionCancel env ?W ?p] =>
    pose proof (dep_processTransactionCancel W p) as Hd;
    destruct (processTransactionCancel env W p) as [b w1] end.
  cbn [snd] in *. autorewrite with deposits in *. cbn [deposits flat_map app].
  rewrite app_nil_r. exact Hd.
Qed.

Lemma dep_refundTx conn txid xtx o f w r :
  refundTx env conn txid xtx o f w = inl r ->
  deposits (trace (snd r)) = deposits (trace w).
Proof.
  unfold refundTx. repeat break_match; intros [= <-]; apply dep_cancelOrder.
Qed.

(** The largest entry: none of the entries is larger, and it is one of
    them when one of them has a positive amount. *)
Section Largest.

Hypothesis d_lt_irrefl : forall a, d_lt a a = false.

Hypothesis d_lt_trans :
  forall a b c, d_lt a b = true -> d_lt b c = true -> d_lt a c = true.

Lemma largest_fold (l seen : list UtxoEntry) (acc : UtxoEntry) :
  (forall e, In e seen -> d_lt (amount acc) (amount e) = false) ->
  (In acc seen \/
   (acc = UtxoEntry_default /\ forall e, In e seen -> d_lt d_zero (amount e) = false)) ->
  let r := fold_left (fun largest entry =>
                        if (amount entry >? amount largest)%D then entry else largest)
             l acc in
  (forall e, In e (seen ++ l) -> d_lt (amount r) (amount e) = false) /\
  (In r (seen ++ l) \/
   (r = UtxoEntry_default /\
    forall e, In e (seen ++ l) -> d_lt d_zero (amount e) = false)).
Proof.
  revert seen acc. induction l as [|x l IH]; intros seen acc Hmax Hin; cbn [fold_left].
  - rewrite app_nil_r. auto.
  - replace (seen ++ x :: l) with ((seen ++ [x]) ++ l) by (rewrite <- app_assoc; reflexivity).
    apply IH.
    + intros e He. apply in_app_or in He. destruct He as [He|[<-|[]]].
      * destruct (d_lt (amount acc) (amount x)) eqn:Hx; [|auto].
        destruct (d_lt (amount x) (amount e)) eqn:Hxe; [|reflexivity].
        rewrite <- (Hmax e He). symmetry. eapply d_lt_trans; eassumption.
      * destruct (d_lt (amount acc) (amount x)) eqn:Hx; [apply d_lt_irrefl|exact Hx].
    + destruct (d_lt (amount acc) (amount x)) eqn:Hx.
      * left. apply in_or_app. right. left. reflexivity.
      * destruct Hin as [Hin|[-> Hz]].
        -- left. apply in_or_app. left. exact Hin.
        -- right. split; [reflexivity|].
           intros e He. apply in_app_or in He. destruct He as [He|[<-|[]]]; [auto|].
           exact Hx.
Qed.

Lemma largestUtxo_spec (l : list UtxoEntry) :
  (forall e, In e l -> d_lt (amount (largestUtxo l)) (amount e) = false) /\
  ((exists e, In e l /\ d_lt d_zero (amount e) = true) -> In (largestUtxo l) l).
Proof.
  destruct (largest_fold l [] UtxoEntry_default) as [Hmax Hin].
  - intros e [].
  - right. split; [reflexivity|]. intros e [].
  - cbn [app] in *. split; [exact Hmax|].
    intros (e & He & Hpos). destruct Hin as [Hin|[_ Hz]]; [exact Hin|].
    rewrite (Hz e He) in Hpos. discriminate.
Qed.

End Largest.

Ltac after_deposit :=
  cbn [snd];
  repeat first [ rewrite dep_cancelOrder
               | match goal with E : refundTx _ _ _ _ _ _ _ = inl _ |- _ =>
                   rewrite (dep_refundTx _ _ _ _ _ _ _ E) end
               | progress autorewrite with deposits ];
  cbn [deposits flat_map List.app]; rewrite ?app_nil_r; unfold depositOutputs;
  cbv zeta; descr_simpl;
  match goal with |- context [if ?c then _ else _] => destruct c end;
  reflexivity.

(** ** The claims of the specification *)


(** C2: the Hub drops a Transaction packet of a new order whose id is
    not the hash of its fields.  When the order is not pending, both
    wallets are known and the UTXO items are read, with [first] the first
    entry that was accepted: if the hash of the source address, the source
    currency, the source amount, the destination address, the destination
    currency, the destination amount, the timestamp, the block hash and
    the signature of [first] is not the id of the packet, the whole state
    (the order book of the Exchange included) is unchanged. *)
Theorem mismatching_order_id_is_dropped (w : World) (packet : Packet)
  (sconn dconn : WalletConnector) (commonAmount : double) (first : UtxoEntry)
  (rest : list UtxoEntry) :
  let d := data packet in
  let txid := bytes_at 0 hashSize d in
  matches (pendingTransaction (exchange w) txid) txid = false ->
  connectorByCurrency env (string_at 52 d) = Some sconn ->
  connectorByCurrency env (string_at 88 d) = Some dconn ->
  readUtxoItems env sconn packet (Z.to_nat (uint32_at 144 d)) 148 d_zero [] =
    Some (commonAmount, first :: rest) ->
  checkId env sconn dconn (bytes_at 32 addressSize d) (string_at 52 d) (uint64_at 60 d)
    (bytes_at 68 addressSize d) (string_at 88 d) (uint64_at 96 d) (uint64_at 104 d)
    (bytes_at 112 hashSize d) (signature first) <> txid ->
  snd (processTransaction env w packet) = w.
Proof.
  cbv zeta. intros Hnew Hs Hd Hread Hid. unfold processTransaction.
  rewrite Hnew, Hs, Hd, Hread.
  rewrite bool_decide_eq_false_2 by exact Hid. cbn [negb].
  repeat break_match; reflexivity.
Qed.


(** C4: the key of the Hub is pinned.  The order that
    [processPendingTransaction] creates for an id it did not know holds the
    key of the packet in [sPubKey]; no handler of a trader changes the
    [sPubKey] of an order of the registry; and a packet of the Hub
    (TransactionHold, TransactionInit, TransactionCreateA/B,
    TransactionConfirmA/B, TransactionFinished) about a known order whose
    signature does not verify under the [sPubKey] of the order is dropped:
    the whole state of the process is unchanged. *)
Theorem hub_key_is_pinned (h : TraderHandler) (w : World) (packet : Packet) :
  registry_keyed w ->
  let w' := snd (run env h w packet) in
  (h = HPendingTransaction ->
   xapp_transaction w (order_id h packet) = None ->
   forall x', xapp_transaction w' (order_id h packet) = Some x' ->
     sPubKey x' = packet_pubkey packet) /\
  (forall k x, xapp_transaction w k = Some x ->
     exists x', xapp_transaction w' k = Some x' /\ sPubKey x' = sPubKey x) /\
  (from_hub h = true ->
   forall xtx, xapp_transaction w (order_id h packet) = Some xtx ->
     verify packet (sPubKey xtx) = false -> w' = w).
Proof.
  intros Hwf w'. repeat split.
  - intros -> Hn x' Hx'. exact (first_sight_pins_the_key w packet x' Hn Hx').
  - intros k x Hk.
    destruct (handler_effect h w packet k x Hwf Hk) as (x' & Hx' & _ & Hs & _).
    exists x'. split; assumption.
  - intros Hh xtx Hx Hv. exact (bad_hub_signature_dropped h w packet xtx Hh Hx Hv).
Qed.

(** C5: a TransactionCancel packet about a known order whose signature
    verifies under none of [sPubKey], [oPubKey], [mPubKey] of the order
    leaves the registry (so the state and the reason of every order), the
    locked coins and the locked fee UTXOs unchanged; on a trader (the
    Exchange is not started) it leaves the whole state unchanged. *)
Theorem cancel_needs_a_known_key (w : World) (packet : Packet) (xtx : TransactionDescr) :
  xapp_transaction w (bytes_at 0 XBridgePacket.hashSize (data packet)) = Some xtx ->
  verify packet (sPubKey xtx) = false ->
  verify packet (oPubKey xtx) = false ->
  verify packet (mPubKey xtx) = false ->
  let w' := snd (processTransactionCancel env w packet) in
  m_transactions w' = m_transactions w /\
  m_lockedCoins w' = m_lockedCoins w /\
  m_lockedFeeUtxos w' = m_lockedFeeUtxos w /\
  (isStarted (exchange w) = false -> w' = w).
Proof.
  intros Hx Hs Ho Hm. unfold processTransactionCancel.
  destruct (negb (size packet =? 36)); [simpl; auto|].
  cbv zeta.
  destruct (isStarted (exchange w)) eqn:E.
  - match goal with |- context [if ?c then _ else _] => destruct c end; [simpl; intuition congruence|].
    match goal with |- context [if ?c then _ else _] => destruct c end; [simpl; intuition congruence|].
    unfold sendCancelTransaction_hub. rewrite E. simpl. intuition congruence.
  - rewrite Hx, Hs, Ho, Hm. simpl. auto.
Qed.


(** C7, as amended: a cancel on the rollback path stores the reason and
    attempts [redeemOrderDeposit].  When the wallet reports a block count
    below the [lockTime] of the order, the refund is not broadcast: the
    order is [trRollback] and the packet is parked for a later retry.
    Otherwise (the block count is at or past [lockTime], or the wallet
    gave no information) the refund is broadcast; when the broadcast fails
    the order is [trRollbackFailed] and the packet is parked for a later
    retry; when it succeeds the order is [trRollback], the packet is not
    parked and the coins of the order are unlocked. *)
Theorem rollback_waits_for_reported_locktime (w : World) (packet : Packet)
  (xtx : TransactionDescr) (conn : WalletConnector) :
  state_code trCreated <= state_code trRollback ->
  rollback_path env w packet xtx conn ->
  let txid := bytes_at 0 hashSize (data packet) in
  let refund := SendRawTransaction (currency conn) (refTx xtx) in
  let changed := NotifyXBridgeTransactionChanged txid in
  let w' := snd (processTransactionCancel env w packet) in
  let parked := m_pendingPackets w' =
                m_pendingPackets (removePackets txid w) ++ [(txid, packet)] in
  let locked := fst (getInfo conn) = true /\
                blocks (snd (getInfo conn)) < lockTime xtx in
  exists x',
    xapp_transaction w' txid = Some x' /\
    reason x' = uint32_at 32 (data packet) /\
    (locked ->
       state x' = trRollback /\ new_events w w' = [changed] /\ parked) /\
    (~ locked -> fst (sendRawTransaction conn (refTx xtx)) = false ->
       state x' = trRollbackFailed /\ new_events w w' = [refund; changed] /\ parked) /\
    (~ locked -> fst (sendRawTransaction conn (refTx xtx)) = true ->
       state x' = trRollback /\
       new_events w w' =
         [refund; NotifyXBridgeTransactionChanged (id xtx); changed] /\
       m_pendingPackets w' = m_pendingPackets (removePackets txid w) /\
       m_lockedCoins w' = m_lockedCoins (unlockCoins (currency conn) (usedCoins xtx) w)).
Proof.
  intros Hr (Hsz & Hs & Hx & Hv & Hconn & Hst & Hnc & Hdep & Hred & Href). cbv zeta.
  unfold processTransactionCancel, redeemOrderDeposit.
  rewrite Hsz, Z.eqb_refl, Hs, Hx, Hconn, Hdep, Hred, Href.
  rewrite (proj2 (signed_by_a_party packet xtx) Hv).
  rewrite (state_lt_false _ _ Hst).
  rewrite bool_decide_eq_false_2 by exact Hnc.
  cbn [negb fromCurrency set_reason set_state state refTx lockTime id].
  rewrite Hconn, (state_lt_false _ _ Hr), Href.
  destruct (getInfo conn) as [infoReceived info]. cbn [fst snd].
  destruct (sendRawTransaction conn (refTx xtx)) as [sent [sid ec]]. cbn [fst snd].
  destruct infoReceived, (blocks info <? lockTime xtx) eqn:Hb; cbn [andb negb];
    try (destruct sent; cbn [negb]);
    (eexists; split; [unfold xapp_transaction; cbn [snd]; autorewrite with registry;
                      apply lookup_insert_eq|]);
    (split; [reflexivity|]);
    try apply Z.ltb_lt in Hb; try apply Z.ltb_ge in Hb;
    repeat split; intros;
    try match goal with Hl : _ /\ _ |- _ => destruct Hl as [Hl1 Hl2] end;
    try match goal with Hn : ~ (_ /\ _) |- _ => exfalso; apply Hn; split; [reflexivity|lia] end;
    try discriminate; try lia;
    try (apply new_events_app; cbn; rewrite <- ?app_assoc; reflexivity); try reflexivity.
Qed.

(** C8: what [redeemOrderDeposit] does when the wallet refuses the refund
    transaction with [RPC_VERIFY_ALREADY_IN_CHAIN] (the locktime is not
    reported as pending): the order is marked [trRollbackFailed] and the
    call answers [false], as for any other failure of the broadcast; the
    error code of the wallet is not read. *)
Theorem refund_already_in_chain_is_a_failure (xtx : TransactionDescr)
  (conn : WalletConnector) (w : World) (errCode : Z) (sid : string) :
  connectorByCurrency env (fromCurrency xtx) = Some conn ->
  state_code trCreated <= state_code (state xtx) ->
  empty (refTx xtx) = false ->
  fst (getInfo conn) && (blocks (snd (getInfo conn)) <? lockTime xtx) = false ->
  sendRawTransaction conn (refTx xtx) = (false, (sid, RPC_VERIFY_ALREADY_IN_CHAIN)) ->
  redeemOrderDeposit env xtx errCode w =
  (false, errCode, set_state trRollbackFailed xtx,
   emit (SendRawTransaction (currency conn) (refTx xtx)) w).
Proof.
  intros Hconn Hst Href Hlock Hsend. unfold redeemOrderDeposit.
  rewrite Hconn, (state_lt_false _ _ Hst), Href.
  destruct (getInfo conn) as [infoReceived info]. cbn [fst snd] in Hlock.
  rewrite Hlock, Hsend. reflexivity.
Qed.

(** C9: the deposit of TransactionCreateA and TransactionCreateB.  When
    the order is known, local, before [trCreated], the packet is signed by
    the Hub, the two wallets are there and the selected coins cover the
    amount and the fees, the maker, on a CreateA packet of 85 bytes, and
    the taker, on a CreateB packet of which the deposit of the maker
    passes the check, each ask the wallet for one deposit transaction: its
    inputs are the selected coins, its first output pays
    [outAmount + fee2] to the P2SH address of the script that locks the
    deposit, where [outAmount] is [fromAmount / COIN], and when
    [inAmount > outAmount + fee1 + fee2] there is one more output, that
    pays [inAmount - outAmount - fee1 - fee2] to the address of the
    largest selected coin (no selected coin has a larger amount, and it is
    one of them when one of them has a positive amount); else there is no
    other output.  The order on amounts is assumed to be irreflexive and
    transitive. *)
Theorem deposit_pays_the_amount_and_returns_the_change (w : World) (packet : Packet)
  (xtx : TransactionDescr) (connFrom connTo : WalletConnector)
  (usedInTx : list UtxoEntry) (inAmount fee1 : double) :
  (forall a, d_lt a a = false) ->
  (forall a b c, d_lt a b = true -> d_lt b c = true -> d_lt a c = true) ->
  let d := data packet in
  let txid := bytes_at 20 hashSize d in
  let outAmount := coins (fromAmount xtx) in
  let fee2 := minTxFee2 connFrom 1 1 in
  let largest := largestUtxo usedInTx in
  let change := if (inAmount >? outAmount + fee1 + fee2)%D
                then [(address largest, (inAmount - outAmount - fee1 - fee2)%D)]
                else [] in
  let deposit (script : bytes) :=
    (currency connFrom, depositInputs usedInTx,
     (scriptIdToString connFrom (getScriptId connFrom script), (outAmount + fee2)%D)
       :: change) in
  xapp_transaction w txid = Some xtx ->
  isLocal xtx = true ->
  verify packet (sPubKey xtx) = true ->
  state_code (state xtx) < state_code trCreated ->
  connectorByCurrency env (fromCurrency xtx) = Some connFrom ->
  connectorByCurrency env (toCurrency xtx) = Some connTo ->
  selectCoins connFrom outAmount fee2 (usedCoins xtx) [] d_zero d_zero
    = (usedInTx, inAmount, fee1) ->
  (inAmount <? outAmount + fee1 + fee2)%D = false ->
  (* the Maker *)
  (size packet = 85 -> role xtx = "A"%char ->
   conn_lockTime connFrom "A" <> 0 -> conn_lockTime connTo "B" <> 0 ->
   deposits (trace (snd (processTransactionCreateA env w packet))) =
   deposits (trace w) ++
   [deposit (createDepositUnlockScript connFrom (mPubKey xtx) (bytes_at 52 pubkeySize d)
               (getKeyId connTo (xPubKey xtx)) (conn_lockTime connFrom "A"))]) /\
  (* the Taker *)
  (let binATxId := string_at 85 d in
   let offset := (85 + (String.length binATxId + 1))%nat in
   let hx := bytes_at offset addressSize d in
   let lockTimeA := uint32_at (offset + addressSize) d in
   let counterPartyScript :=
     createDepositUnlockScript connTo (bytes_at 52 pubkeySize d) (mPubKey xtx) hx
       lockTimeA in
   let check :=
     checkDepositTransaction connTo binATxId (coins (toAmount xtx)) 0
       (scriptIdToString connTo (getScriptId connTo counterPartyScript))
       (oOverpayment xtx) in
   109 < size packet -> role xtx = "B"%char ->
   binATxId <> EmptyString -> xPubKey xtx = [] ->
   lockTimeA <> 0 -> acceptableLockTimeDrift connTo "A" lockTimeA = true ->
   fst check = true -> snd (snd check) = true ->
   deposits (trace (snd (processTransactionCreateB env w packet))) =
   deposits (trace w) ++
   [deposit (createDepositUnlockScript connFrom (mPubKey xtx) (bytes_at 52 pubkeySize d)
               hx (conn_lockTime connFrom "B"))]) /\
  (forall e, In e usedInTx -> d_lt (amount largest) (amount e) = false) /\
  ((exists e, In e usedInTx /\ d_lt d_zero (amount e) = true) -> In largest usedInTx).
Proof.
  intros Hirr Htr d txid outAmount fee2 largest change deposit
    Hx Hloc Hv Hst Hfrom Hto Hsel Hcov.
  assert (Hge : state_ge (state xtx) trCreated = false).
  { unfold state_ge. apply Z.leb_gt. exact Hst. }
  split; [|split; [|apply largestUtxo_spec; assumption]].
  - intros Hsz Hrole HlA HlB.
    unfold processTransactionCreateA.
    rewrite Hsz. cbn [Z.eqb Pos.eqb negb]. fold d. fold txid.
    rewrite Hx, Hloc, Hv, Hrole, Hge. cbn [negb Ascii.eqb Bool.eqb].
    rewrite Hfrom, Hto. fold outAmount fee2. rewrite Hsel, Hcov. descr_simpl.
    rewrite ?Hrole.
    apply Z.eqb_neq in HlA, HlB. rewrite HlA, HlB. cbn [orb].
    break_all; after_deposit.
  - intros binATxId offset hx lockTimeA counterPartyScript check
      Hsz Hrole Hbin Hxp HlA Hdrift Hchk Hgood.
    unfold processTransactionCreateB.
    replace (size packet <=? 109) with false by (symmetry; apply Z.leb_gt; exact Hsz).
    fold d. fold txid. fold binATxId. fold offset. fold hx. fold lockTimeA.
    rewrite Hx, Hloc, Hv, Hge, Hrole, Hxp. cbn [negb Ascii.eqb Bool.eqb length Nat.eqb].
    replace (String.length binATxId =? 0)%nat with false
      by (symmetry; apply Nat.eqb_neq; destruct binATxId; [congruence|discriminate]).
    rewrite Hfrom, Hto.
    apply Z.eqb_neq in HlA. rewrite HlA, Hdrift. cbn [orb negb]. descr_simpl.
    fold counterPartyScript. fold check.
    destruct check as [checked [[voutN overpayment] isGood]] eqn:Echeck.
    cbn [fst snd] in Hchk, Hgood. subst checked isGood. cbn [negb]. descr_simpl.
    fold outAmount fee2. rewrite Hsel, Hcov.
    break_all; after_deposit.
Qed.

(** C10: the check of [processTransactionInit] against the local order
    rejects only when all seven fields differ; so a packet of 144 bytes
    with the id of a known local order, signed by the Hub, in a state
    before [trInitialized], for the Maker, is acknowledged with
    TransactionInitialized and moves the order to [trInitialized],
    whatever the addresses, the currencies and the amounts it carries. *)
Theorem init_check_never_rejects (w : World) (packet : Packet) (xtx : TransactionDescr) :
  let d := data packet in
  let txid := bytes_at 40 hashSize d in
  let hubAddress := bytes_at 20 addressSize d in
  (forall txid' from' fromCurrency' fromAmount' to' toCurrency' toAmount',
     orderDoesNotMatch xtx txid' from' fromCurrency' fromAmount' to' toCurrency' toAmount'
       = true <->
     id xtx <> txid' /\ from xtx <> from' /\ fromCurrency xtx <> fromCurrency' /\
     fromAmount xtx <> fromAmount' /\ to xtx <> to' /\ toCurrency xtx <> toCurrency' /\
     toAmount xtx <> toAmount') /\
  (size packet = 144 ->
   xapp_transaction w txid = Some xtx ->
   id xtx = txid ->
   isLocal xtx = true ->
   verify packet (sPubKey xtx) = true ->
   state_code (state xtx) < state_code trInitialized ->
   role xtx <> "B"%char ->
   exists reply,
     command reply = xbcTransactionInitialized /\
     processTransactionInit env w packet =
     (true, sendPacket hubAddress reply
              (emit (NotifyXBridgeTransactionChanged txid)
                 (store txid (set_state trInitialized xtx) w)))).
Proof.
  cbv zeta. split.
  - intros. unfold orderDoesNotMatch.
    rewrite !andb_true_iff, !negb_true_iff, !bool_decide_eq_false, !Z.eqb_neq.
    tauto.
  - intros Hsz Hx Hid Hloc Hv Hst Hrole.
    unfold processTransactionInit, acceptorFee.
    rewrite Hsz, Z.eqb_refl, Hx, Hloc, Hv. cbn [negb].
    replace (state_ge (state xtx) trInitialized) with false
      by (symmetry; apply Z.leb_gt; exact Hst).
    replace (orderDoesNotMatch xtx _ _ _ _ _ _ _) with false.
    2:{ unfold orderDoesNotMatch. rewrite bool_decide_eq_true_2 by exact Hid. reflexivity. }
    replace (Ascii.eqb (role xtx) "B") with false
      by (symmetry; apply Ascii.eqb_neq; exact Hrole).
    eexists. split; [|cbn [id set_state]; rewrite Hid; reflexivity]. reflexivity.
Qed.

End Properties.

(** ** Two cancels, and what the wallets answer *)

Section Twice.
Context `{DoubleOps} `{PacketOps} `{Constants} `{!ExchangeOps}.
Variables env1 env2 : Env.
Import XBridgePacket.


End Twice.

(** * The properties on the samples *)

Section Samples.
Import Sample XBridgePacket.
#[local] Existing Instances doubles packets constants books.

Lemma trader_keyed (r : ascii) (st : State) (dep : bool) :
  registry_keyed (trader (order r st dep)).
Proof.
  intros k x Hk. cbn [trader m_transactions] in Hk.
  apply lookup_singleton_Some in Hk as [<- <-]. split; reflexivity.
Qed.


Lemma d_lt_irrefl_sample (a : double) : d_lt a a = false.
Proof.
  cbn. apply negb_false_iff. apply QArith_base.Qle_bool_iff. apply QArith_base.Qle_refl.
Qed.

Lemma d_lt_trans_sample (a b c : double) :
  d_lt a b = true -> d_lt b c = true -> d_lt a c = true.
Proof.
  cbn. rewrite !negb_true_iff. intros Hab Hbc.
  destruct (QArith_base.Qle_bool c a) eqn:E; [|reflexivity].
  apply QArith_base.Qle_bool_iff in E.
  assert (Hab' : ~ QArith_base.Qle b a).
  { intros Hle. apply QArith_base.Qle_bool_iff in Hle. congruence. }
  assert (Hbc' : ~ QArith_base.Qle c b).
  { intros Hle. apply QArith_base.Qle_bool_iff in Hle. congruence. }
  apply QArith_base.Qnot_le_lt in Hab', Hbc'.
  exfalso. apply (QArith_base.Qlt_irrefl a).
  eapply QArith_base.Qlt_le_trans; [|exact E].
  eapply QArith_base.Qlt_trans; eassumption.
Qed.



(** C2 on a sample: the Hub drops a Transaction packet whose id is not
    the hash of its fields. *)
Lemma mismatching_order_id_is_dropped_sample :
  snd (processTransaction hub_env (hub [] []) (transaction_packet other_id)) = hub [] [].
Proof.
  apply (mismatching_order_id_is_dropped hub_env (hub [] []) (transaction_packet other_id)
           btc_late ltc (d_zero + d_of_uint64 3)%D
           (mkUtxo (string_of_list_byte (repeat x33 32)) 0 (d_of_uint64 3)
              (string_of_list_byte maker_address) maker_address (repeat x44 65)) []).
  - vm_compute. reflexivity.
  - vm_compute. reflexivity.
  - vm_compute. reflexivity.
  - vm_compute. reflexivity.
  - vm_compute. discriminate.
Defined.


(** C4 on a sample: a TransactionHold packet that a stranger signed is
    dropped. *)
Lemma hub_key_is_pinned_sample :
  let w := trader (order "A" trPending false) in
  snd (run (trader_env btc_late) HTransactionHold w (hold_packet stranger_key)) = w.
Proof.
  refine (proj2 (proj2 (hub_key_is_pinned (trader_env btc_late) HTransactionHold
                          (trader (order "A" trPending false)) (hold_packet stranger_key)
                          (trader_keyed _ _ _)))
            eq_refl (order "A" trPending false) _ _).
  - vm_compute. reflexivity.
  - vm_compute. reflexivity.
Defined.

(** C5 on a sample: a TransactionCancel packet that a stranger signed is
    dropped. *)
Lemma cancel_needs_a_known_key_sample :
  let w := trader (order "A" trCreated true) in
  snd (processTransactionCancel (trader_env btc_late) w (cancel_packet stranger_key)) = w.
Proof.
  refine (proj2 (proj2 (proj2 (cancel_needs_a_known_key (trader_env btc_late)
                                 (trader (order "A" trCreated true))
                                 (cancel_packet stranger_key)
                                 (order "A" trCreated true) _ _ _ _))) eq_refl).
  - vm_compute. reflexivity.
  - vm_compute. reflexivity.
  - vm_compute. reflexivity.
  - vm_compute. reflexivity.
Defined.



Lemma rollback_path_sample (info : bool * WalletInfo) :
  rollback_path (trader_env (wallet "BTC" info accepts)) (trader (order "A" trCreated true))
    (cancel_packet hub_key) (order "A" trCreated true) (wallet "BTC" info accepts).
Proof.
  unfold rollback_path.
  repeat match goal with |- _ /\ _ => split end;
    try (vm_compute; reflexivity); try discriminate.
  left. vm_compute. reflexivity.
Qed.

(** C7 on a sample: the chain is at block 100 and the locktime of the
    order is 300; the order is rolled back, nothing is broadcast. *)
Lemma rollback_waits_for_reported_locktime_sample :
  let w := trader (order "A" trCreated true) in
  let w' := snd (processTransactionCancel (trader_env btc_early) w (cancel_packet hub_key)) in
  exists x', xapp_transaction w' order_id0 = Some x' /\
    state x' = trRollback /\
    new_events w w' = [NotifyXBridgeTransactionChanged order_id0].
Proof.
  destruct (rollback_waits_for_reported_locktime (trader_env btc_early)
              (trader (order "A" trCreated true)) (cancel_packet hub_key)
              (order "A" trCreated true) btc_early)
    as (x' & Hx' & _ & Hlocked & _).
  - cbn. lia.
  - apply rollback_path_sample.
  - exists x'. split; [exact Hx'|].
    destruct Hlocked as (Hst & Hev & _).
    + split; [reflexivity | cbn; lia].
    + split; [exact Hst | exact Hev].
Defined.

(** C7, the sentence of the specification: the wallet does not answer
    [getInfo] (the block count it holds, 100, is below the locktime of the
    order, 300), and the refund is broadcast. *)
Lemma refund_is_broadcast_when_the_wallet_is_silent :
  let w := trader (order "A" trCreated true) in
  let w' := snd (processTransactionCancel (trader_env btc_silent) w (cancel_packet hub_key)) in
  rollback_path (trader_env btc_silent) w (cancel_packet hub_key)
    (order "A" trCreated true) btc_silent /\
  blocks (snd (getInfo btc_silent)) < lockTime (order "A" trCreated true) /\
  new_events w w' =
    [SendRawTransaction "BTC" "refund"; NotifyXBridgeTransactionChanged order_id0;
     NotifyXBridgeTransactionChanged order_id0].
Proof.
  cbv zeta. split; [apply rollback_path_sample|].
  split; [cbn; lia|]. vm_compute. reflexivity.
Qed.

(** C8 on a sample: the refund is in the chain already, and the order is
    marked [trRollbackFailed]. *)
Lemma refund_already_in_chain_is_a_failure_sample :
  let xtx := order "A" trRollback true in
  redeemOrderDeposit (trader_env btc_replay) xtx 0 (trader xtx) =
  (false, 0, set_state trRollbackFailed xtx,
   emit (SendRawTransaction "BTC" "refund") (trader xtx)).
Proof.
  apply (refund_already_in_chain_is_a_failure (trader_env btc_replay)
           (order "A" trRollback true) btc_replay (trader (order "A" trRollback true)) 0
           EmptyString).
  - vm_compute. reflexivity.
  - cbn. lia.
  - vm_compute. reflexivity.
  - vm_compute. reflexivity.
  - vm_compute. reflexivity.
Defined.

(** C9 on a sample: the maker, and then the taker, sell one coin and
    hold a coin of 2 and a coin of 3; the fees are 1/100 each.  The first
    coin is enough; the deposit pays 1 + 1/100 to the P2SH address and
    2 - 1 - 1/100 - 1/100 to the address of the first coin. *)
Lemma deposit_pays_the_amount_and_returns_the_change_sample :
  (let w := trader (order "A" trInitialized false) in
   let w' := snd (processTransactionCreateA (trader_env btc_late) w createA_packet) in
   exists p2sh, deposits (trace w') =
     [("BTC"%string, depositInputs [coin 0 2],
       [(p2sh, (coins 100000000 + fee)%D);
        ("first"%string, (d_zero + d_of_uint64 2 - coins 100000000 - fee - fee)%D)])]) /\
  (let w := trader (order "B" trInitialized false) in
   let w' := snd (processTransactionCreateB (trader_env btc_late) w createB_packet) in
   exists p2sh, deposits (trace w') =
     [("BTC"%string, depositInputs [coin 0 2],
       [(p2sh, (coins 100000000 + fee)%D);
        ("first"%string, (d_zero + d_of_uint64 2 - coins 100000000 - fee - fee)%D)])]).
Proof.
  split; cbv zeta; eexists.
  - refine (proj1 (deposit_pays_the_amount_and_returns_the_change (trader_env btc_late)
                     (trader (order "A" trInitialized false)) createA_packet
                     (order "A" trInitialized false) btc_late ltc
                     [coin 0 2] (d_zero + d_of_uint64 2)%D fee
                     d_lt_irrefl_sample d_lt_trans_sample _ _ _ _ _ _ _ _) _ _ _ _).
    all: try (vm_compute; reflexivity).
    all: try (cbn; lia).
    all: try discriminate.
  - refine (proj1 (proj2 (deposit_pays_the_amount_and_returns_the_change
                     (trader_env btc_late)
                     (trader (order "B" trInitialized false)) createB_packet
                     (order "B" trInitialized false) btc_late ltc
                     [coin 0 2] (d_zero + d_of_uint64 2)%D fee
                     d_lt_irrefl_sample d_lt_trans_sample _ _ _ _ _ _ _ _)) _ _ _ _ _ _ _ _).
    all: try (vm_compute; reflexivity).
    all: try (cbn; lia).
    all: try discriminate.
    all: try (vm_compute; discriminate).
Defined.

(** C10 on a sample: an Init packet with the id of the order and the
    amounts 5 and 7, where the order has 100000000 and 200000000, is
    acknowledged and moves the order to [trInitialized]. *)
Lemma init_check_never_rejects_sample :
  let x := order "A" trHold false in
  let p := init_packet 5 7 in
  uint64_at 100 (data p) <> fromAmount x /\ uint64_at 136 (data p) <> toAmount x /\
  exists reply,
    command reply = xbcTransactionInitialized /\
    processTransactionInit (trader_env btc_late) (trader x) p =
    (true, sendPacket hub_address reply
             (emit (NotifyXBridgeTransactionChanged order_id0)
                (store order_id0 (set_state trInitialized x) (trader x)))).
Proof.
  cbv zeta. split; [vm_compute; discriminate|]. split; [vm_compute; discriminate|].
  refine (proj2 (init_check_never_rejects (trader_env btc_late)
                   (trader (order "A" trHold false)) (init_packet 5 7)
                   (order "A" trHold false)) _ _ _ _ _ _ _).
  - reflexivity.
  - vm_compute. reflexivity.
  - reflexivity.
  - reflexivity.
  - vm_compute. reflexivity.
  - cbn. lia.
  - discriminate.
Defined.

End Samples.

(** * More properties of the session and of the settings

    Properties of the code that the claims above leave out: the handlers of
    the Hub, the dispatch of a packet, the sizes of the packets the two
    sides exchange, the loops over coins, and the settings of XRouter. *)

Create Rewrite HintDb sizes.

Ltac break_match :=
  match goal with
  | |- context [match ?c with _ => _ end] => destruct c eqn:?
  end.

Ltac descr_simpl :=   cbn [id role state reason local hubAddress created
    txtime blockHash from fromCurrency fromAmount to toCurrency toAmount sPubKey
    mPubKey mPrivKey oPubKey xPubKey xSecret oHashedSecret lockTime
    opponentLockTime lockScript lockP2SHAddress binTxId binTxVout binTx refTxId
    refTx refundAddress oBinTxId oBinTxVout unlockScript unlockP2SHAddress
    oOverpayment payTxId payTx usedCoins feeUtxos rawFeeTx otherPayTxId
    otherPayTxTries doneWatchingFlag watchBlock depositSent counterpartyRedeemed
    set_id set_hubAddress set_created set_blockHash set_fromCurrency
    set_fromAmount set_toCurrency set_toAmount set_sPubKey set_state set_reason
    set_txtime set_oPubKey set_xSecret set_oHashedSecret set_lockTime
    set_opponentLockTime set_lockScript set_lockP2SHAddress set_binTxId
    set_binTxVout set_binTx set_refTxId set_refTx set_oBinTxId set_oBinTxVout
    set_unlockScript set_unlockP2SHAddress set_oOverpayment set_payTxId set_payTx
    set_otherPayTxId set_otherPayTxTries set_doneWatchingFlag set_watchBlock
    set_depositSent set_counterpartyRedeemed sentDeposit failDeposit
    counterpartyDepositRedeemed setSecret doneWatching setOtherPayTxId
    tryOtherPayTx setWatchBlock isLocal didSendDeposit
    hasRedeemedCounterpartyDeposit isDoneWatching].

Ltac break_all := repeat (break_match; descr_simpl).

Hint Rewrite @reg_emit @reg_store @reg_processLater @reg_removePackets @reg_unlockCoins
  @reg_unlockFeeUtxos @reg_watchForSpentDeposit @reg_unwatchSpentDeposit @reg_set_exchange
  @reg_sendPacket @reg_sendPacketBroadcast @reg_moveTransactionToHistory @reg_cancel
  @reg_sendCancelTransaction_hub : registry.

Section Isolation.
Context `{DoubleOps} `{PacketOps} `{Constants} `{!ExchangeOps}.
Variable env : Env.
Import XBridgePacket.

Lemma redeemOrderDeposit_registry (xtx : TransactionDescr) (ec : Z) (w : World) :
  m_transactions (snd (redeemOrderDeposit env xtx ec w)) = m_transactions w.
Proof.
  destruct (redeemOrderDeposit env xtx ec w) as [[[d e] x] W] eqn:E.
  apply redeemOrderDeposit_effect in E. cbn [snd]. tauto.
Qed.

Lemma processTransactionCancel_frame (w : World) (packet : Packet) (k : bytes) :
  k <> bytes_at 0 hashSize (data packet) ->
  m_transactions (snd (processTransactionCancel env w packet)) !! k = m_transactions w !! k.
Proof.
  intros Hk. unfold processTransactionCancel.
  repeat break_match; cbn [snd fst]; try reflexivity.
  all: try match goal with E : sendCancelTransaction_hub ?a ?b ?c = _ |- _ =>
         pose proof (reg_sendCancelTransaction_hub a b c) as Hreg; rewrite E in Hreg;
         cbn [snd] in Hreg; rewrite Hreg; reflexivity end.
  all: try match goal with E : redeemOrderDeposit _ ?a ?b ?c = _ |- _ =>
         pose proof (redeemOrderDeposit_registry a b c) as Hreg; rewrite E in Hreg;
         cbn [snd] in Hreg end.
  all: autorewrite with registry; rewrite ?lookup_insert_ne by congruence;
    try rewrite Hreg; autorewrite with registry; reflexivity.
Qed.

Lemma cancelOrder_frame (txid : bytes) (xtx : TransactionDescr) (r : TxCancelReason)
  (W : World) (k : bytes) :
  id xtx = txid -> length txid = hashSize -> k <> txid ->
  m_transactions (snd (cancelOrder env txid xtx r W)) !! k = m_transactions W !! k.
Proof.
  intros Hid Hlen Hk. unfold cancelOrder, sendCancelTransaction.
  match goal with |- context [processTransactionCancel env ?w0 ?p] =>
    pose proof (processTransactionCancel_frame w0 p k) as Hf;
    destruct (processTransactionCancel env w0 p) as [b w1] end.
  cbn [snd] in *. autorewrite with registry.
  rewrite Hf.
  - autorewrite with registry. apply lookup_insert_ne. congruence.
  - rewrite cancel_packet_id by (rewrite Hid; exact Hlen). congruence.
Qed.

Ltac use_refundTx :=
  match goal with
  | E : refundTx ?e ?c ?t ?x ?o ?f ?w = inl _ |- _ =>
    let Hr := fresh "Hr" in
    pose proof (refundTx_effect e c t x o f w) as Hr; rewrite E in Hr;
    destruct Hr as (? & -> & Hri & Hrs & Hrst);
    simpl in Hri, Hrs, Hrst; clear E
  | E : refundTx ?e ?c ?t ?x ?o ?f ?w = inr _ |- _ =>
    let Hr := fresh "Hr" in
    pose proof (refundTx_effect e c t x o f w) as Hr; rewrite E in Hr;
    destruct Hr as (Hri & Hrs & Hrst);
    simpl in Hri, Hrs, Hrst; clear E
  end.

Ltac use_acceptorFee :=
  match goal with
  | E : acceptorFee ?e ?t ?x ?p ?w = inl _ |- _ =>
    let Hr := fresh "Hr" in
    pose proof (acceptorFee_effect e t x p w) as Hr; rewrite E in Hr;
    destruct Hr as (? & Hreg & [-> | ->]); clear E
  | E : acceptorFee ?e ?t ?x ?p ?w = inr _ |- _ =>
    let Hr := fresh "Hr" in
    pose proof (acceptorFee_effect e t x p w) as Hr; rewrite E in Hr;
    rename Hr into Hreg; clear E
  end.

Ltac use_redeem :=
  match goal with
  | E : redeemOrderCounterpartyDeposit _ _ _ _ = _ |- _ =>
    apply redeemOrderCounterpartyDeposit_effect in E;
    destruct E as (Hreg & Hri & Hrs & Hrst); simpl in Hri, Hrs, Hrst
  end.

Ltac prepare :=
  repeat match goal with
         | E : context [if ?c then _ else _] |- _ => destruct c eqn:?
         end;
  try match goal with E : m_transactions _ !! bytes_at _ _ _ = Some _ |- _ =>
        match goal with Hwf : registry_keyed _ |- _ =>
          destruct (Hwf _ _ E) as [Hid Hlen] end end;
  try use_refundTx; try use_acceptorFee; try use_redeem.

Ltac frame_leaf :=
  cbn [snd fst];
  repeat first
    [ reflexivity
    | rewrite cancelOrder_frame by first [assumption | simpl; congruence]
    | progress autorewrite with registry
    | rewrite lookup_insert_ne by congruence
    | match goal with Hreg : m_transactions _ = m_transactions _ |- _ =>
        rewrite Hreg end ].

(** X1: the handlers of a trader keep the registry keyed, each order under
    its own id of 32 bytes, and a packet about one order leaves every other
    order as it is. *)
Theorem handlers_keep_the_registry (h : TraderHandler) (w : World)
  (packet : Packet) :
  registry_keyed w ->
  registry_keyed (snd (run env h w packet)) /\
  forall k : bytes,
    k <> order_id h packet ->
    m_transactions (snd (run env h w packet)) !! k = m_transactions w !! k.
Proof.
  intros Hwf.
  assert (Hframe : forall k : bytes, k <> order_id h packet ->
            m_transactions (snd (run env h w packet)) !! k = m_transactions w !! k).
  { intros k Hk.
    destruct h; cbn [run order_id] in *.
    - unfold processPendingTransaction, xapp_transaction, appendTransaction.
      break_all; prepare; frame_leaf.
    - unfold processTransactionHold, xapp_transaction.
      break_all; prepare; frame_leaf.
    - unfold processTransactionInit, xapp_transaction.
      break_all; prepare; frame_leaf.
    - unfold processTransactionCreateA, xapp_transaction.
      break_all; prepare; frame_leaf.
    - unfold processTransactionCreateB, xapp_transaction.
      break_all; prepare; frame_leaf.
    - unfold processTransactionConfirmA, xapp_transaction.
      break_all; prepare; frame_leaf.
    - unfold processTransactionConfirmB, xapp_transaction.
      break_all; prepare; frame_leaf.
    - apply processTransactionCancel_frame. exact Hk.
    - unfold processTransactionFinished, xapp_transaction.
      break_all; prepare; frame_leaf. }
  split; [|exact Hframe].
  intros k x' Hk'.
  destruct (decide (k = order_id h packet)) as [->|Hne];
    [|rewrite Hframe in Hk' by exact Hne; exact (Hwf _ _ Hk')].
  destruct (m_transactions w !! order_id h packet) as [x|] eqn:Hk.
  - destruct (handler_effect env h w packet _ x Hwf Hk) as (x'' & Hx'' & Hid & _).
    rewrite Hx'' in Hk'. injection Hk' as <-.
    destruct (Hwf _ _ Hk) as [Hi Hl]. split; [congruence|exact Hl].
  - revert Hk'.
    destruct h; cbn [run order_id] in *;
      [ unfold processPendingTransaction, appendTransaction
      | unfold processTransactionHold
      | unfold processTransactionInit
      | unfold processTransactionCreateA
      | unfold processTransactionCreateB
      | unfold processTransactionConfirmA
      | unfold processTransactionConfirmB
      | unfold processTransactionCancel
      | unfold processTransactionFinished ];
      unfold xapp_transaction; rewrite ?Hk; cbv zeta;
      repeat break_match; cbn [snd fst]; autorewrite with registry;
      intros Hk'; try congruence.
    all: try match goal with
         | E : sendCancelTransaction_hub ?a ?b ?c = _ |- _ =>
           pose proof (reg_sendCancelTransaction_hub a b c) as Hreg; rewrite E in Hreg;
           cbn [snd] in Hreg; rewrite Hreg in Hk'; autorewrite with registry in Hk';
           congruence
         end.
    descr_simpl. cbn [id set_blockHash set_sPubKey set_state set_created set_hubAddress
      set_toAmount set_toCurrency set_fromAmount set_fromCurrency set_id] in Hk'.
    rewrite lookup_insert_eq in Hk'. injection Hk' as <-. split; [reflexivity|].
    match goal with E : negb (size packet =? 124) = false |- _ =>
      apply negb_false_iff, Z.eqb_eq in E end.
    unfold bytes_at, size, hashSize in *.
    rewrite length_firstn, length_skipn. lia.
Qed.

End Isolation.

Section Rejection.
Context `{DoubleOps} `{PacketOps} `{Constants} `{!ExchangeOps}.
Variable env : Env.
Import XBridgePacket.

Lemma cancelOrder_true (txid : bytes) (xtx : TransactionDescr) (r : TxCancelReason)
  (W : World) : fst (cancelOrder env txid xtx r W) = true.
Proof.
  unfold cancelOrder. destruct (sendCancelTransaction _ _ _ _). reflexivity.
Qed.

Lemma refundTx_true conn txid xtx o f w r :
  refundTx env conn txid xtx o f w = inl r -> fst r = true.
Proof.
  unfold refundTx. repeat break_match; intros [= <-]; apply cancelOrder_true.
Qed.

Lemma acceptorFee_true txid xtx p w r :
  acceptorFee env txid xtx p w = inl r -> fst r = true.
Proof.
  unfold acceptorFee. repeat break_match; intros [= <-];
    first [reflexivity | apply cancelOrder_true].
Qed.

Ltac not_rejected :=
  cbn [fst snd]; intros Hf;
  first
    [ reflexivity
    | discriminate Hf
    | rewrite cancelOrder_true in Hf; discriminate Hf
    | match goal with E : refundTx _ _ _ _ _ _ _ = inl _ |- _ =>
        rewrite (refundTx_true _ _ _ _ _ _ _ E) in Hf; discriminate Hf end
    | match goal with E : acceptorFee _ _ _ _ _ = inl _ |- _ =>
        rewrite (acceptorFee_true _ _ _ _ _ E) in Hf; discriminate Hf end ].

(* A packet that a handler of a trader rejects has changed nothing. *)
Lemma trader_rejection (h : TraderHandler) (w : World) (packet : Packet) :
  fst (run env h w packet) = false -> snd (run env h w packet) = w.
Proof.
  destruct h; cbn [run].
  - unfold processPendingTransaction. break_all; not_rejected.
  - unfold processTransactionHold. break_all; not_rejected.
  - unfold processTransactionInit. break_all; not_rejected.
  - unfold processTransactionCreateA. break_all; not_rejected.
  - unfold processTransactionCreateB. break_all; not_rejected.
  - unfold processTransactionConfirmA. break_all; not_rejected.
  - unfold processTransactionConfirmB. break_all; not_rejected.
  - unfold processTransactionCancel. break_all; not_rejected.
  - unfold processTransactionFinished. break_all; not_rejected.
Qed.

(** X22: but for a Hold packet with an invalid key and a Cancel packet
    without a wallet, a handler of a trader answers false exactly when the
    size of the packet is wrong. *)
Theorem trader_rejects_only_a_wrong_size (h : TraderHandler) (w : World)
  (packet : Packet) :
  h <> HTransactionHold -> h <> HTransactionCancel ->
  (h = HPendingTransaction -> isEnabled (exchange w) = false) ->
  fst (run env h w packet) = takes (command_of h) (size packet).
Proof.
  intros Hh Hc He.
  assert (Hle : forall a b, (a <=? b) = true -> (b <? a) = false).
  { intros a b E. apply Z.ltb_ge. apply Z.leb_le in E. exact E. }
  assert (Hgt : forall a b, (a <=? b) = false -> (b <? a) = true).
  { intros a b E. apply Z.ltb_lt. apply Z.leb_gt in E. exact E. }
  assert (Hrange : forall n, (n <=? 52) || (1000 <? n) = negb ((52 <? n) && (n <=? 1000))).
  { intros n. destruct (n <=? 52) eqn:E1, (1000 <? n) eqn:E2, (52 <? n) eqn:E3,
      (n <=? 1000) eqn:E4; try reflexivity; exfalso;
      rewrite ?Z.leb_le, ?Z.leb_gt, ?Z.ltb_lt, ?Z.ltb_ge in *; lia. }
  destruct h; try congruence; cbn [run command_of takes];
    [ unfold processPendingTransaction; rewrite (He eq_refl)
    | unfold processTransactionInit
    | unfold processTransactionCreateA
    | unfold processTransactionCreateB
    | unfold processTransactionConfirmA
    | unfold processTransactionConfirmB
    | unfold processTransactionFinished ];
    rewrite ?Hrange;
    match goal with
    | |- context [size packet =? ?n] => destruct (size packet =? n) eqn:Hs
    | |- context [(52 <? size packet) && (size packet <=? 1000)] =>
      destruct ((52 <? size packet) && (size packet <=? 1000)) eqn:Hs
    | |- context [size packet <=? ?n] =>
      destruct (size packet <=? n) eqn:Hs;
      [apply Hle in Hs|apply Hgt in Hs]; rewrite Hs
    end; cbn [negb]; try reflexivity;
    break_all; cbn [fst];
    first
      [ reflexivity
      | apply cancelOrder_true
      | match goal with E : refundTx _ _ _ _ _ _ _ = inl _ |- _ =>
          exact (refundTx_true _ _ _ _ _ _ _ E) end
      | match goal with E : acceptorFee _ _ _ _ _ = inl _ |- _ =>
          exact (acceptorFee_true _ _ _ _ _ E) end ].
Qed.

(** X2: a packet about an order that the trader does not know is ignored. *)
Theorem unknown_order_is_ignored (h : TraderHandler) (w : World) (packet : Packet) :
  h <> HPendingTransaction ->
  takes (command_of h) (size packet) = true ->
  isStarted (exchange w) = false ->
  xapp_transaction w (order_id h packet) = None ->
  run env h w packet = (true, w).
Proof.
  intros Hh Hs He Hx.
  destruct h; try congruence; cbn [run command_of takes order_id] in *.
  - unfold processTransactionHold. rewrite Hs, Hx. reflexivity.
  - unfold processTransactionInit. rewrite Hs, Hx. reflexivity.
  - unfold processTransactionCreateA. rewrite Hs, Hx. reflexivity.
  - unfold processTransactionCreateB.
    replace (size packet <=? 109) with false by (symmetry; apply Z.leb_gt; apply Z.ltb_lt; exact Hs).
    cbv zeta. rewrite Hx. reflexivity.
  - unfold processTransactionConfirmA.
    replace (size packet <=? 56) with false by (symmetry; apply Z.leb_gt; apply Z.ltb_lt; exact Hs).
    cbv zeta. rewrite Hx. reflexivity.
  - unfold processTransactionConfirmB.
    apply andb_true_iff in Hs. destruct Hs as [Hlo Hhi].
    replace (size packet <=? 52) with false by (symmetry; apply Z.leb_gt; apply Z.ltb_lt; exact Hlo).
    replace (1000 <? size packet) with false by (symmetry; apply Z.ltb_ge; apply Z.leb_le; exact Hhi).
    cbv zeta. cbn [orb]. rewrite Hx. reflexivity.
  - unfold processTransactionCancel. rewrite Hs, He, Hx. reflexivity.
  - unfold processTransactionFinished. rewrite Hs, Hx. reflexivity.
Qed.

End Rejection.

Section Loops.
Ltac splits := repeat match goal with |- _ /\ _ => split end.
Context `{DoubleOps} `{PacketOps} `{Constants} `{!ExchangeOps}.
Variable env : Env.
Import XBridgePacket.

Lemma total_app a l l' : total a (l ++ l') = total (total a l) l'.
Proof. unfold total. apply fold_left_app. Qed.

Lemma selectCoins_spec (conn : WalletConnector) (outAmount fee2 : double)
  (coins used : list UtxoEntry) (fee0 : double) :
  forall used' inA fee1,
  selectCoins conn outAmount fee2 coins used (total d_zero used) fee0 = (used', inA, fee1) ->
  exists taken rest,
    coins = taken ++ rest /\ used' = used ++ taken /\
    inA = total d_zero used' /\
    (taken <> [] -> fee1 = minTxFee1 conn (Z.of_nat (length used')) 3) /\
    (taken = [] -> fee1 = fee0) /\
    (rest <> [] -> covers conn outAmount fee2 used' = true) /\
    (forall p q, taken = p ++ q -> p <> [] -> q <> [] ->
       covers conn outAmount fee2 (used ++ p) = false).
Proof.
  revert used fee0. induction coins as [|c coins IH]; intros used fee0 used' inA fee1.
  - cbn [selectCoins]. intros [= <- <- <-]. exists [], [].
    split; [reflexivity|]. split; [symmetry; apply app_nil_r|].
    split; [reflexivity|]. split; [congruence|]. split; [reflexivity|].
    split; [congruence|].
    intros p q Hpq. destruct p; [congruence|discriminate].
  - cbn [selectCoins].
    destruct (d_le _ _) eqn:Hc.
    + intros [= <- <- <-]. exists [c], coins.
      split; [reflexivity|]. split; [reflexivity|].
      split; [rewrite total_app; reflexivity|].
      split; [intros _; reflexivity|]. split; [discriminate|].
      split; [intros _; unfold covers; rewrite total_app; exact Hc|].
      intros p q Hpq Hp Hq. destruct p as [|a p]; [congruence|].
      injection Hpq as -> Hpq. destruct p; [|discriminate]. cbn in Hpq. congruence.
    + replace (total d_zero used + amount c)%D with (total d_zero (used ++ [c]))
        by (rewrite total_app; reflexivity).
      intros E. apply IH in E.
      destruct E as (taken & rest & -> & -> & -> & Hfee & Hfee0 & Hcov & Hmin).
      exists (c :: taken), rest.
      rewrite <- !app_assoc. cbn [List.app].
      split; [reflexivity|]. split; [reflexivity|]. split; [reflexivity|].
      split.
      { intros _. destruct taken as [|t taken].
        - rewrite Hfee0 by reflexivity. reflexivity.
        - rewrite Hfee by congruence. rewrite <- app_assoc. reflexivity. }
      split; [discriminate|].
      split.
      { intros Hr. specialize (Hcov Hr). rewrite <- app_assoc in Hcov. exact Hcov. }
      intros p q Hpq Hp Hq. destruct p as [|a p]; [congruence|].
      injection Hpq as <- Hpq. destruct p as [|b p].
      { unfold covers. rewrite total_app. cbn [List.app]. exact Hc. }
      specialize (Hmin (b :: p) q Hpq). rewrite <- app_assoc in Hmin.
      apply Hmin; [congruence|exact Hq].
Qed.

(** X3: the coins of a deposit are the shortest prefix of the coins of the
    order that covers the amount and the fees, or all of them. *)
Theorem selectCoins_takes_the_shortest_covering_prefix (conn : WalletConnector)
  (outAmount fee2 : double) (coins used : list UtxoEntry) (inAmount fee1 : double) :
  selectCoins conn outAmount fee2 coins [] d_zero d_zero = (used, inAmount, fee1) ->
  exists rest,
    coins = used ++ rest /\
    inAmount = total d_zero used /\
    (used <> [] -> fee1 = minTxFee1 conn (Z.of_nat (length used)) 3) /\
    (rest <> [] -> covers conn outAmount fee2 used = true) /\
    (forall p q, used = p ++ q -> p <> [] -> q <> [] ->
       covers conn outAmount fee2 p = false).
Proof.
  intros E.
  destruct (selectCoins_spec conn outAmount fee2 coins [] d_zero used inAmount fee1 E)
    as (taken & rest & -> & Hu & -> & Hfee & _ & Hcov & Hmin).
  cbn [List.app] in Hu. subst taken. exists rest. splits; auto.
Qed.

(** X4: the body of a packet is read as a list of UTXOs only if it holds
    all the items it announces. *)
Theorem readUtxoItems_needs_the_whole_list (conn : WalletConnector) (packet : Packet)
  (n offset : nat) (c0 : double) (items0 : list UtxoEntry) :
  readUtxoItems env conn packet n offset c0 items0 = None <->
  (0 < n)%nat /\ size packet < Z.of_nat (offset + n * utxoItemSize).
Proof.
  revert offset c0 items0. induction n as [|n IH]; intros offset c0 items0.
  - cbn [readUtxoItems]. split; [discriminate|]. intros [Hn _]. lia.
  - cbn [readUtxoItems].
    destruct (size packet <? Z.of_nat (offset + utxoItemSize)) eqn:Hs.
    + apply Z.ltb_lt in Hs. split; [|reflexivity]. intros _. split; [lia|].
      unfold utxoItemSize in *. lia.
    + apply Z.ltb_ge in Hs. cbv zeta.
      assert (Hoff : (offset + hashSize + 4 + addressSize + signatureSize
                      = offset + utxoItemSize)%nat) by (unfold utxoItemSize; lia).
      rewrite Hoff.
      destruct (getTxOut conn _) as [found entry].
      assert (Hiff : forall c i,
                 readUtxoItems env conn packet n (offset + utxoItemSize) c i = None <->
                 (0 < S n)%nat /\
                 size packet < Z.of_nat (offset + S n * utxoItemSize)).
      { intros c i. rewrite IH. split.
        - intros [Hn Hlt]. split; [lia|].
          replace (offset + S n * utxoItemSize)%nat
            with (offset + utxoItemSize + n * utxoItemSize)%nat by lia. exact Hlt.
        - intros [_ Hlt]. destruct n as [|n'].
          + exfalso. replace (offset + 1 * utxoItemSize)%nat
              with (offset + utxoItemSize)%nat in Hlt by lia. lia.
          + split; [lia|].
            replace (offset + utxoItemSize + S n' * utxoItemSize)%nat
              with (offset + S (S n') * utxoItemSize)%nat by lia. exact Hlt. }
      destruct (negb found); [apply Hiff|].
      destruct (negb (verifyMessage conn entry)); apply Hiff.
Qed.

(** X5: the entries read from a packet are entries the wallet found and
    whose signature it checked, and the amount is their total. *)
Theorem readUtxoItems_accepts_checked_outputs (conn : WalletConnector) (packet : Packet)
  (n offset : nat) (c0 c : double) (items0 items : list UtxoEntry) :
  readUtxoItems env conn packet n offset c0 items0 = Some (c, items) ->
  exists new,
    items = items0 ++ new /\ (length new <= n)%nat /\ c = total c0 new /\
    Forall (fun e => verifyMessage conn e = true /\
                     exists raw, getTxOut conn raw = (true, e)) new.
Proof.
  revert offset c0 items0. induction n as [|n IH]; intros offset c0 items0.
  - cbn [readUtxoItems]. intros [= <- <-]. exists [].
    split; [symmetry; apply app_nil_r|]. split; [cbn; lia|].
    split; [reflexivity|constructor].
  - cbn [readUtxoItems].
    destruct (size packet <? _); [discriminate|]. cbv zeta.
    match goal with |- context [getTxOut conn ?r] =>
      set (raw := r); destruct (getTxOut conn raw) as [found entry] eqn:Hg end.
    destruct found; cbn [negb].
    + destruct (verifyMessage conn entry) eqn:Hv; cbn [negb].
      * intros E. apply IH in E. destruct E as (new & -> & Hlen & -> & Hall).
        exists (entry :: new). rewrite <- app_assoc. cbn [List.app].
        split; [reflexivity|]. split; [cbn [length]; lia|].
        split; [reflexivity|].
        constructor; [|exact Hall]. split; [exact Hv|].
        exists raw. exact Hg.
      * intros E. apply IH in E. destruct E as (new & -> & Hlen & -> & Hall).
        exists new. split; [reflexivity|]. split; [lia|]. split; [reflexivity|exact Hall].
    + intros E. apply IH in E. destruct E as (new & -> & Hlen & -> & Hall).
      exists new. split; [reflexivity|]. split; [lia|]. split; [reflexivity|exact Hall].
Qed.

End Loops.

Section Redeem.
Context `{DoubleOps} `{PacketOps} `{Constants} `{!ExchangeOps}.
Variable env : Env.
Import XBridgePacket.

Lemma findSecret_flag (conn : WalletConnector) (xtx x1 : TransactionDescr) (w w1 : World) :
  findSecret conn xtx w = Some (x1, w1) ->
  hasRedeemedCounterpartyDeposit x1 = hasRedeemedCounterpartyDeposit xtx.
Proof.
  unfold findSecret. repeat break_match; intros [= <- <-]; reflexivity.
Qed.

(** X6: the redeem of the deposit of the counterparty answers "done" when,
    and only when, it marks the order as redeemed. *)
Theorem counterparty_redeem_is_done_iff_marked (xtx : TransactionDescr) (ec : Z)
  (w : World) :
  hasRedeemedCounterpartyDeposit xtx = false ->
  let r := redeemOrderCounterpartyDeposit env xtx ec w in
  fst (fst (fst r)) = hasRedeemedCounterpartyDeposit (snd (fst r)).
Proof.
  intros Hf. cbv zeta. unfold redeemOrderCounterpartyDeposit.
  repeat break_match; cbn [fst snd];
    try match goal with E : findSecret _ _ _ = Some _ |- _ =>
      apply findSecret_flag in E; rewrite Hf in E end;
    first [ reflexivity | symmetry; assumption | symmetry; exact Hf ].
Qed.

(** X7: a payment that is in the chain already counts as sent. *)
Theorem payment_already_in_chain_is_done (xtx x1 : TransactionDescr) (ec : Z)
  (w w1 : World) (connFrom connTo : WalletConnector) (payTxId' payTx' sid : string) :
  connectorByCurrency env (fromCurrency xtx) = Some connFrom ->
  connectorByCurrency env (toCurrency xtx) = Some connTo ->
  findSecret connFrom xtx w = Some (x1, w1) ->
  createPaymentTransaction connTo
    [mkXTxIn (oBinTxId x1) (oBinTxVout x1) (coins (toAmount x1))]
    [(fromXAddr connTo (to x1), (coins (toAmount x1) + oOverpayment x1)%D)]
    (mPubKey x1) (mPrivKey x1) (secret x1) (unlockScript x1) = (true, (payTxId', payTx')) ->
  sendRawTransaction connTo payTx' = (false, (sid, RPC_VERIFY_ALREADY_IN_CHAIN)) ->
  redeemOrderCounterpartyDeposit env xtx ec w =
  (true, RPC_VERIFY_ALREADY_IN_CHAIN,
   counterpartyDepositRedeemed (set_payTx payTx' (set_payTxId payTxId' x1)),
   emit (SendRawTransaction (currency connTo) payTx') w1).
Proof.
  intros Hf Ht Hs Hc Hsend. unfold redeemOrderCounterpartyDeposit.
  rewrite Hf, Ht, Hs. cbv zeta. rewrite Hc.
  cbn [negb payTx set_payTx set_payTxId]. rewrite Hsend, Z.eqb_refl. reflexivity.
Qed.

(** X8: a cancel that changes an order records its reason. *)
Theorem cancel_records_the_reason (w : World) (packet : Packet) (xtx : TransactionDescr) :
  let txid := bytes_at 0 hashSize (data packet) in
  isStarted (exchange w) = false ->
  xapp_transaction w txid = Some xtx ->
  exists x', xapp_transaction (snd (processTransactionCancel env w packet)) txid = Some x' /\
    (x' = xtx \/
     (cancel_state (state x') /\ reason x' = uint32_at 32 (data packet))).
Proof.
  cbv zeta. intros Hs Hx. unfold processTransactionCancel, cancel_state.
  rewrite Hs, Hx. unfold xapp_transaction in *.
  repeat break_match; cbn [snd fst]; try solve [eauto].
  all: try match goal with E : redeemOrderDeposit _ _ _ _ = _ |- _ =>
      apply redeemOrderDeposit_effect in E; destruct E as (_ & Hreg & _ & Hx') end.
  all: autorewrite with registry; rewrite lookup_insert_eq; eexists; (split; [reflexivity|]).
  all: try (destruct Hx' as [->|[->| ->]]); right; cbn; auto.
Qed.

End Redeem.

Section HubGuards.
Context `{DoubleOps} `{PacketOps} `{Constants} `{!ExchangeOps} `{!HubOps}.
Variable env : Env.
Import XBridgePacket.

(** X9: the Hub acts on a packet about an accepted order only when the
    packet is for it, the order is in the expected state and the expected
    trader signed. *)
Theorem hub_acts_only_for_the_expected_trader (h : HubHandler) (s : HubState)
  (packet : Packet) :
  authorised env h s packet = false ->
  snd (run_hub env h s packet) = s.
Proof.
  unfold authorised. cbv zeta. intros Ha.
  destruct h; cbn [run_hub hub_order_id expected_state signed_by_the_party] in *;
    [ unfold processTransactionHoldApply
    | unfold processTransactionInitialized
    | unfold processTransactionCreatedA
    | unfold processTransactionCreatedB
    | unfold processTransactionConfirmedA
    | unfold processTransactionConfirmedB ];
    repeat break_match; cbn [snd]; try reflexivity; exfalso;
    repeat match goal with
           | E : context [verify ?p ?k] |- _ => destruct (verify p k)
           end;
    cbn [negb andb orb] in *; try discriminate;
    repeat match goal with
           | E : negb ?x = false |- _ => apply negb_false_iff in E; rewrite E in Ha
           end;
    cbn [negb andb orb] in Ha; discriminate Ha.
Qed.

(** X10: a packet of a size that the handler of its command does not take
    never changes the state of the process. *)
Theorem packet_of_a_wrong_size_has_no_effect (server : bool) (c : XBridgeCommand)
  (f : Handler) (s : HubState) (packet : Packet) :
  handlers env server c = Some f ->
  takes c (size packet) = false ->
  snd (f s packet) = s.
Proof.
  intros Hf Ht.
  assert (Hle : forall a b, (a <=? b) = false -> (b <? a) = true).
  { intros a b E. apply Z.ltb_lt. apply Z.leb_gt in E. exact E. }
  assert (Hlt : forall a b, (a <? b) = false -> (b <=? a) = true).
  { intros a b E. apply Z.leb_le. apply Z.ltb_ge in E. exact E. }
  assert (Hrange : forall n, (52 <? n) && (n <=? 1000) = false ->
                     (n <=? 52) || (1000 <? n) = true).
  { intros n E. apply andb_false_iff in E. apply orb_true_iff.
    destruct E as [E|E]; [left; apply Hlt; exact E|right; apply Hle; exact E]. }
  destruct c, server; cbn [handlers takes] in *; try discriminate;
    injection Hf as <-; unfold on_app; try discriminate Ht;
    try (apply Hrange in Ht); try (apply Hle in Ht); try (apply Hlt in Ht).
  all: try match goal with |- context [processTransaction env ?w ?p] =>
         unfold processTransaction end.
  all: try match goal with |- context [processTransactionAccepting env ?w ?p] =>
         unfold processTransactionAccepting end.
  all: try match goal with |- context [processPendingTransaction env ?w ?p] =>
         unfold processPendingTransaction end.
  all: try unfold processTransactionHoldApply, processTransactionHold.
  all: try unfold processTransactionInit, processTransactionInitialized.
  all: try unfold processTransactionCreateA, processTransactionCreatedA.
  all: try unfold processTransactionCreateB, processTransactionCreatedB.
  all: try unfold processTransactionConfirmA, processTransactionConfirmedA.
  all: try unfold processTransactionConfirmB, processTransactionConfirmedB.
  all: try unfold processTransactionCancel, processTransactionFinished.
  all: rewrite ?Ht; cbn [negb];
    repeat match goal with
           | |- context [if ?c then _ else _] =>
             lazymatch c with
             | context [size] => fail
             | _ => destruct c
             end
           end;
    rewrite ?Ht; cbn [negb snd]; try (destruct s; reflexivity).
Qed.

End HubGuards.

Section Dispatch.
Context `{DoubleOps} `{PacketOps} `{Constants} `{!ExchangeOps} `{!HubOps}.
Variable env : Env.
Import XBridgePacket.

(** X11: a session is on one side: a trader refuses the commands of the
    Hub, the Hub refuses the commands of a trader, without a penalty (it
    does not call [DoS]) and without an effect. *)
Theorem a_session_serves_one_side (server state : bool) (s : HubState) (packet : Packet) :
  (if server then trader_command (command packet)
   else hub_command (command packet)) = true ->
  processPacket env server state s packet = mkOutcome false None false s.
Proof.
  unfold processPacket. cbn [decryptPacket negb].
  destruct (command packet), server; cbn [trader_command hub_command handlers];
    intros Hc; try discriminate Hc; reflexivity.
Qed.

Lemma hub_rejection (h : HubHandler) (s : HubState) (packet : Packet) :
  fst (run_hub env h s packet) = false -> snd (run_hub env h s packet) = s.
Proof.
  destruct h; cbn [run_hub];
    [ unfold processTransactionHoldApply
    | unfold processTransactionInitialized
    | unfold processTransactionCreatedA
    | unfold processTransactionCreatedB
    | unfold processTransactionConfirmedA
    | unfold processTransactionConfirmedB ];
    repeat break_match; cbn [fst snd]; intros Hf; first [reflexivity | discriminate Hf].
Qed.

Lemma on_app_rejection (f : World -> Packet -> bool * World) (s : HubState)
  (packet : Packet) :
  (fst (f (xapp s) packet) = false -> snd (f (xapp s) packet) = xapp s) ->
  fst (on_app f s packet) = false -> snd (on_app f s packet) = s.
Proof.
  unfold on_app. destruct (f (xapp s) packet) as [r w]. cbn [fst snd].
  intros Hf Hr. rewrite (Hf Hr). destruct s; reflexivity.
Qed.

(** X12: a packet that the session refuses has changed nothing, but for
    the two packets on which the Hub may cancel an order before it
    refuses them. *)
Theorem refused_packet_changes_nothing (server state : bool) (s : HubState)
  (packet : Packet) :
  command packet <> xbcTransaction ->
  command packet <> xbcTransactionAccepting ->
  returned (processPacket env server state s packet) = false ->
  after (processPacket env server state s packet) = s.
Proof.
  intros Hn1 Hn2. unfold processPacket. cbn [decryptPacket negb].
  destruct (handlers env server (command packet)) as [f|] eqn:Hf; [|reflexivity].
  destruct (f s packet) as [ok s'] eqn:E.
  destruct ok; cbn [negb returned after]; [discriminate|]. intros _.
  assert (Hs : fst (f s packet) = false -> snd (f s packet) = s).
  { destruct (command packet), server; cbn [handlers] in Hf; try discriminate Hf;
      try congruence; injection Hf as <-;
      try (intros _; reflexivity);
      first
        [ apply (hub_rejection HHoldApply) | apply (hub_rejection HInitialized)
        | apply (hub_rejection HCreatedA) | apply (hub_rejection HCreatedB)
        | apply (hub_rejection HConfirmedA) | apply (hub_rejection HConfirmedB)
        | apply on_app_rejection;
          first
            [ apply (trader_rejection env HPendingTransaction)
            | apply (trader_rejection env HTransactionHold)
            | apply (trader_rejection env HTransactionInit)
            | apply (trader_rejection env HTransactionCreateA)
            | apply (trader_rejection env HTransactionCreateB)
            | apply (trader_rejection env HTransactionConfirmA)
            | apply (trader_rejection env HTransactionConfirmB)
            | apply (trader_rejection env HTransactionCancel)
            | apply (trader_rejection env HTransactionFinished) ] ]. }
  rewrite E in Hs. apply Hs. reflexivity.
Qed.

Lemma hub_verdict (h : HubHandler) (s : HubState) (packet : Packet) :
  fst (run_hub env h s packet) = takes (hub_command_of h) (size packet).
Proof.
  assert (Hle : forall a b, (a <=? b) = true -> (b <? a) = false).
  { intros a b E. apply Z.ltb_ge. apply Z.leb_le in E. exact E. }
  assert (Hgt : forall a b, (a <=? b) = false -> (b <? a) = true).
  { intros a b E. apply Z.ltb_lt. apply Z.leb_gt in E. exact E. }
  assert (Hrange : forall n, (n <=? 52) || (1000 <? n) = negb ((52 <? n) && (n <=? 1000))).
  { intros n. destruct (n <=? 52) eqn:E1, (1000 <? n) eqn:E2, (52 <? n) eqn:E3,
      (n <=? 1000) eqn:E4; try reflexivity; exfalso;
      rewrite ?Z.leb_le, ?Z.leb_gt, ?Z.ltb_lt, ?Z.ltb_ge in *; lia. }
  destruct h; cbn [run_hub hub_command_of takes];
    [ unfold processTransactionHoldApply
    | unfold processTransactionInitialized
    | unfold processTransactionCreatedA
    | unfold processTransactionCreatedB
    | unfold processTransactionConfirmedA
    | unfold processTransactionConfirmedB ];
    rewrite ?Hrange;
    match goal with
       | |- context [size packet =? ?n] => destruct (size packet =? n) eqn:Hs
       | |- context [(52 <? size packet) && (size packet <=? 1000)] =>
         destruct ((52 <? size packet) && (size packet <=? 1000)) eqn:Hs
       | |- context [size packet <=? ?n] =>
         destruct (size packet <=? n) eqn:Hs;
         [apply Hle in Hs|apply Hgt in Hs]; rewrite Hs
    end; cbn [negb];
    repeat break_match; reflexivity.
Qed.

(** X21: a session of the Hub answers false to a packet that follows an
    accepted order exactly when the size of the packet is wrong; then, and
    only then, it calls [DoS] when the caller gave a validation state, and
    the level of the call is 0: the call marks the packet as invalid and
    adds nothing to the score of the peer. *)
Theorem hub_rejects_only_a_wrong_size (h : HubHandler) (state : bool) (s : HubState)
  (packet : Packet) :
  command packet = hub_command_of h ->
  let o := processPacket env true state s packet in
  returned o = takes (command packet) (size packet) /\
  dos o = if state && negb (takes (command packet) (size packet)) then Some 0 else None.
Proof.
  intros Hc. cbv zeta. unfold processPacket. cbn [decryptPacket negb]. rewrite Hc.
  pose proof (hub_verdict h s packet) as Hv.
  destruct h; cbn [hub_command_of handlers run_hub] in *;
    match goal with
    | |- context [let '(ok, s) := ?r in _] => destruct r as [ok s'] eqn:Hr
    end; cbn [fst] in Hv; rewrite <- Hv;
    destruct ok; cbn [negb returned dos]; split; try reflexivity;
    destruct state; reflexivity.
Qed.

End Dispatch.

Section Wire.
Context `{DoubleOps} `{PacketOps} `{Constants} `{!ExchangeOps} `{!HubOps}.
Variable env : Env.
Import XBridgePacket.

Lemma sent_app (l l' : list Event) : sent (l ++ l') = sent l ++ sent l'.
Proof. unfold sent. apply flat_map_app. Qed.

Lemma fits_refl (w : World) : fits_since w w.
Proof. exists []. split; [symmetry; apply app_nil_r|constructor]. Qed.

Lemma fits_trans (w1 w2 w3 : World) :
  fits_since w1 w2 -> fits_since w2 w3 -> fits_since w1 w3.
Proof.
  intros (l1 & E1 & F1) (l2 & E2 & F2). exists (l1 ++ l2). split.
  - rewrite E2, E1, app_assoc. reflexivity.
  - apply Forall_app. split; assumption.
Qed.

Lemma fits_same (w w1 w2 : World) :
  sent (trace w2) = sent (trace w1) -> fits_since w w1 -> fits_since w w2.
Proof. intros E (l & E1 & F). exists l. rewrite E. split; assumption. Qed.

Lemma fits_send (w w1 : World) (dest : bytes) (p : Packet) :
  fit p -> fits_since w w1 -> fits_since w (sendPacket dest p w1).
Proof.
  intros Hp (l & E & F). exists (l ++ [p]). split.
  - cbn [sendPacket emit trace]. rewrite sent_app, E, app_assoc. reflexivity.
  - apply Forall_app. split; [exact F|]. constructor; [exact Hp|constructor].
Qed.

Lemma fits_broadcast (w w1 : World) (p : Packet) :
  fit p -> fits_since w w1 -> fits_since w (sendPacketBroadcast p w1).
Proof.
  intros Hp (l & E & F). exists (l ++ [p]). split.
  - cbn [sendPacketBroadcast emit trace]. rewrite sent_app, E, app_assoc. reflexivity.
  - apply Forall_app. split; [exact F|]. constructor; [exact Hp|constructor].
Qed.

Lemma sent_emit_other (e : Event) (w : World) :
  sent [e] = [] -> sent (trace (emit e w)) = sent (trace w).
Proof. intros He. cbn [emit trace]. rewrite sent_app, He. apply app_nil_r. Qed.

(** Sizes *)
Lemma size_append (v : bytes) (p : Packet) :
  size (append v p) = size p + Z.of_nat (length v).
Proof. unfold size, append. cbn [data]. rewrite length_app. lia. Qed.

Lemma size_sign (a b : bytes) (p : Packet) : size (sign a b p) = size p.
Proof. reflexivity. Qed.

Lemma size_newPacket (c : XBridgeCommand) : size (newPacket c) = 0.
Proof. reflexivity. Qed.

Lemma command_append (v : bytes) (p : Packet) : command (append v p) = command p.
Proof. reflexivity. Qed.

Lemma command_sign (a b : bytes) (p : Packet) : command (sign a b p) = command p.
Proof. reflexivity. Qed.

Lemma length_Z_to_le (n : nat) (z : Z) : length (Z_to_le n z) = n.
Proof. revert z. induction n as [|n IH]; intros z; cbn; [reflexivity|]. rewrite IH. reflexivity. Qed.

Lemma length_list_byte_of_string' (s : string) :
  length (list_byte_of_string s) = String.length s.
Proof.
  unfold list_byte_of_string. rewrite length_map.
  induction s as [|a s IH]; cbn; congruence.
Qed.

Lemma length_bytes_at (off len : nat) (d : bytes) :
  (off + len <= length d)%nat -> length (bytes_at off len d) = len.
Proof.
  intros Hl. unfold bytes_at. rewrite length_firstn, length_skipn. lia.
Qed.

Lemma length_currencyField (c : string) : length (currencyField c) = 8%nat.
Proof.
  unfold currencyField. rewrite length_firstn, length_app, repeat_length. lia.
Qed.

Lemma size_append_hash (h : bytes) (p : Packet) :
  (hashSize <= length h)%nat -> size (append_hash h p) = size p + 32.
Proof.
  intros Hl. unfold append_hash. rewrite size_append, length_firstn.
  unfold hashSize in *. lia.
Qed.

Lemma size_append_uint32 (z : Z) (p : Packet) : size (append_uint32 z p) = size p + 4.
Proof. unfold append_uint32. rewrite size_append, length_Z_to_le. lia. Qed.

Lemma size_append_uint64 (z : Z) (p : Packet) : size (append_uint64 z p) = size p + 8.
Proof. unfold append_uint64. rewrite size_append, length_Z_to_le. lia. Qed.

Lemma size_append_string (s : string) (p : Packet) :
  size (append_string s p) = size p + Z.of_nat (String.length s) + 1.
Proof.
  unfold append_string. rewrite size_append, length_app, length_list_byte_of_string'.
  cbn [length]. lia.
Qed.

Lemma command_append_hash h p : command (append_hash h p) = command p.
Proof. reflexivity. Qed.
Lemma command_append_uint32 z p : command (append_uint32 z p) = command p.
Proof. reflexivity. Qed.
Lemma command_append_uint64 z p : command (append_uint64 z p) = command p.
Proof. reflexivity. Qed.
Lemma command_append_string s p : command (append_string s p) = command p.
Proof. reflexivity. Qed.

End Wire.

Hint Rewrite @size_sign @size_newPacket @size_append_uint32 @size_append_uint64
  @size_append_string @size_append @command_sign @command_append @command_append_hash
  @command_append_uint32 @command_append_uint64 @command_append_string : sizes.

Section TraderWire.
Context `{DoubleOps} `{PacketOps} `{Constants} `{!ExchangeOps} `{!HubOps}.
Variable env : Env.
Import XBridgePacket.

Ltac peel :=
  match goal with
  | |- fits_since _ (store _ _ ?W) => apply (fits_same _ W); [reflexivity|]
  | |- fits_since _ (processLater _ _ ?W) => apply (fits_same _ W); [reflexivity|]
  | |- fits_since _ (removePackets _ ?W) => apply (fits_same _ W); [reflexivity|]
  | |- fits_since _ (unlockCoins _ _ ?W) => apply (fits_same _ W); [reflexivity|]
  | |- fits_since _ (unlockFeeUtxos _ ?W) => apply (fits_same _ W); [reflexivity|]
  | |- fits_since _ (watchForSpentDeposit _ ?W) => apply (fits_same _ W); [reflexivity|]
  | |- fits_since _ (unwatchSpentDeposit _ ?W) => apply (fits_same _ W); [reflexivity|]
  | |- fits_since _ (set_exchange _ ?W) => apply (fits_same _ W); [reflexivity|]
  | |- fits_since _ (appendTransaction _ ?W) => apply (fits_same _ W); [reflexivity|]
  | |- fits_since _ (moveTransactionToHistory ?k ?W) =>
    apply (fits_same _ W); [apply (f_equal sent); apply dep_moveTransactionToHistory|]
  | |- fits_since _ (cancel _ _ _ _ ?W) =>
    apply (fits_same _ W); [apply (f_equal sent); apply dep_cancel|]
  | |- fits_since _ (emit (NotifyXBridgeTransactionChanged _) ?W) =>
    apply (fits_same _ W); [apply sent_emit_other; reflexivity|]
  | |- fits_since _ (emit (NotifyXBridgeTransactionReceived _) ?W) =>
    apply (fits_same _ W); [apply sent_emit_other; reflexivity|]
  | |- fits_since _ (emit (SendRawTransaction _ _) ?W) =>
    apply (fits_same _ W); [apply sent_emit_other; reflexivity|]
  | |- fits_since _ (emit (CreateDepositTransaction _ _ _) ?W) =>
    apply (fits_same _ W); [apply sent_emit_other; reflexivity|]
  | |- fits_since _ (emit (StoreDataIntoBlockchain _) ?W) =>
    apply (fits_same _ W); [apply sent_emit_other; reflexivity|]
  | |- fits_since ?w ?w => apply fits_refl
  end.

Lemma sent_redeemOrderDeposit (xtx : TransactionDescr) (ec : Z) (w : World) :
  sent (trace (snd (redeemOrderDeposit env xtx ec w))) = sent (trace w).
Proof.
  unfold redeemOrderDeposit. repeat break_match; cbn [snd]; try reflexivity;
    cbn [emit trace]; rewrite ?sent_app; cbn [sent flat_map List.app]; rewrite ?app_nil_r;
    reflexivity.
Qed.

(** The cancel of the Hub: one packet of 36 bytes. *)
Lemma fits_sendCancelTransaction_hub (tx : HubOrder) (r : Z) (w0 w : World) :
  (hashSize <= length (tr_id tx))%nat ->
  fits_since w0 w ->
  fits_since w0 (snd (sendCancelTransaction_hub tx r w)).
Proof.
  intros Hl Hw. unfold sendCancelTransaction_hub. break_match; cbn [snd]; [exact Hw|].
  apply fits_broadcast; [|peel; exact Hw].
  unfold fit. autorewrite with sizes. rewrite size_append_hash by exact Hl.
  autorewrite with sizes. reflexivity.
Qed.

Lemma fits_processTransactionCancel (w0 w : World) (packet : Packet) :
  (forall tx : HubOrder, (hashSize <= length (tr_id tx))%nat) \/
  isStarted (exchange w) = false ->
  fits_since w0 w ->
  fits_since w0 (snd (processTransactionCancel env w packet)).
Proof.
  intros Hside Hw. unfold processTransactionCancel.
  repeat break_match; cbn [snd fst]; repeat peel; try exact Hw.
  all: try match goal with E : sendCancelTransaction_hub ?a ?b ?c = _ |- _ =>
      destruct Hside as [Hl|He]; [|congruence];
      pose proof (fits_sendCancelTransaction_hub a b w0 c (Hl a) Hw) as Hc;
      rewrite E in Hc; exact Hc end.
  all: match goal with E : redeemOrderDeposit _ ?a ?b ?c = _ |- _ =>
      pose proof (sent_redeemOrderDeposit a b c) as Hc; rewrite E in Hc;
      cbn [snd] in Hc; apply (fits_same _ _ _ Hc); repeat peel; exact Hw end.
Qed.

Lemma fits_cancelOrder (txid : bytes) (xtx : TransactionDescr) (r : TxCancelReason)
  (w0 w : World) :
  isStarted (exchange w) = false ->
  (hashSize <= length (id xtx))%nat ->
  fits_since w0 w ->
  fits_since w0 (snd (cancelOrder env txid xtx r w)).
Proof.
  intros He Hl Hw. unfold cancelOrder, sendCancelTransaction.
  match goal with |- context [processTransactionCancel env ?W ?p] =>
    pose proof (fits_processTransactionCancel w0 W p) as Hc;
    destruct (processTransactionCancel env W p) as [b w1] end.
  cbn [snd] in *. peel. apply fits_broadcast.
  - unfold fit. autorewrite with sizes. rewrite size_append_hash by exact Hl.
    autorewrite with sizes. reflexivity.
  - apply Hc; [right; exact He|]. peel. exact Hw.
Qed.

Lemma fits_acceptorFee (txid : bytes) (xtx : TransactionDescr) (packet : Packet)
  (w0 w : World) :
  isStarted (exchange w) = false ->
  (hashSize <= length (id xtx))%nat ->
  (forall s, length (uint256S env s) = hashSize) ->
  fits_since w0 w ->
  match acceptorFee env txid xtx packet w with
  | inl r => fits_since w0 (snd r)
  | inr (f, W) => length f = hashSize /\ fits_since w0 W /\ exchange W = exchange w
  end.
Proof.
  intros He Hl Hu Hw.
  destruct (acceptorFee env txid xtx packet w) as [r|[f W]] eqn:E;
    revert E; unfold acceptorFee; repeat break_match; intros [= <-]; subst;
    cbn [snd]; repeat peel; try exact Hw.
  - apply fits_cancelOrder; [exact He|exact Hl|]. repeat peel. exact Hw.
  - split; [apply Hu|]. split; [|reflexivity]. repeat peel. exact Hw.
  - split; [reflexivity|]. split; [exact Hw|reflexivity].
Qed.

Lemma fits_refundTx (conn : WalletConnector) (txid : bytes) (xtx : TransactionDescr)
  (o f : double) (w0 w : World) (r : bool * World) :
  isStarted (exchange w) = false ->
  (hashSize <= length (id xtx))%nat ->
  fits_since w0 w ->
  refundTx env conn txid xtx o f w = inl r ->
  fits_since w0 (snd r).
Proof.
  intros He Hl Hw. unfold refundTx.
  repeat break_match; intros [= <-]; apply fits_cancelOrder; auto.
Qed.

Lemma findSecret_wire (conn : WalletConnector) (xtx x1 : TransactionDescr) (w w1 : World) :
  findSecret conn xtx w = Some (x1, w1) ->
  sent (trace w1) = sent (trace w) /\ exchange w1 = exchange w /\ id x1 = id xtx.
Proof.
  unfold findSecret. repeat break_match; intros [= <- <-]; auto.
Qed.

Lemma redeemOrderCounterpartyDeposit_wire (xtx : TransactionDescr) (ec : Z) (w : World)
  (done : bool) (ec' : Z) (x' : TransactionDescr) (w' : World) :
  (forall c conn i o a b s u, connectorByCurrency env c = Some conn ->
     (String.length (fst (snd (createPaymentTransaction conn i o a b s u))) <= 947)%nat) ->
  redeemOrderCounterpartyDeposit env xtx ec w = (done, ec', x', w') ->
  sent (trace w') = sent (trace w) /\ exchange w' = exchange w /\ id x' = id xtx /\
  (done = true -> (String.length (payTxId x') <= 947)%nat).
Proof.
  intros Hpay. unfold redeemOrderCounterpartyDeposit.
  repeat break_match; intros [= <- <- <- <-];
    try match goal with E : findSecret _ _ _ = Some _ |- _ =>
      apply findSecret_wire in E; destruct E as (E1 & E2 & E3) end;
    cbn [emit trace exchange]; rewrite ?sent_app; cbn [sent flat_map List.app];
    rewrite ?app_nil_r;
    (split; [assumption || reflexivity|]); (split; [assumption || reflexivity|]);
    (split; [assumption || reflexivity|]); try discriminate; intros _;
    cbn [payTxId counterpartyDepositRedeemed set_counterpartyRedeemed set_payTx set_payTxId];
    match goal with
    | Hc : connectorByCurrency env _ = Some ?conn,
      E : createPaymentTransaction ?conn ?i ?o ?a ?b ?s ?u = _ |- _ =>
      pose proof (Hpay _ conn i o a b s u Hc) as Hb; rewrite E in Hb; exact Hb
    end.
Qed.

End TraderWire.

Section TraderWire2.
Context `{DoubleOps} `{PacketOps} `{Constants} `{!ExchangeOps} `{!HubOps}.
Variable env : Env.
Import XBridgePacket.

Ltac peel :=
  match goal with
  | |- fits_since _ (store _ _ ?W) => apply (fits_same _ W); [reflexivity|]
  | |- fits_since _ (processLater _ _ ?W) => apply (fits_same _ W); [reflexivity|]
  | |- fits_since _ (removePackets _ ?W) => apply (fits_same _ W); [reflexivity|]
  | |- fits_since _ (unlockCoins _ _ ?W) => apply (fits_same _ W); [reflexivity|]
  | |- fits_since _ (unlockFeeUtxos _ ?W) => apply (fits_same _ W); [reflexivity|]
  | |- fits_since _ (watchForSpentDeposit _ ?W) => apply (fits_same _ W); [reflexivity|]
  | |- fits_since _ (unwatchSpentDeposit _ ?W) => apply (fits_same _ W); [reflexivity|]
  | |- fits_since _ (set_exchange _ ?W) => apply (fits_same _ W); [reflexivity|]
  | |- fits_since _ (appendTransaction _ ?W) => apply (fits_same _ W); [reflexivity|]
  | |- fits_since _ (moveTransactionToHistory ?k ?W) =>
    apply (fits_same _ W); [apply (f_equal sent); apply dep_moveTransactionToHistory|]
  | |- fits_since _ (cancel _ _ _ _ ?W) =>
    apply (fits_same _ W); [apply (f_equal sent); apply dep_cancel|]
  | |- fits_since _ (emit (NotifyXBridgeTransactionChanged _) ?W) =>
    apply (fits_same _ W); [apply sent_emit_other; reflexivity|]
  | |- fits_since _ (emit (NotifyXBridgeTransactionReceived _) ?W) =>
    apply (fits_same _ W); [apply sent_emit_other; reflexivity|]
  | |- fits_since _ (emit (SendRawTransaction _ _) ?W) =>
    apply (fits_same _ W); [apply sent_emit_other; reflexivity|]
  | |- fits_since _ (emit (CreateDepositTransaction _ _ _) ?W) =>
    apply (fits_same _ W); [apply sent_emit_other; reflexivity|]
  | |- fits_since _ (emit (StoreDataIntoBlockchain _) ?W) =>
    apply (fits_same _ W); [apply sent_emit_other; reflexivity|]
  | |- fits_since ?w ?w => apply fits_refl
  end.

(** What the tests of a handler say of the size of the body. *)
Ltac size_facts :=
  repeat match goal with
         | E : negb (size _ =? _) = false |- _ =>
           apply negb_false_iff in E; apply Z.eqb_eq in E
         | E : (size _ <=? _) = false |- _ => apply Z.leb_gt in E
         | E : (_ <? size _) = false |- _ => apply Z.ltb_ge in E
         | E : (_ || _) = false |- _ =>
           apply orb_false_iff in E; let E1 := fresh E in destruct E as [E E1]
         end.

Ltac order_facts Hkey Hfrom :=
  try match goal with E : m_transactions _ !! _ = Some ?t |- _ =>
        let Hid := fresh "Hid" in let Hlen := fresh "Hlen" in
        pose proof (Hkey _ _ E) as [Hid Hlen];
        pose proof (Hfrom _ _ E)
      end;
  try match goal with
      | E : negb (isLocal ?t) = false, Hf : isLocal ?t = true -> _ |- _ =>
        apply negb_false_iff in E; specialize (Hf E)
      end.

Ltac fit_packet :=
  unfold fit; autorewrite with sizes;
  rewrite ?size_append_hash by (simpl; unfold hashSize in *; lia);
  autorewrite with sizes;
  rewrite ?length_bytes_at by (unfold size, addressSize, hashSize in *; lia);
  cbn [takes];
  first [ apply Z.eqb_eq | apply Z.ltb_lt
        | apply andb_true_iff; split; [apply Z.ltb_lt|apply Z.leb_le] ];
  unfold addressSize, hashSize in *;
  repeat match goal with
         | Hk : forall c conn key, _ -> length (getKeyId conn key) = _,
           Hc : connectorByCurrency _ _ = Some ?conn
           |- context [length (getKeyId ?conn ?key)] =>
           rewrite (Hk _ conn key Hc)
         end;
  try lia.

Ltac id_length :=
  descr_simpl;
  repeat match goal with Hri : id _ = id _ |- _ => rewrite Hri end;
  match goal with Hid : id ?t = ?k, Hlen : length ?k = _ |- _ =>
    rewrite Hid, Hlen; unfold hashSize; lia end.

Ltac use_blocks He Huint Hpay :=
  repeat match goal with
  | E : acceptorFee _ ?txid ?x ?p ?w = _ |- _ =>
    let Hb := fresh "Hb" in
    assert (Hb := fits_acceptorFee _ txid x p w w He ltac:(id_length) Huint (fits_refl w));
    rewrite E in Hb; cbn [snd] in Hb; clear E
  | E : refundTx ?e ?c ?t ?x ?o ?f ?w = inr _ |- _ =>
    let Hr := fresh "Hr" in
    pose proof (refundTx_effect e c t x o f w) as Hr; rewrite E in Hr;
    let Hri := fresh "Hri" in
    destruct Hr as (Hri & _ & _); simpl in Hri; clear E
  | E : redeemOrderCounterpartyDeposit _ _ _ _ = _ |- _ =>
    apply (redeemOrderCounterpartyDeposit_wire _ _ _ _ _ _ _ _ Hpay) in E;
    let Hsent := fresh "Hsent" in let Hex := fresh "Hex" in
    let Hri := fresh "Hri" in let Hdone := fresh "Hdone" in
    destruct E as (Hsent & Hex & Hri & Hdone); simpl in Hri
  end;
  try match goal with
      | Hd : ?b = true -> _, E : negb ?b = false |- _ =>
        apply negb_false_iff in E; specialize (Hd E)
      end.

Ltac wire He :=
  repeat first
    [ peel
    | assumption
    | apply fits_send; [fit_packet|]
    | apply fits_cancelOrder;
      [ first [ exact He
              | match goal with Hex : exchange ?W = exchange _ |- _ =>
                  rewrite Hex; exact He end ]
      | id_length | ]
    | match goal with
      | Hs : sent (trace ?W) = sent (trace ?w0) |- fits_since _ ?W =>
        apply (fits_same _ w0 W Hs)
      end
    | match goal with
      | E : refundTx _ _ _ _ _ _ _ = inl ?r |- fits_since _ (snd ?r) =>
        eapply fits_refundTx; [ | | |exact E]; [exact He|id_length|]
      | Hb : _ /\ fits_since _ _ /\ _ |- _ => destruct Hb as (? & ? & ?)
      end ].

Lemma fits_trader_handler (h : TraderHandler) (w : World) (packet : Packet) :
  trader_wf env w -> isStarted (exchange w) = false ->
  fits_since w (snd (run env h w packet)).
Proof.
  intros (Hkey & Hfrom & Huint & Hkeyid & Hpay) He.
  destruct h; cbn [run].
  - unfold processPendingTransaction. break_all; cbn [snd]; repeat peel.
  - unfold processTransactionHold, xapp_transaction. break_all; cbn [snd].
    all: size_facts; order_facts Hkey Hfrom; wire He.
  - unfold processTransactionInit, xapp_transaction. break_all; cbn [snd].
    all: size_facts; order_facts Hkey Hfrom; use_blocks He Huint Hpay; wire He.
  - unfold processTransactionCreateA, xapp_transaction. break_all; cbn [snd].
    all: size_facts; order_facts Hkey Hfrom; use_blocks He Huint Hpay; wire He.
  - unfold processTransactionCreateB, xapp_transaction. break_all; cbn [snd].
    all: size_facts; order_facts Hkey Hfrom; use_blocks He Huint Hpay; wire He.
  - unfold processTransactionConfirmA, xapp_transaction. break_all; cbn [snd].
    all: size_facts; order_facts Hkey Hfrom; use_blocks He Huint Hpay; wire He.
  - unfold processTransactionConfirmB, xapp_transaction. break_all; cbn [snd].
    all: size_facts; order_facts Hkey Hfrom; use_blocks He Huint Hpay; wire He.
  - apply fits_processTransactionCancel; [right; exact He|apply fits_refl].
  - unfold processTransactionFinished, xapp_transaction. break_all; cbn [snd].
    all: wire He.
Qed.

End TraderWire2.

Lemma length_cstr (d : bytes) : (length (cstr d) <= length d)%nat.
Proof.
  induction d as [|b r IH]; cbn [cstr length]; [lia|].
  destruct (decide (b = x00)); cbn [length]; lia.
Qed.

Lemma length_string_of_list_byte' (l : bytes) :
  String.length (string_of_list_byte l) = length l.
Proof.
  unfold string_of_list_byte.
  induction l as [|a l IH]; cbn; congruence.
Qed.

Lemma length_string_at (off : nat) (d : bytes) :
  (String.length (string_at off d) <= length d - off)%nat.
Proof.
  unfold string_at. rewrite length_string_of_list_byte'.
  pose proof (length_cstr (skipn off d)) as Hc. rewrite length_skipn in Hc. exact Hc.
Qed.


Section HubWire.
Context `{DoubleOps} `{PacketOps} `{Constants} `{!ExchangeOps} `{!HubOps}.
Variable env : Env.
Import XBridgePacket.

Lemma wf_me : hub_wf env -> length (m_myid env) = addressSize.
Proof. intros Hwf. apply Hwf. Qed.

Lemma wf_id (tr : HubOrder) : hub_wf env -> length (tr_id tr) = hashSize.
Proof. intros Hwf. apply Hwf. Qed.

Lemma wf_blockHash (tr : HubOrder) : hub_wf env -> length (tr_blockHash tr) = hashSize.
Proof. intros Hwf. apply Hwf. Qed.

Lemma wf_on_hold (tr : HubOrder) :
  hub_wf env -> tr_state tr = Transaction.trHold ->
  length (a_address tr) = addressSize /\ length (b_address tr) = addressSize /\
  length (a_destination tr) = addressSize /\ length (b_destination tr) = addressSize.
Proof. intros Hwf. apply Hwf. Qed.

Lemma wf_initialized (tr : HubOrder) :
  hub_wf env -> tr_state tr = Transaction.trInitialized ->
  length (a_pk1 tr) = pubkeySize /\ length (b_pk1 tr) = pubkeySize.
Proof. intros Hwf. apply Hwf. Qed.

(** The key of the maker after the steps of [processTransactionCreatedA]. *)
Lemma wf_key_kept (l : Z) (i r b : string) (a : bytes) (tr tr1 tr2 tr3 tr4 : HubOrder)
  (e e1 e2 e3 e4 : Exchange) (bad : bool) :
  hub_wf env ->
  a_setLockTime l tr e = (tr1, e1) ->
  a_setRefundTx i r tr1 e1 = (tr2, e2) ->
  tr_updateTimestamp tr2 e2 = (tr3, e3) ->
  updateTransactionWhenCreatedReceived tr3 a b e3 = (bad, (tr4, e4)) ->
  a_pk1 tr4 = a_pk1 tr.
Proof.
  intros (_ & _ & _ & _ & Hlock & Hrefund & Htime & Hcreated & _) E1 E2 E3 E4.
  rewrite <- (Hlock l tr e), E1. cbn [fst].
  rewrite <- (Hrefund i r tr1 e1), E2. cbn [fst].
  rewrite <- (Htime tr2 e2), E3. cbn [fst].
  rewrite <- (Hcreated tr3 a b e3), E4. reflexivity.
Qed.

(** The id of the payment of the maker after the steps of
    [processTransactionConfirmedA]. *)
Lemma wf_payment_set (p : string) (a : bytes) (tr1 tr2 tr3 : HubOrder)
  (e1 e2 e3 : Exchange) (r : bool) :
  hub_wf env ->
  a_setPayTxId p tr1 e1 = (tr2, e2) ->
  updateTransactionWhenConfirmedReceived tr2 a e2 = (r, (tr3, e3)) ->
  a_payTxId tr3 = p.
Proof.
  intros (_ & _ & _ & _ & _ & _ & _ & _ & Hpay & Hconfirmed) E1 E2.
  rewrite <- (Hpay p tr1 e1), E1. cbn [fst].
  rewrite <- (Hconfirmed tr2 a e2), E2. reflexivity.
Qed.

Ltac peel :=
  match goal with
  | |- fits_since _ (store _ _ ?W) => apply (fits_same _ W); [reflexivity|]
  | |- fits_since _ (set_exchange _ ?W) => apply (fits_same _ W); [reflexivity|]
  | |- fits_since _ (emit (NotifyXBridgeTransactionChanged _) ?W) =>
    apply (fits_same _ W); [apply sent_emit_other; reflexivity|]
  | |- fits_since _ (emit (NotifyXBridgeTransactionReceived _) ?W) =>
    apply (fits_same _ W); [apply sent_emit_other; reflexivity|]
  | |- fits_since _ (moveTransactionToHistory ?k ?W) =>
    apply (fits_same _ W); [apply (f_equal sent); apply dep_moveTransactionToHistory|]
  | |- fits_since ?w ?w => apply fits_refl
  end.

Ltac size_facts :=
  repeat match goal with
         | E : negb (size _ =? _) = false |- _ =>
           apply negb_false_iff in E; apply Z.eqb_eq in E
         | E : (size _ <=? _) = false |- _ => apply Z.leb_gt in E
         | E : (size _ <? _) = false |- _ => apply Z.ltb_ge in E
         | E : (_ <? size _) = false |- _ => apply Z.ltb_ge in E
         | E : (_ || _) = false |- _ =>
           apply orb_false_iff in E; let E1 := fresh E in destruct E as [E E1]
         end.

(** What the guards of a handler tell of the state of the order. *)
Ltac state_facts :=
  repeat match goal with
         | E : negb (bool_decide (tr_state _ = _)) = false |- _ =>
           apply negb_false_iff in E; apply bool_decide_eq_true_1 in E
         | E : _ && bool_decide (tr_state _ = _) = true |- _ =>
           apply andb_true_iff in E; destruct E as [_ E];
           apply bool_decide_eq_true_1 in E
         end.

Ltac order_lengths Hwf :=
  repeat match goal with
         | |- context [length (tr_id ?t)] => rewrite (wf_id t Hwf)
         | |- context [length (tr_blockHash ?t)] => rewrite (wf_blockHash t Hwf)
         | Hs : tr_state ?t = Transaction.trHold |- context [length (a_address ?t)] =>
           rewrite (proj1 (wf_on_hold t Hwf Hs))
         | Hs : tr_state ?t = Transaction.trHold |- context [length (b_address ?t)] =>
           rewrite (proj1 (proj2 (wf_on_hold t Hwf Hs)))
         | Hs : tr_state ?t = Transaction.trHold
           |- context [length (a_destination ?t)] =>
           rewrite (proj1 (proj2 (proj2 (wf_on_hold t Hwf Hs))))
         | Hs : tr_state ?t = Transaction.trHold
           |- context [length (b_destination ?t)] =>
           rewrite (proj2 (proj2 (proj2 (wf_on_hold t Hwf Hs))))
         | E1 : a_setLockTime _ _ _ = _, E2 : a_setRefundTx _ _ _ _ = _,
           E3 : tr_updateTimestamp _ _ = _,
           E4 : updateTransactionWhenCreatedReceived _ _ _ _ = (_, (?t, _))
           |- context [length (a_pk1 ?t)] =>
           rewrite (wf_key_kept _ _ _ _ _ _ _ _ _ _ _ _ _ _ _ _ Hwf E1 E2 E3 E4)
         | Hs : tr_state ?t = Transaction.trInitialized |- context [length (a_pk1 ?t)] =>
           rewrite (proj1 (wf_initialized t Hwf Hs))
         | Hs : tr_state ?t = Transaction.trInitialized |- context [length (b_pk1 ?t)] =>
           rewrite (proj2 (wf_initialized t Hwf Hs))
         | E1 : a_setPayTxId _ _ _ = _,
           E2 : updateTransactionWhenConfirmedReceived _ _ _ = (_, (?t, _))
           |- context [String.length (a_payTxId ?t)] =>
           rewrite (wf_payment_set _ _ _ _ _ _ _ _ _ Hwf E1 E2)
         end.

Ltac fit_packet Hwf :=
  unfold fit, initPacket, pendingPacket;
  repeat first
    [ progress autorewrite with sizes
    | rewrite size_append_hash
        by first [ rewrite (wf_id _ Hwf); unfold hashSize; lia
                 | rewrite (wf_blockHash _ Hwf); unfold hashSize; lia
                 | rewrite length_bytes_at; unfold size, hashSize in *; lia ] ];
  rewrite ?length_bytes_at by (unfold size, addressSize, hashSize in *; lia);
  rewrite ?length_currencyField, ?(wf_me Hwf);
  order_lengths Hwf;
  cbn [takes];
  first [ apply Z.eqb_eq | apply Z.ltb_lt
        | apply andb_true_iff; split; [apply Z.ltb_lt|apply Z.leb_le] ];
  unfold size, addressSize, hashSize, pubkeySize in *; try lia.

Lemma fits_sendTransaction (txid : bytes) (w0 w : World) :
  hub_wf env -> fits_since w0 w -> fits_since w0 (sendTransaction env txid w).
Proof.
  intros Hwf Hw. unfold sendTransaction.
  repeat break_match; try exact Hw.
  apply fits_broadcast; [|exact Hw]. fit_packet Hwf.
Qed.

Lemma fits_sendListOfTransactions (w : World) :
  hub_wf env -> fits_since w (sendListOfTransactions env w).
Proof.
  intros Hwf. unfold sendListOfTransactions.
  break_match; [apply fits_refl|].
  generalize (exchange w) at 1 as e0. intros e0.
  assert (Hgen : forall l W, fits_since w W ->
            fits_since w (fold_left (fun w ptr => sendPacketBroadcast (pendingPacket env e0 ptr) w) l W)).
  { induction l as [|x l IH]; intros W HW; cbn [fold_left]; [exact HW|].
    apply IH. apply fits_broadcast; [|exact HW]. fit_packet Hwf. }
  apply Hgen. apply fits_refl.
Qed.

Ltac cancel_hub Hwf :=
  match goal with
  | E : sendCancelTransaction_hub ?a ?b ?c = (_, ?W) |- fits_since ?w0 ?W =>
    let Hc := fresh "Hc" in
    assert (Hc : fits_since w0 (snd (sendCancelTransaction_hub a b c)));
    [ apply fits_sendCancelTransaction_hub;
      [rewrite (wf_id a Hwf); unfold hashSize; lia|]
    | rewrite E in Hc; exact Hc ]
  end.

Ltac wire Hwf :=
  cbn [snd xapp with_app watchTraderDeposit unwatchTraderDeposit];
  repeat first
    [ peel
    | apply fits_send; [fit_packet Hwf|]
    | apply fits_broadcast; [fit_packet Hwf|]
    | apply fits_sendTransaction; [exact Hwf|]
    | cancel_hub Hwf ].

Lemma fits_processTransaction (w : World) (packet : Packet) :
  hub_wf env -> fits_since w (snd (processTransaction env w packet)).
Proof.
  intros Hwf. unfold processTransaction.
  repeat break_match; wire Hwf.
Qed.

Lemma fits_processTransactionAccepting (w : World) (packet : Packet) :
  hub_wf env -> fits_since w (snd (processTransactionAccepting env w packet)).
Proof.
  intros Hwf. unfold processTransactionAccepting.
  repeat break_match; wire Hwf.
Qed.

Lemma fits_hub_handler (h : HubHandler) (s : HubState) (packet : Packet) :
  hub_wf env ->
  (h = HCreatedA -> holds_the_hash packet) ->
  (h = HConfirmedA -> holds_the_payment packet) ->
  fits_since (xapp s) (xapp (snd (run_hub env h s packet))).
Proof.
  intros Hwf Hhx Hpay. unfold holds_the_hash in Hhx. unfold holds_the_payment in Hpay.
  destruct h; cbn [run_hub];
    [ unfold processTransactionHoldApply
    | unfold processTransactionInitialized
    | unfold processTransactionCreatedA; specialize (Hhx eq_refl)
    | unfold processTransactionCreatedB
    | unfold processTransactionConfirmedA; specialize (Hpay eq_refl)
    | unfold processTransactionConfirmedB ];
    repeat break_match; size_facts; state_facts; wire Hwf.
Qed.

End HubWire.

Section WireTheorems.
Context `{DoubleOps} `{PacketOps} `{Constants} `{!ExchangeOps} `{!HubOps}.
Variable env : Env.
Import XBridgePacket.

Lemma fits_on_app (f : World -> Packet -> bool * World) (s : HubState) (packet : Packet) :
  fits_since (xapp s) (snd (f (xapp s) packet)) ->
  fits_since (xapp s) (xapp (snd (on_app f s packet))).
Proof.
  unfold on_app. destruct (f (xapp s) packet) as [r w]. cbn [snd xapp with_app]. auto.
Qed.

(** X13: every packet that the session of a trader sends has a size that
    the handler of the Hub for its command takes. *)
Theorem packets_of_a_trader_fit_the_hub (state : bool) (s : HubState) (packet : Packet) :
  trader_wf env (xapp s) ->
  isStarted (exchange (xapp s)) = false ->
  let s' := after (processPacket env false state s packet) in
  exists l, sent (trace (xapp s')) = sent (trace (xapp s)) ++ l /\
            Forall (fun p => takes (command p) (size p) = true) l.
Proof.
  intros Hwf He. cbv zeta. change (fits_since (xapp s) (xapp (after (processPacket env false state s packet)))).
  unfold processPacket. cbn [decryptPacket negb].
  destruct (command packet); cbn [handlers processInvalid processXChatMessage after];
    try apply fits_refl;
    match goal with
    | |- context [on_app ?f s packet] =>
      pose proof (fits_on_app f s packet) as Hf;
      destruct (on_app f s packet) as [ok s']; cbn [snd] in Hf;
      destruct ok; cbn [negb after]; apply Hf
    end.
  all: first
    [ exact (fits_trader_handler env HPendingTransaction (xapp s) packet Hwf He)
    | exact (fits_trader_handler env HTransactionHold (xapp s) packet Hwf He)
    | exact (fits_trader_handler env HTransactionInit (xapp s) packet Hwf He)
    | exact (fits_trader_handler env HTransactionCreateA (xapp s) packet Hwf He)
    | exact (fits_trader_handler env HTransactionCreateB (xapp s) packet Hwf He)
    | exact (fits_trader_handler env HTransactionConfirmA (xapp s) packet Hwf He)
    | exact (fits_trader_handler env HTransactionConfirmB (xapp s) packet Hwf He)
    | exact (fits_trader_handler env HTransactionCancel (xapp s) packet Hwf He)
    | exact (fits_trader_handler env HTransactionFinished (xapp s) packet Hwf He) ].
Qed.

(** X14: every packet that the session of the Hub sends has a size that
    the handler of a trader for its command takes.  The Hub is well
    formed ([hub_wf]): the ids are of 32 bytes, an order on hold has its
    four addresses and an initialized order its two keys, and the setters
    of an order set what they name and nothing else; a CreatedA packet
    holds the hash of the secret and a ConfirmedA packet the end of the
    id of the payment. *)
Theorem packets_of_the_hub_fit_the_traders (state : bool) (s : HubState) (packet : Packet) :
  hub_wf env ->
  (command packet = xbcTransactionCreatedA -> holds_the_hash packet) ->
  (command packet = xbcTransactionConfirmedA -> holds_the_payment packet) ->
  let s' := after (processPacket env true state s packet) in
  exists l, sent (trace (xapp s')) = sent (trace (xapp s)) ++ l /\
            Forall (fun p => takes (command p) (size p) = true) l.
Proof.
  intros Hwf Hhx Hpay. cbv zeta.
  change (fits_since (xapp s) (xapp (after (processPacket env true state s packet)))).
  unfold processPacket. cbn [decryptPacket negb].
  destruct (command packet) eqn:Hc;
    cbn [handlers processInvalid processXChatMessage after];
    try apply fits_refl;
    try match goal with
    | |- context [on_app ?f s packet] =>
      pose proof (fits_on_app f s packet) as Hf;
      destruct (on_app f s packet) as [ok s']; cbn [snd] in Hf;
      destruct ok; cbn [negb after]; apply Hf
    end.
  all: try (apply fits_processTransaction; exact Hwf).
  all: try (apply fits_processTransactionAccepting; exact Hwf).
  all: try (apply fits_processTransactionCancel; [left; intros tx;
              rewrite (wf_id env tx Hwf); unfold hashSize; lia|apply fits_refl]).
  all: try match goal with
       | |- context [match ?r with pair _ _ => _ end] =>
         destruct r as [ok s'] eqn:Hr; destruct ok; cbn [negb fst after]
       end.
  all: try first
    [ exact (eq_ind _ (fun r => fits_since (xapp s) (xapp (snd r)))
               (fits_hub_handler env HHoldApply s packet Hwf ltac:(discriminate)
                  ltac:(discriminate)) _ Hr)
    | exact (eq_ind _ (fun r => fits_since (xapp s) (xapp (snd r)))
               (fits_hub_handler env HInitialized s packet Hwf ltac:(discriminate)
                  ltac:(discriminate)) _ Hr)
    | exact (eq_ind _ (fun r => fits_since (xapp s) (xapp (snd r)))
               (fits_hub_handler env HCreatedA s packet Hwf (fun _ => Hhx eq_refl)
                  ltac:(discriminate)) _ Hr)
    | exact (eq_ind _ (fun r => fits_since (xapp s) (xapp (snd r)))
               (fits_hub_handler env HCreatedB s packet Hwf ltac:(discriminate)
                  ltac:(discriminate)) _ Hr)
    | exact (eq_ind _ (fun r => fits_since (xapp s) (xapp (snd r)))
               (fits_hub_handler env HConfirmedA s packet Hwf ltac:(discriminate)
                  (fun _ => Hpay eq_refl)) _ Hr)
    | exact (eq_ind _ (fun r => fits_since (xapp s) (xapp (snd r)))
               (fits_hub_handler env HConfirmedB s packet Hwf ltac:(discriminate)
                  ltac:(discriminate)) _ Hr) ].
  all: unfold processTransactionFinished; repeat break_match; cbn [snd];
       repeat first [ apply fits_refl
                    | match goal with
                      | |- fits_since _ (emit (NotifyXBridgeTransactionChanged _) ?W) =>
                        apply (fits_same _ W); [apply sent_emit_other; reflexivity|]
                      | |- fits_since _ (moveTransactionToHistory ?k ?W) =>
                        apply (fits_same _ W);
                        [apply (f_equal sent); apply dep_moveTransactionToHistory|]
                      | |- fits_since _ (store _ _ ?W) =>
                        apply (fits_same _ W); [reflexivity|]
                      end ].
Qed.

End WireTheorems.

Section Codec.
Import XBridgePacket.

Lemma to_N_byte_of_Z (z : Z) : Z.of_N (Byte.to_N (byte_of_Z z)) = z mod 256.
Proof.
  unfold byte_of_Z.
  assert (Hr : 0 <= z mod 256 < 256) by (apply Z.mod_pos_bound; lia).
  destruct (Byte.of_N (Z.to_N (z mod 256))) as [b|] eqn:Hb.
  - apply Byte.to_of_N in Hb. lia.
  - apply Byte.of_N_None_iff in Hb. lia.
Qed.

Lemma le_to_Z_Z_to_le (n : nat) (z : Z) :
  le_to_Z (Z_to_le n z) = z mod 256 ^ Z.of_nat n.
Proof.
  revert z. induction n as [|n IH]; intros z.
  - cbn. rewrite Z.mod_1_r. reflexivity.
  - cbn [Z_to_le le_to_Z]. rewrite to_N_byte_of_Z, IH.
    rewrite Nat2Z.inj_succ, Z.pow_succ_r by lia.
    rewrite Z.rem_mul_r by lia. reflexivity.
Qed.

Lemma bytes_at_here (n : nat) (b r : bytes) :
  length b = n -> bytes_at 0 n (b ++ r) = b.
Proof.
  intros <-. unfold bytes_at. rewrite drop_0.
  rewrite firstn_app, Nat.sub_diag, firstn_all. cbn. apply app_nil_r.
Qed.

Lemma bytes_at_skip (off k n : nat) (a r : bytes) :
  length a = off -> bytes_at (off + k) n (a ++ r) = bytes_at k n r.
Proof.
  intros <-. unfold bytes_at. rewrite skipn_app, skipn_all2 by lia.
  cbn [List.app]. replace (length a + k - length a)%nat with k by lia. reflexivity.
Qed.

Lemma bytes_at_last (n : nat) (b : bytes) : length b = n -> bytes_at 0 n b = b.
Proof. intros <-. unfold bytes_at. rewrite drop_0. apply firstn_all. Qed.

Lemma string_at_skip (off k : nat) (a r : bytes) :
  length a = off -> string_at (off + k) (a ++ r) = string_at k r.
Proof.
  intros <-. unfold string_at. rewrite skipn_app, skipn_all2 by lia.
  cbn [List.app]. replace (length a + k - length a)%nat with k by lia. reflexivity.
Qed.

Lemma cstr_stops (l r : bytes) : ~ In x00 l -> cstr (l ++ x00 :: r) = l.
Proof.
  induction l as [|b l IH]; intros Hn; simpl.
  - destruct (decide (x00 = x00)) as [_|E]; [reflexivity|].
    exfalso. apply E. reflexivity.
  - destruct (decide (b = x00)) as [Hb|_].
    + exfalso. apply Hn. left. exact Hb.
    + f_equal. apply IH. intros Hi. apply Hn. right. exact Hi.
Qed.

Lemma currencyField_short (c : string) :
  (String.length c < 8)%nat ->
  currencyField c =
  list_byte_of_string c ++ x00 :: repeat x00 (7 - String.length c).
Proof.
  intros Hl. unfold currencyField.
  rewrite firstn_app, length_list_byte_of_string'.
  rewrite firstn_all2 by (rewrite length_list_byte_of_string'; lia).
  f_equal. destruct (String.length c) as [|[|[|[|[|[|[|[|n]]]]]]]];
    try reflexivity; lia.
Qed.

Lemma string_at_currencyField (c : string) (r : bytes) :
  short_name c -> string_at 0 (currencyField c ++ r) = c.
Proof.
  intros [Hl Hn]. unfold string_at. rewrite drop_0.
  rewrite currencyField_short by exact Hl.
  rewrite <- app_assoc, <- app_comm_cons. rewrite cstr_stops by exact Hn.
  apply string_of_list_byte_of_string.
Qed.

Lemma uint64_at_here (z : Z) (r : bytes) :
  0 <= z < 2 ^ 64 -> uint64_at 0 (Z_to_le 8 z ++ r) = z.
Proof.
  intros Hz. unfold uint64_at.
  rewrite bytes_at_here by apply length_Z_to_le.
  rewrite le_to_Z_Z_to_le. apply Z.mod_small.
  change (256 ^ Z.of_nat 8) with (2 ^ 64). exact Hz.
Qed.

Lemma uint64_at_skip (off k : nat) (a r : bytes) :
  length a = off -> uint64_at (off + k) (a ++ r) = uint64_at k r.
Proof. intros Ha. unfold uint64_at. rewrite bytes_at_skip by exact Ha. reflexivity. Qed.

Lemma uint64_at_last (z : Z) :
  0 <= z < 2 ^ 64 -> uint64_at 0 (Z_to_le 8 z) = z.
Proof.
  intros Hz. rewrite <- (app_nil_r (Z_to_le 8 z)). apply uint64_at_here. exact Hz.
Qed.

End Codec.

Section RoundTrips.
Context `{DoubleOps} `{PacketOps} `{Constants} `{!ExchangeOps} `{!HubOps}.
Variable env : Env.
Import XBridgePacket.

(** The body of the announcement of a pending order. *)
Lemma pendingPacket_data (hub : Env) (e : Exchange) (tr : HubOrder) :
  length (tr_id tr) = hashSize ->
  length (tr_blockHash tr) = hashSize ->
  data (pendingPacket hub e tr) =
  tr_id tr ++ currencyField (a_currency tr) ++ Z_to_le 8 (a_amount tr) ++
  currencyField (b_currency tr) ++ Z_to_le 8 (b_amount tr) ++ m_myid hub ++
  Z_to_le 8 (createdTime tr) ++ tr_blockHash tr.
Proof.
  intros Hi Hb. unfold pendingPacket, sign, append_hash, append_uint64, append, newPacket.
  cbn [data command pubkey packet_signature].
  rewrite <- Hi at 1. rewrite <- Hb at 1. rewrite !firstn_all.
  cbn [List.app]. rewrite <- !app_assoc. reflexivity.
Qed.

(** X15: a trader that does not know the order reads the announcement of the
    Hub back into an order with the fields the Hub wrote. *)
Theorem announced_order_is_read_back
    (hub : Env) (e : Exchange) (tr : HubOrder) (w : World)
    (sconn dconn : WalletConnector) :
  length (tr_id tr) = hashSize ->
  length (tr_blockHash tr) = hashSize ->
  length (m_myid hub) = addressSize ->
  short_name (a_currency tr) -> short_name (b_currency tr) ->
  0 <= a_amount tr < 2 ^ 64 -> 0 <= b_amount tr < 2 ^ 64 ->
  0 <= createdTime tr < 2 ^ 64 ->
  let packet := pendingPacket hub e tr in
  isEnabled (exchange w) = false ->
  xapp_transaction w (tr_id tr) = None ->
  verify packet (packet_pubkey packet) = true ->
  connectorByCurrency env (a_currency tr) = Some sconn ->
  connectorByCurrency env (b_currency tr) = Some dconn ->
  exists xtx,
    processPendingTransaction env w packet =
      (true, emit (NotifyXBridgeTransactionReceived (tr_id tr)) (store (tr_id tr) xtx w)) /\
    id xtx = tr_id tr /\
    fromCurrency xtx = a_currency tr /\ fromAmount xtx = a_amount tr /\
    toCurrency xtx = b_currency tr /\ toAmount xtx = b_amount tr /\
    hubAddress xtx = m_myid hub /\
    created xtx = createdTime tr /\
    blockHash xtx = tr_blockHash tr /\
    sPubKey xtx = firstn pubkeySize (pubKey e) /\
    state xtx = trPending.
Proof.
  intros Hi Hb Hm Ha Hbc Haa Hba Hct packet He Hx Hv Hs Hd.
  assert (Hdata := pendingPacket_data hub e tr Hi Hb). fold packet in Hdata.
  assert (Hfa := length_currencyField (a_currency tr)).
  assert (Hfb := length_currencyField (b_currency tr)).
  assert (Hla := length_Z_to_le 8 (a_amount tr)).
  assert (Hlb := length_Z_to_le 8 (b_amount tr)).
  assert (Hlc := length_Z_to_le 8 (createdTime tr)).
  assert (Hsize : size packet = 124).
  { unfold size. rewrite Hdata, !length_app, Hi, Hb, Hm, Hfa, Hfb, Hla, Hlb, Hlc.
    reflexivity. }
  assert (Htxid : bytes_at 0 hashSize (data packet) = tr_id tr).
  { rewrite Hdata. apply bytes_at_here. exact Hi. }
  assert (Hsc : string_at 32 (data packet) = a_currency tr).
  { rewrite Hdata. rewrite (string_at_skip 32 0) by exact Hi.
    apply string_at_currencyField. exact Ha. }
  assert (Hsa : uint64_at 40 (data packet) = a_amount tr).
  { rewrite Hdata. rewrite (uint64_at_skip 32 8) by exact Hi.
    rewrite (uint64_at_skip 8 0) by exact Hfa. apply uint64_at_here. exact Haa. }
  assert (Hdc : string_at 48 (data packet) = b_currency tr).
  { rewrite Hdata. rewrite (string_at_skip 32 16) by exact Hi.
    rewrite (string_at_skip 8 8) by exact Hfa.
    rewrite (string_at_skip 8 0) by exact Hla.
    apply string_at_currencyField. exact Hbc. }
  assert (Hda : uint64_at 56 (data packet) = b_amount tr).
  { rewrite Hdata. rewrite (uint64_at_skip 32 24) by exact Hi.
    rewrite (uint64_at_skip 8 16) by exact Hfa.
    rewrite (uint64_at_skip 8 8) by exact Hla.
    rewrite (uint64_at_skip 8 0) by exact Hfb. apply uint64_at_here. exact Hba. }
  assert (Hha : bytes_at 64 addressSize (data packet) = m_myid hub).
  { rewrite Hdata. rewrite (bytes_at_skip 32 32) by exact Hi.
    rewrite (bytes_at_skip 8 24) by exact Hfa.
    rewrite (bytes_at_skip 8 16) by exact Hla.
    rewrite (bytes_at_skip 8 8) by exact Hfb.
    rewrite (bytes_at_skip 8 0) by exact Hlb. apply bytes_at_here. exact Hm. }
  assert (Hcr : uint64_at 84 (data packet) = createdTime tr).
  { rewrite Hdata. rewrite (uint64_at_skip 32 52) by exact Hi.
    rewrite (uint64_at_skip 8 44) by exact Hfa.
    rewrite (uint64_at_skip 8 36) by exact Hla.
    rewrite (uint64_at_skip 8 28) by exact Hfb.
    rewrite (uint64_at_skip 8 20) by exact Hlb.
    rewrite (uint64_at_skip 20 0) by exact Hm. apply uint64_at_here. exact Hct. }
  assert (Hbh : bytes_at 92 hashSize (data packet) = tr_blockHash tr).
  { rewrite Hdata. rewrite (bytes_at_skip 32 60) by exact Hi.
    rewrite (bytes_at_skip 8 52) by exact Hfa.
    rewrite (bytes_at_skip 8 44) by exact Hla.
    rewrite (bytes_at_skip 8 36) by exact Hfb.
    rewrite (bytes_at_skip 8 28) by exact Hlb.
    rewrite (bytes_at_skip 20 8) by exact Hm.
    rewrite (bytes_at_skip 8 0) by exact Hlc. apply bytes_at_last. exact Hb. }
  eexists. split.
  - unfold processPendingTransaction. rewrite He, Hsize. cbn [Z.eqb Pos.eqb negb].
    cbv zeta. rewrite Htxid, Hx, Hv, Hsc, Hdc, Hs, Hd. cbn [negb].
    rewrite Hsa, Hda, Hha, Hcr, Hbh. unfold appendTransaction.
    reflexivity.
  - cbn. repeat split; reflexivity.
Qed.

End RoundTrips.

Section Announce.
Context `{DoubleOps} `{PacketOps} `{Constants} `{!ExchangeOps} `{!HubOps}.
Variable env : Env.
Import XBridgePacket.

(** X20: the Hub announces each of its pending orders once, in their
    order, when its exchange runs, and nothing when it does not; the
    announcement of one order is the packet of the list for that order. *)
Theorem pending_orders_are_announced (w : World) :
  let e := exchange w in
  sent (trace (sendListOfTransactions env w)) =
    sent (trace w) ++
    (if isStarted e then map (pendingPacket env e) (pendingTransactions e) else []) /\
  forall txid : bytes,
    sendTransaction env txid w =
    if isStarted e && matches (pendingTransaction e txid) txid
    then sendPacketBroadcast (pendingPacket env e (pendingTransaction e txid)) w
    else w.
Proof.
  cbv zeta. split.
  - unfold sendListOfTransactions.
    destruct (isStarted (exchange w)); cbn [negb]; [|symmetry; apply app_nil_r].
    generalize (exchange w) at 1 3 as e0. intros e0.
    generalize (pendingTransactions (exchange w)) as l. intros l.
    revert w. induction l as [|x l IH]; intros w; cbn [fold_left map].
    + symmetry. apply app_nil_r.
    + rewrite IH. cbn [sendPacketBroadcast emit trace].
      rewrite sent_app, <- app_assoc. reflexivity.
  - intros txid. unfold sendTransaction.
    destruct (isStarted (exchange w)); cbn [negb andb]; [|reflexivity].
    destruct (matches _ txid); reflexivity.
Qed.

End Announce.

Section XRouterText.
Import XRouter.

Lemma prefix_nil_r (n : string) : n <> EmptyString -> String.prefix n EmptyString = false.
Proof. destruct n; [congruence|reflexivity]. Qed.

Lemma prefix_before_sep (n x b : string) :
  all_chars (fun c => negb (Ascii.eqb c lf)) n = true ->
  String.prefix n (String.append x (String lf b)) = String.prefix n x.
Proof.
  revert x. induction n as [|d n IH]; intros x Hn; [destruct x; reflexivity|].
  cbn [all_chars] in Hn. apply andb_true_iff in Hn as [Hd Hn].
  destruct x as [|e x]; simpl.
  - destruct (ascii_dec d lf) as [->|Hne]; [|reflexivity].
    rewrite Ascii.eqb_refl in Hd. discriminate Hd.
  - destruct (ascii_dec d e); [|reflexivity]. apply IH. exact Hn.
Qed.

Lemma contains_across_sep (n a b : string) :
  n <> EmptyString ->
  all_chars (fun c => negb (Ascii.eqb c lf)) n = true ->
  contains n (String.append a (String lf b)) = contains n a || contains n b.
Proof.
  intros Hne Hn. induction a as [|c a IH].
  - pose proof (prefix_before_sep n EmptyString b Hn) as Hp.
    change (String.prefix n (String lf b) = String.prefix n EmptyString) in Hp.
    change (String.prefix n (String lf b) || contains n b
            = (String.prefix n EmptyString || false) || contains n b).
    rewrite Hp, orb_false_r. reflexivity.
  - pose proof (prefix_before_sep n (String c a) b Hn) as Hp.
    change (String.prefix n (String c (String.append a (String lf b)))
            = String.prefix n (String c a)) in Hp.
    change (String.prefix n (String c (String.append a (String lf b)))
              || contains n (String.append a (String lf b))
            = (String.prefix n (String c a) || contains n a) || contains n b).
    rewrite Hp, IH, !orb_assoc. reflexivity.
Qed.

Lemma append_cons (c : ascii) (a b : string) :
  String.append (String c a) b = String c (String.append a b).
Proof. reflexivity. Qed.

Lemma append_nil_l (b : string) : String.append EmptyString b = b.
Proof. reflexivity. Qed.

Lemma append_assoc (a b c : string) :
  String.append (String.append a b) c = String.append a (String.append b c).
Proof.
  induction a as [|x a IH]; [reflexivity|]. rewrite !append_cons, IH. reflexivity.
Qed.

Lemma append_nil_r (a : string) : String.append a EmptyString = a.
Proof.
  induction a as [|x a IH]; [reflexivity|]. rewrite append_cons, IH. reflexivity.
Qed.

Lemma genPublic_fold (ls : list string) (acc : string) :
  fold_left
    (fun publictext line =>
       if excluded line then publictext
       else String.append publictext (String.append line (String "010" EmptyString)))
    ls acc
  = String.append acc (unlines (List.filter (fun l => negb (excluded l)) ls)).
Proof.
  revert acc. induction ls as [|l ls IH]; intros acc; cbn [fold_left List.filter].
  - symmetry. apply append_nil_r.
  - rewrite IH. destruct (excluded l); cbn [negb]; [reflexivity|].
    cbn [unlines]. rewrite !append_assoc, append_cons, append_nil_l. reflexivity.
Qed.

Lemma genPublic_unlines (rawtext : string) :
  genPublic rawtext = unlines (List.filter (fun l => negb (excluded l)) (split lf rawtext)).
Proof. unfold genPublic. cbv zeta. rewrite genPublic_fold. apply append_nil_l. Qed.

Lemma split_not_nil (sep : ascii) (s : string) : split sep s <> [].
Proof.
  induction s as [|c s IH]; cbn [split]; [discriminate|].
  destruct (Ascii.eqb c sep); [discriminate|].
  destruct (split sep s); [congruence|discriminate].
Qed.

Lemma split_free (sep : ascii) (s : string) :
  Forall (fun l => all_chars (fun c => negb (Ascii.eqb c sep)) l = true) (split sep s).
Proof.
  induction s as [|c s IH]; cbn [split].
  - constructor; [reflexivity|constructor].
  - destruct (Ascii.eqb c sep) eqn:Hc.
    + constructor; [reflexivity|exact IH].
    + destruct (split sep s) as [|l ls] eqn:Hs;
        [exfalso; exact (split_not_nil sep s Hs)|].
      inversion IH as [|? ? Hl Hls]; subst.
      constructor; [|exact Hls]. cbn [all_chars]. rewrite Hc, Hl. reflexivity.
Qed.

Lemma split_line (l r : string) :
  all_chars (fun c => negb (Ascii.eqb c lf)) l = true ->
  split lf (String.append l (String lf r)) = l :: split lf r.
Proof.
  induction l as [|c l IH]; intros Hl.
  - rewrite append_nil_l. cbn [split]. rewrite Ascii.eqb_refl. reflexivity.
  - cbn [all_chars] in Hl. apply andb_true_iff in Hl as [Hc Hl].
    apply negb_true_iff in Hc. rewrite append_cons. cbn [split].
    rewrite Hc, IH by exact Hl. reflexivity.
Qed.

Lemma split_unlines (ls : list string) :
  Forall (fun l => all_chars (fun c => negb (Ascii.eqb c lf)) l = true) ls ->
  split lf (unlines ls) = ls ++ [EmptyString].
Proof.
  induction 1 as [|l ls Hl Hls IH]; cbn [unlines List.app]; [reflexivity|].
  rewrite split_line by exact Hl. rewrite IH. reflexivity.
Qed.

(** X16: the public text of a configuration never holds the private
    prefix, whatever the raw text. *)
Theorem public_text_has_no_private_entry (rawtext : string) :
  contains privatePrefix (genPublic rawtext) = false.
Proof.
  rewrite genPublic_unlines.
  induction (split lf rawtext) as [|l ls IH]; [reflexivity|].
  cbn [List.filter]. destruct (excluded l) eqn:He; cbn [negb]; [exact IH|].
  cbn [unlines]. rewrite contains_across_sep by (discriminate || reflexivity).
  rewrite IH. unfold excluded in He. apply orb_false_iff in He as [-> _]. reflexivity.
Qed.

(** X17: the lines of the public text are the lines of the raw text that are
    not excluded, in their order, and an empty last line. *)
Theorem public_text_keeps_the_other_lines (rawtext : string) :
  split "010" (genPublic rawtext) =
  List.filter (fun l => negb (excluded l)) (split "010" rawtext) ++ [EmptyString].
Proof.
  rewrite genPublic_unlines. apply split_unlines.
  apply List.Forall_forall. intros l Hl. apply filter_In in Hl as [Hl _].
  revert l Hl. apply List.Forall_forall. apply split_free.
Qed.

End XRouterText.

Section XRouterValues.
Context `{IniOps}.
Import XRouterSettings.

Lemma maxFetchLimit_nonneg (fl : Z) : 0 <= maxFetchLimit fl.
Proof. unfold maxFetchLimit, INT_MAX. destruct (fl <? 0) eqn:E; lia. Qed.

(** X18: the limit of a fetch is never negative, whatever the configuration
    holds: a negative value stands for the largest [int]. *)
Theorem fetch_limit_is_never_negative
    (s : Settings) (c : XRouterCommand) (service : string) (def : Z) :
  0 <= commandFetchLimit s c service def.
Proof.
  unfold commandFetchLimit.
  destruct (plugin_of s c service) as [ps|].
  - destruct (has ps "fetchlimit"); apply maxFetchLimit_nonneg.
  - cbv zeta. apply maxFetchLimit_nonneg.
Qed.

Lemma loadWallets_fold (ini : IniConfig) (pl : gmap string IniConfig)
    (l : list string) (ws : gset string) (w : string) :
  w ∈ wallets
    (fold_left
       (fun s w =>
          if negb (String.eqb w EmptyString)
          then mkSettings (m_pt s) (plugins s) ({[ w ]} ∪ wallets s)
          else s)
       l (mkSettings ini pl ws))
  <-> w ∈ ws \/ (w <> EmptyString /\ In w l).
Proof.
  revert ws. induction l as [|x l IH]; intros ws; cbn [fold_left].
  - cbn. tauto.
  - destruct (String.eqb x EmptyString) eqn:Ex; cbn [negb].
    + apply String.eqb_eq in Ex. subst x. rewrite IH. cbn [In].
      split; [tauto|]. intros [?|[Hn [He|?]]]; [tauto| |tauto].
      exfalso. apply Hn. symmetry. exact He.
    + apply String.eqb_neq in Ex. cbn [m_pt plugins wallets]. rewrite IH.
      rewrite elem_of_union, elem_of_singleton. cbn [In].
      split.
      * intros [[->|?]|[? ?]]; [right; split; [exact Ex|left; reflexivity]|tauto|tauto].
      * intros [?|[Hn [->|?]]]; tauto.
Qed.

(** X19: after the wallets are loaded, the node serves exactly the
    currencies that [Main.wallets] names between its commas, the empty
    name never. *)
Theorem the_wallets_are_the_named_ones (s : Settings) (w : string) :
  hasWallet (loadWallets s) w = true <->
  w <> EmptyString /\
  In w (XRouter.split "," (get_string (m_pt s) "Main.wallets" EmptyString)).
Proof.
  unfold hasWallet, loadWallets. cbv zeta. cbn [m_pt plugins].
  rewrite bool_decide_eq_true, loadWallets_fold.
  rewrite elem_of_empty. tauto.
Qed.

End XRouterValues.

(** * The properties on the samples *)

Section TraderSamples.
Import Sample XBridgePacket.
#[local] Existing Instances doubles packets constants books.

(** X1 on a sample: a TransactionHold packet about another order leaves
    the registry keyed and the order of the trader as it is. *)
Lemma handlers_keep_the_registry_sample :
  let w := trader (order "A" trPending false) in
  let w' := snd (run (trader_env btc_late) HTransactionHold w Desk.other_hold_packet) in
  registry_keyed w' /\
  m_transactions w' !! order_id0 = m_transactions w !! order_id0.
Proof.
  destruct (handlers_keep_the_registry (trader_env btc_late) HTransactionHold
              (trader (order "A" trPending false)) Desk.other_hold_packet
              (trader_keyed _ _ _)) as [Hkeyed Hframe].
  split; [exact Hkeyed|]. apply Hframe. vm_compute. discriminate.
Defined.

(** X2 on a sample: the trader does not know the order of the packet. *)
Lemma unknown_order_is_ignored_sample :
  let w := trader (order "A" trPending false) in
  run (trader_env btc_late) HTransactionHold w Desk.other_hold_packet = (true, w).
Proof.
  apply (unknown_order_is_ignored (trader_env btc_late) HTransactionHold
           (trader (order "A" trPending false)) Desk.other_hold_packet).
  - discriminate.
  - vm_compute. reflexivity.
  - vm_compute. reflexivity.
  - vm_compute. reflexivity.
Defined.

(** X22 on a sample: an Init packet without a body. *)
Lemma trader_rejects_only_a_wrong_size_sample :
  let w := trader (order "A" trHold false) in
  fst (run (trader_env btc_late) HTransactionInit w (packet_of xbcTransactionInit [] hub_key))
  = false.
Proof.
  apply (trader_rejects_only_a_wrong_size (trader_env btc_late) HTransactionInit
           (trader (order "A" trHold false)) (packet_of xbcTransactionInit [] hub_key)).
  - discriminate.
  - discriminate.
  - discriminate.
Defined.

(** X3 on a sample: of the coins of 2 and of 3, the first covers an
    amount of 1 and the fees. *)
Lemma selectCoins_takes_the_shortest_covering_prefix_sample :
  exists rest,
    [coin 0 2; coin 1 3] = [coin 0 2] ++ rest /\
    (d_zero + d_of_uint64 2)%D = total d_zero [coin 0 2] /\
    ([coin 0 2] <> [] -> fee = minTxFee1 btc_late (Z.of_nat (length [coin 0 2])) 3) /\
    (rest <> [] -> covers btc_late (d_of_uint64 1) fee [coin 0 2] = true) /\
    (forall p q, [coin 0 2] = p ++ q -> p <> [] -> q <> [] ->
       covers btc_late (d_of_uint64 1) fee p = false).
Proof.
  apply (selectCoins_takes_the_shortest_covering_prefix btc_late (d_of_uint64 1) fee
           [coin 0 2; coin 1 3] [coin 0 2] (d_zero + d_of_uint64 2)%D fee).
  vm_compute. reflexivity.
Defined.

(** X5 on a sample: the one UTXO of a Transaction packet. *)
Lemma readUtxoItems_accepts_checked_outputs_sample :
  let r := readUtxoItems hub_env btc_late (transaction_packet order_id0) 1 148 d_zero [] in
  exists c items new,
    r = Some (c, items) /\
    items = [] ++ new /\ (length new <= 1)%nat /\ c = total d_zero new /\
    Forall (fun e => verifyMessage btc_late e = true /\
                     exists raw, getTxOut btc_late raw = (true, e)) new.
Proof.
  cbv zeta.
  destruct (readUtxoItems hub_env btc_late (transaction_packet order_id0) 1 148 d_zero [])
    as [[c items]|] eqn:E; [|vm_compute in E; discriminate E].
  destruct (readUtxoItems_accepts_checked_outputs hub_env btc_late
              (transaction_packet order_id0) 1 148 d_zero c [] items E) as (new & Hn).
  exists c, items, new. split; [reflexivity|exact Hn].
Defined.

(** X6 on a sample: the maker redeems the deposit of the taker. *)
Lemma counterparty_redeem_is_done_iff_marked_sample :
  let r := redeemOrderCounterpartyDeposit (trader_env btc_late) Desk.redeeming_order 0
             (trader Desk.redeeming_order) in
  fst (fst (fst r)) = hasRedeemedCounterpartyDeposit (snd (fst r)).
Proof.
  apply (counterparty_redeem_is_done_iff_marked (trader_env btc_late) Desk.redeeming_order 0
           (trader Desk.redeeming_order)).
  reflexivity.
Defined.

(** X7 on a sample: the payment of the maker is in the chain already. *)
Lemma payment_already_in_chain_is_done_sample :
  redeemOrderCounterpartyDeposit Desk.replay_env Desk.redeeming_order 0 (trader Desk.redeeming_order) =
  (true, RPC_VERIFY_ALREADY_IN_CHAIN,
   counterpartyDepositRedeemed
     (set_payTx "payment" (set_payTxId "payment-id" Desk.redeeming_order)),
   emit (SendRawTransaction "LTC" "payment") (trader Desk.redeeming_order)).
Proof.
  apply (payment_already_in_chain_is_done Desk.replay_env Desk.redeeming_order Desk.redeeming_order 0
           (trader Desk.redeeming_order) (trader Desk.redeeming_order) btc_late
           (wallet "LTC" (true, mkInfo 400) already_in_chain)
           "payment-id" "payment" EmptyString).
  - reflexivity.
  - reflexivity.
  - reflexivity.
  - reflexivity.
  - reflexivity.
Defined.

(** X8 on a sample: the cancel of the Hub, with the reason [crTimeout]. *)
Lemma cancel_records_the_reason_sample :
  let w := trader (order "A" trCreated true) in
  exists x',
    xapp_transaction (snd (processTransactionCancel (trader_env btc_early) w
                             (cancel_packet hub_key))) order_id0 = Some x' /\
    (x' = order "A" trCreated true \/
     (cancel_state (state x') /\ reason x' = reason_code crTimeout)).
Proof.
  apply (cancel_records_the_reason (trader_env btc_early)
           (trader (order "A" trCreated true)) (cancel_packet hub_key)
           (order "A" trCreated true)).
  - vm_compute. reflexivity.
  - vm_compute. reflexivity.
Defined.

End TraderSamples.

Section DeskSamples.
Import Sample Desk XBridgePacket.
#[local] Existing Instances doubles packets constants book desk.

Lemma desk_hub_wf : hub_wf hub_env.
Proof.
  unfold hub_wf. split; [reflexivity|].
  split; [intros [st p]; split; [|reflexivity]; cbn; destruct (known _); reflexivity|].
  split; [intros [st p] Hs; cbn in Hs; subst st; repeat split|].
  split; [intros [st p] Hs; cbn in Hs; subst st; repeat split|].
  split; [reflexivity|]. split; [reflexivity|]. split; [reflexivity|].
  split; [|split; [reflexivity|]].
  - intros [st p] a b e.
    cbn [a_pk1 book updateTransactionWhenCreatedReceived desk deal_state].
    destruct (bool_decide (st = Transaction.trInitialized)) eqn:E; [|reflexivity].
    apply bool_decide_eq_true_1 in E. subst st.
    destruct (bool_decide (a = taker_address)); reflexivity.
  - intros [st p] a e.
    cbn [a_payTxId book updateTransactionWhenConfirmedReceived desk deal_state].
    destruct (bool_decide (st = Transaction.trCreated) && bool_decide (a = taker_address));
      reflexivity.
Qed.

Lemma desk_trader_wf (x : TransactionDescr) :
  length (id x) = hashSize -> length (from x) = addressSize ->
  trader_wf trader_env (xapp (Desk.trader x)).
Proof.
  intros Hid Hfrom. unfold trader_wf. split; [|split; [|split; [|split]]].
  - intros k y Hk. cbn [Desk.trader xapp m_transactions] in Hk.
    apply lookup_singleton_Some in Hk as [<- <-]. split; [reflexivity|exact Hid].
  - intros k y Hk _. cbn [Desk.trader xapp m_transactions] in Hk.
    apply lookup_singleton_Some in Hk as [_ <-]. exact Hfrom.
  - intros s. reflexivity.
  - intros c conn key Hc. cbn in Hc.
    destruct (String.eqb c "BTC"); [|destruct (String.eqb c "LTC"); [|discriminate Hc]];
      injection Hc as <-; cbn [getKeyId keyed];
      rewrite length_firstn, length_app, repeat_length; unfold addressSize; lia.
  - intros c conn i o a b s u Hc. cbn in Hc.
    destruct (String.eqb c "BTC"); [|destruct (String.eqb c "LTC"); [|discriminate Hc]];
      injection Hc as <-; cbn; lia.
Qed.

(** X9 on a sample: a stranger signs the answer to the Hold packet. *)
Lemma hub_acts_only_for_the_expected_trader_sample :
  let s := Desk.hub Transaction.trJoined in
  snd (run_hub hub_env HHoldApply s (holdApply_packet stranger_key)) = s.
Proof.
  apply (hub_acts_only_for_the_expected_trader hub_env HHoldApply
           (Desk.hub Transaction.trJoined) (holdApply_packet stranger_key)).
  vm_compute. reflexivity.
Defined.

(** X10 on a sample: an answer to the Hold packet without a body. *)
Lemma packet_of_a_wrong_size_has_no_effect_sample :
  let s := Desk.hub Transaction.trJoined in
  snd (processTransactionHoldApply hub_env s
         (packet_of xbcTransactionHoldApply [] maker_key)) = s.
Proof.
  apply (packet_of_a_wrong_size_has_no_effect hub_env true xbcTransactionHoldApply
           (processTransactionHoldApply hub_env) (Desk.hub Transaction.trJoined)
           (packet_of xbcTransactionHoldApply [] maker_key)).
  - reflexivity.
  - reflexivity.
Defined.

(** X11 on a sample: the Hub is sent a Hold packet. *)
Lemma a_session_serves_one_side_sample :
  let s := Desk.hub Transaction.trJoined in
  processPacket hub_env true true s (hold_packet hub_key) = mkOutcome false None false s.
Proof.
  apply (a_session_serves_one_side hub_env true true (Desk.hub Transaction.trJoined)
           (hold_packet hub_key)).
  reflexivity.
Defined.

(** X12 on a sample: the Hub refuses an answer to the Hold packet without
    a body. *)
Lemma refused_packet_changes_nothing_sample :
  let s := Desk.hub Transaction.trJoined in
  after (processPacket hub_env true true s
           (packet_of xbcTransactionHoldApply [] maker_key)) = s.
Proof.
  apply (refused_packet_changes_nothing hub_env true true (Desk.hub Transaction.trJoined)
           (packet_of xbcTransactionHoldApply [] maker_key)).
  - discriminate.
  - discriminate.
  - vm_compute. reflexivity.
Defined.

(** X21 on a sample: the Hub refuses an answer to the Hold packet
    without a body, and calls [DoS] at the level 0. *)
Lemma hub_rejects_only_a_wrong_size_sample :
  let o := processPacket hub_env true true (Desk.hub Transaction.trJoined)
             (packet_of xbcTransactionHoldApply [] maker_key) in
  returned o = false /\ dos o = Some 0.
Proof.
  apply (hub_rejects_only_a_wrong_size hub_env HHoldApply true
           (Desk.hub Transaction.trJoined)
           (packet_of xbcTransactionHoldApply [] maker_key)).
  reflexivity.
Defined.

(** X13 on a sample: the maker answers the Hold packet of the Hub. *)
Lemma packets_of_a_trader_fit_the_hub_sample :
  let s := Desk.trader (order "A" trPending false) in
  let s' := after (processPacket trader_env false true s (hold_packet hub_key)) in
  exists l, sent (trace (xapp s')) = sent (trace (xapp s)) ++ l /\
            Forall (fun p => takes (command p) (size p) = true) l.
Proof.
  apply (packets_of_a_trader_fit_the_hub trader_env true
           (Desk.trader (order "A" trPending false)) (hold_packet hub_key)).
  - apply desk_trader_wf; reflexivity.
  - reflexivity.
Defined.

(** X14 on a sample: the Hub sends the two Init packets when the maker
    answers the Hold packet, the CreateB packet when the maker tells of
    its deposit, and the ConfirmB packet when the maker tells of its
    payment. *)
Lemma packets_of_the_hub_fit_the_traders_sample :
  (let s := Desk.hub Transaction.trJoined in
   let s' := after (processPacket hub_env true true s (holdApply_packet maker_key)) in
   exists l, sent (trace (xapp s')) = sent (trace (xapp s)) ++ l /\
             Forall (fun p => takes (command p) (size p) = true) l) /\
  (let s := Desk.hub Transaction.trInitialized in
   let s' := after (processPacket hub_env true true s createdA_packet) in
   exists l, sent (trace (xapp s')) = sent (trace (xapp s)) ++ l /\
             Forall (fun p => takes (command p) (size p) = true) l) /\
  (let s := Desk.hub Transaction.trCreated in
   let s' := after (processPacket hub_env true true s confirmedA_packet) in
   exists l, sent (trace (xapp s')) = sent (trace (xapp s)) ++ l /\
             Forall (fun p => takes (command p) (size p) = true) l).
Proof.
  split; [|split].
  - apply (packets_of_the_hub_fit_the_traders hub_env true
             (Desk.hub Transaction.trJoined) (holdApply_packet maker_key)).
    + apply desk_hub_wf.
    + discriminate.
    + discriminate.
  - apply (packets_of_the_hub_fit_the_traders hub_env true
             (Desk.hub Transaction.trInitialized) createdA_packet).
    + apply desk_hub_wf.
    + intros _. unfold holds_the_hash. vm_compute. lia.
    + discriminate.
  - apply (packets_of_the_hub_fit_the_traders hub_env true
             (Desk.hub Transaction.trCreated) confirmedA_packet).
    + apply desk_hub_wf.
    + discriminate.
    + intros _. unfold holds_the_payment. vm_compute. lia.
Defined.

(** The packets of that sample: two Init packets, one CreateB packet and
    one ConfirmB packet. *)
Lemma packets_of_the_desk :
  map command (sent (trace (xapp (after (processPacket hub_env true true
     (Desk.hub Transaction.trJoined) (holdApply_packet maker_key)))))) =
    [xbcTransactionInit; xbcTransactionInit] /\
  map command (sent (trace (xapp (after (processPacket hub_env true true
     (Desk.hub Transaction.trInitialized) createdA_packet))))) =
    [xbcTransactionCreateB] /\
  map command (sent (trace (xapp (after (processPacket hub_env true true
     (Desk.hub Transaction.trCreated) confirmedA_packet))))) =
    [xbcTransactionConfirmB].
Proof. repeat split; vm_compute; reflexivity. Qed.

Lemma short_name_sample (c : string) :
  c = "BTC"%string \/ c = "LTC"%string -> short_name c.
Proof.
  intros [-> | ->]; (split; [cbn; lia|]); cbn; intuition discriminate.
Qed.

(** X15 on a sample: a trader that knows no order reads the announcement
    of the order of the Hub. *)
Lemma announced_order_is_read_back_sample :
  let packet := pendingPacket hub_env announcing announced in
  exists xtx,
    processPendingTransaction trader_env newcomer packet =
      (true, emit (NotifyXBridgeTransactionReceived order_id0)
               (store order_id0 xtx newcomer)) /\
    id xtx = order_id0 /\
    fromCurrency xtx = "BTC"%string /\ fromAmount xtx = 100000000 /\
    toCurrency xtx = "LTC"%string /\ toAmount xtx = 200000000 /\
    hubAddress xtx = hub_address /\
    created xtx = 900 /\
    blockHash xtx = repeat x00 32 /\
    sPubKey xtx = firstn pubkeySize hub_key /\
    state xtx = trPending.
Proof.
  apply (announced_order_is_read_back trader_env hub_env announcing announced
           newcomer (keyed btc_late) (keyed ltc)).
  - reflexivity.
  - reflexivity.
  - reflexivity.
  - apply short_name_sample. left. reflexivity.
  - apply short_name_sample. right. reflexivity.
  - cbn. lia.
  - cbn. lia.
  - cbn. lia.
  - reflexivity.
  - reflexivity.
  - vm_compute. reflexivity.
  - reflexivity.
  - reflexivity.
Defined.

End DeskSamples.
